(** * Agent_cloud: context builder, reminder workflow and connection registry

    A shallow embedding of three parts of the per-user assistant:
    - [Memory]: the token estimator, the context builder and the RAG merger
      (src/agent/memory.ts, exercised by tests/unit/memory.test.ts);
    - [Workflow]: the reminder branch of [TaskWorkflow]
      (src/workflows/TaskWorkflow.ts);
    - [Agent]: the connection registry and task creation handler of the
      [PersonalAssistant] durable object (src/agent/PersonalAssistant.ts);
    - [Tasks]: the task statements of the same object;
    - [Maintenance]: the cleanup branch of [TaskWorkflow];
    - [Email]: the [sendEmail] tool;
    - [Router]: the [/ws] route of the worker (src/index.ts). *)

From stdpp Require Import gmap strings list fin_maps pretty sorting.
From Stdlib Require Import ZArith Lia Ascii.

(* ===================================================================== *)
(** ** Shared types (src/types/env.d.ts)                                  *)
(* ===================================================================== *)

Module Types.

Inductive Role := user | assistant | system.

(** [Message] *)
Record Message := mkMessage {
  id : string;
  role : Role;
  content : string;
  timestamp : Z;
  metadata : option (list (string * string))
}.

Inductive Priority := low | medium | high.

(** [Task] *)
Record Task := mkTask {
  task_id : string;
  task_userId : string;
  task_title : string;
  task_description : option string;
  task_dueDate : option Z;
  task_completed : bool;
  task_priority : option Priority;
  task_createdAt : Z;
  task_completedAt : option Z
}.

(** [AgentState] *)
Record AgentState := mkAgentState {
  userId : string;
  conversationHistory : list Message;
  activeWebSockets : nat;
  lastActivity : Z
}.

Inductive Action := reminder | decompose | schedule | cleanup.

Record TaskDetails := mkTaskDetails {
  td_title : string;
  td_description : option string;
  td_priority : option Priority
}.

(** [TaskWorkflowParams] *)
Record TaskWorkflowParams := mkParams {
  p_userId : string;
  p_taskId : string;
  action : Action;
  p_dueDate : option Z;
  taskDetails : option TaskDetails
}.

Record ReminderData := mkReminderData {
  taskTitle : string;
  data_dueDate : Z
}.

(** [ReminderResult], with the fields of [WorkflowStepResult] it extends. *)
Record ReminderResult := mkResult {
  success : bool;
  message : string;
  data : option ReminderData;
  error : option string;
  reminderSent : option bool;
  scheduledFor : option Z;
  r_taskId : option string
}.

(** JavaScript truthiness of an optional number: [undefined], [null] and [0]
    are falsy. *)
Definition truthyNum (x : option Z) : bool :=
  match x with
  | Some n => negb (n =? 0)%Z
  | None => false
  end.

(** [a || b] on optional numbers. *)
Definition orNum (a b : option Z) : option Z :=
  if truthyNum a then a else b.

(** Truthiness of a string: the empty string is falsy. *)
Definition truthyStr (s : string) : bool := negb (String.eqb s "").

Definition SECONDS_PER_DAY : Z := 24 * 60 * 60.

End Types.

(* ===================================================================== *)
(** ** Memory manager                                                     *)
(* ===================================================================== *)

Module Memory.
Import Types.

(** [MemoryOptions]: every field is optional. *)
Record MemoryOptions := mkOptions {
  maxTokens : option nat;
  maxMessages : option nat;
  systemPrompt : option string
}.

Record ConversationContext := mkContext {
  messages : list Message;
  ctxSystemPrompt : option string;
  totalTokens : nat;
  truncated : bool
}.

Definition DEFAULT_MAX_TOKENS : nat := 4000.
Definition DEFAULT_MAX_MESSAGES : nat := 50.
Definition CHARS_PER_TOKEN : nat := 4.

Definition noOptions : MemoryOptions := mkOptions None None None.

Definition effMaxTokens (o : MemoryOptions) : nat :=
  default DEFAULT_MAX_TOKENS (maxTokens o).

Definition effMaxMessages (o : MemoryOptions) : nat :=
  default DEFAULT_MAX_MESSAGES (maxMessages o).

(** Modelled from the spec: the token estimator of src/agent/memory.ts is not
    among the sources (only its unit tests are).  Section 4.2: the estimate
    is the ceiling of the character length divided by four, zero for the
    empty text.  The quotient is rounded up by adding one whenever the
    division leaves a remainder. *)
Definition estimateTokens (text : string) : nat :=
  let n := String.length text in
  n / CHARS_PER_TOKEN + (if n mod CHARS_PER_TOKEN =? 0 then 0 else 1).

Definition systemTokens (o : MemoryOptions) : nat :=
  match systemPrompt o with
  | Some p => estimateTokens p
  | None => 0
  end.

(** The most recent [n] entries of a list, oldest first. *)
Definition lastn {A} (n : nat) (l : list A) : list A :=
  drop (length l - n) l.

(** Result of the newest-to-oldest walk: the accepted messages (already
    oldest first), the running total, and whether the walk stopped before
    the end. *)
Record Walk := mkWalk {
  accepted : list Message;
  running : nat;
  stopped : bool
}.

(** Modelled from the spec: step 3 of section 4.3.  [newestFirst] is the kept
    window read from its newest message backwards; a message is accepted
    unless the running total would exceed [budget], and the walk stops at the
    first message that does not fit. *)
Fixpoint walk (budget total : nat) (newestFirst acc : list Message) : Walk :=
  match newestFirst with
  | [] => mkWalk acc total false
  | m :: older =>
      let t := estimateTokens (content m) in
      if budget <? total + t then mkWalk acc total true
      else walk budget (total + t) older (m :: acc)
  end.

(** Modelled from the spec: [buildContext] of src/agent/memory.ts is not among
    the sources.  Section 4.3: (1) keep the most recent [maxMessages]
    messages; (2) the system prompt's cost opens the running total; (3) walk
    newest to oldest under [maxTokens]; (4) [truncated] when the count cap
    removed a message or the walk stopped early.  (The unit test on the
    default message limit expects [truncated] to stay false when only the
    count cap drops messages; the two readings agree on histories within the
    cap, and nothing proved below rests on the flag outside it.) *)
Definition buildContext (history : list Message) (o : MemoryOptions)
  : ConversationContext :=
  let kept := lastn (effMaxMessages o) history in
  let w := walk (effMaxTokens o) (systemTokens o) (rev kept) [] in
  mkContext (accepted w) (systemPrompt o) (running w)
            ((effMaxMessages o <? length history) || stopped w).

(** Projection of a message for the model call. *)
Record LLMMessage := mkLLM { llmRole : Role; llmContent : string }.

(** Modelled from the spec: [formatForLLM], section 4.3, last paragraph. *)
Definition formatForLLM (c : ConversationContext) : list LLMMessage :=
  match ctxSystemPrompt c with
  | Some p => [mkLLM system p]
  | None => []
  end ++ map (fun m => mkLLM (role m) (content m)) (messages c).

Definition newline : string := String (Ascii.ascii_of_nat 10) EmptyString.

Definition RAG_HEADER : string :=
  "Relevant context from knowledge base:" +:+ newline.

Definition RAG_MESSAGE_ID : string := "rag-context".

(** Snippets joined by a blank line. *)
Fixpoint joinSnippets (snippets : list string) : string :=
  match snippets with
  | [] => ""
  | [s] => s
  | s :: rest => s +:+ newline +:+ newline +:+ joinSnippets rest
  end.

(** Modelled from the spec: [prepareRAGContext] of src/agent/memory.ts is not
    among the sources.  Section 4.4: an empty snippet list delegates to
    [buildContext]; otherwise the conversation is built under 70% of
    [maxTokens] and one system message, tagged [RAG_MESSAGE_ID], is put in
    front of it.  [now] stands for the clock reading stamped on that message;
    its cost is added to the total without being capped. *)
Definition prepareRAGContext (now : Z) (history : list Message)
    (retrievedContext : list string) (o : MemoryOptions) : ConversationContext :=
  match retrievedContext with
  | [] => buildContext history o
  | _ :: _ =>
      let ragContent := RAG_HEADER +:+ joinSnippets retrievedContext in
      let ragMessage := mkMessage RAG_MESSAGE_ID system ragContent now None in
      let conversationTokens := effMaxTokens o * 7 / 10 in
      let sub := buildContext history
                   (mkOptions (Some conversationTokens) (maxMessages o)
                              (systemPrompt o)) in
      mkContext (ragMessage :: messages sub) (ctxSystemPrompt sub)
                (totalTokens sub + estimateTokens ragContent) (truncated sub)
  end.

Definition totalChars (history : list Message) : nat :=
  foldr (fun m n => String.length (content m) + n) 0 history.

Definition sumTokens (msgs : list Message) : nat :=
  foldr (fun m n => estimateTokens (content m) + n) 0 msgs.

End Memory.

(* ===================================================================== *)
(** ** Effects: state passing with exceptions                             *)
(* ===================================================================== *)

Module Effect.

Inductive Result (A : Type) :=
| Ok (a : A)
| Thrown (msg : string).
Arguments Ok {A} a.
Arguments Thrown {A} msg.

(** An [async] computation over a world [W]: it reads and changes the world
    and either returns or throws. *)
Definition M (W A : Type) : Type := W -> Result A * W.

Definition ret {W A} (a : A) : M W A := fun w => (Ok a, w).

Definition throw {W A} (msg : string) : M W A := fun w => (Thrown msg, w).

Definition bind {W A B} (m : M W A) (k : A -> M W B) : M W B :=
  fun w => match m w with
           | (Ok a, w') => k a w'
           | (Thrown e, w') => (Thrown e, w')
           end.

(** [try { body } catch (error) { handler }]: the changes the body made before
    throwing stay. *)
Definition catch {W A} (body : M W A) (handler : string -> M W A) : M W A :=
  fun w => match body w with
           | (Ok a, w') => (Ok a, w')
           | (Thrown e, w') => handler e w'
           end.

Definition modify {W} (f : W -> W) : M W unit := fun w => (Ok tt, f w).

End Effect.

Notation "'let*' x ':=' m 'in' k" := (Effect.bind m (fun x => k))
  (at level 10, x name, k at level 200).

(* ===================================================================== *)
(** ** Durable store rows (migrations/)                                   *)
(* ===================================================================== *)

Module Store.
Import Types.

(** A row of table [tasks]; [completed] is an INTEGER column. *)
Record TaskRow := mkTaskRow {
  row_id : string;
  row_user_id : string;
  row_title : string;
  row_description : option string;
  row_due_date : option Z;
  row_completed : Z;
  row_priority : option Priority;
  row_created_at : Z;
  row_completed_at : option Z
}.

(** A row of table [conversations]. *)
Record ConversationRow := mkConversationRow {
  conv_id : string;
  conv_user_id : string;
  conv_role : Role;
  conv_content : string;
  conv_timestamp : Z;
  conv_metadata : option (list (string * string))
}.

(** What a statement throws when the database does not answer. *)
Definition D1_ERROR : string := "D1_ERROR".

(** [Boolean(n)] for an integer column. *)
Definition Boolean (n : Z) : bool := negb (n =? 0)%Z.

(** [SELECT ... FROM tasks WHERE id = ? AND user_id = ?], then [.first()]. *)
Definition selectTask (table : list TaskRow) (taskId userId : string)
  : option TaskRow :=
  List.find (fun r => String.eqb (row_id r) taskId
                      && String.eqb (row_user_id r) userId) table.

End Store.

(* ===================================================================== *)
(** ** Reminder workflow (src/workflows/TaskWorkflow.ts)                  *)
(* ===================================================================== *)

Module Workflow.
Import Types Store Effect.
Local Open Scope Z_scope.

(** What the workflow cannot control: the engine's retry budget for a failed
    step (the code passes no step configuration, so the platform's setting
    applies), the [tasks] table as other actors leave it, the availability of
    the database, the clock and the identifiers drawn.  All are indexed by a
    logical time that advances with every effect. *)
Record Env := mkEnv {
  retryLimit : nat;
  tasksAt : nat -> list TaskRow;
  dbUp : nat -> bool;
  clockMs : nat -> Z;
  uuidAt : nat -> string
}.

Inductive Event :=
| StepAttempt (name : string)
| Slept (name : string) (ms : Z).

Record World := mkWorld {
  time : nat;
  conversations : list ConversationRow;
  trace : list Event
}.

Abbreviation M := (Effect.M World).

Definition tick (w : World) : World :=
  mkWorld (S (time w)) (conversations w) (trace w).

Definition record (e : Event) (w : World) : World :=
  mkWorld (time w) (conversations w) (trace w ++ [e]).

(** [Math.floor(Date.now() / 1000)] *)
Definition nowSeconds (env : Env) : M Z :=
  fun w => (Ok (clockMs env (time w) / 1000), tick w).

Definition randomUUID (env : Env) : M string :=
  fun w => (Ok (uuidAt env (time w)), tick w).

Definition queryTask (env : Env) (taskId userId : string) : M (option TaskRow) :=
  fun w => if dbUp env (time w)
           then (Ok (selectTask (tasksAt env (time w)) taskId userId), tick w)
           else (Thrown D1_ERROR, tick w).

Definition insertConversation (env : Env) (row : ConversationRow) : M unit :=
  fun w => if dbUp env (time w)
           then (Ok tt, mkWorld (S (time w)) (conversations w ++ [row]) (trace w))
           else (Thrown D1_ERROR, tick w).

(** [step.do(name, callback)]: the engine runs the callback and, when it
    throws, runs it again until the retry budget is spent; the last error is
    then thrown out of [step.do]. *)
Fixpoint attempts {A} (budget : nat) (name : string) (callback : M A) : M A :=
  fun w => match callback (record (StepAttempt name) w) with
           | (Ok a, w') => (Ok a, w')
           | (Thrown e, w') =>
               match budget with
               | O => (Thrown e, w')
               | S budget' => attempts budget' name callback w'
               end
           end.

Definition step_do {A} (env : Env) (name : string) (callback : M A) : M A :=
  attempts (retryLimit env) name callback.

(** [step.sleep(name, ms)] *)
Definition step_sleep (name : string) (ms : Z) : M unit :=
  fun w => (Ok tt, tick (record (Slept name ms) w)).

Definition VERIFY : string := "verify-task".
Definition CALCULATE : string := "calculate-reminder-time".
Definition WAIT : string := "wait-for-reminder-time".
Definition RECHECK : string := "recheck-task-status".
Definition SEND : string := "send-reminder".

Definition taskOfRow (r : TaskRow) : Task :=
  mkTask (row_id r) (row_user_id r) (row_title r) (row_description r)
         (row_due_date r) (Boolean (row_completed r))
         (Some (default medium (row_priority r))) (row_created_at r) None.

(** Callback of step [verify-task]. *)
Definition verifyTask (env : Env) (params : TaskWorkflowParams) : M Task :=
  let* result := queryTask env (p_taskId params) (p_userId params) in
  match result with
  | None => throw "Task not found"
  | Some r => ret (taskOfRow r)
  end.

Record ReminderTime := mkReminderTime {
  reminderTimestamp : Z;
  rt_dueDate : Z;
  shouldSendNow : bool;
  timeUntilReminder : Z
}.

(** Callback of step [calculate-reminder-time]. *)
Definition calculateReminderTime (env : Env) (params : TaskWorkflowParams)
    (task : Task) : M ReminderTime :=
  let dueDate := orNum (p_dueDate params) (task_dueDate task) in
  if negb (truthyNum dueDate) then throw "No due date set for task"
  else
    let d := default 0 dueDate in
    let reminderTimestamp := d - SECONDS_PER_DAY in
    let* now := nowSeconds env in
    ret (mkReminderTime reminderTimestamp d (reminderTimestamp <=? now)
                        (Z.max 0 (reminderTimestamp - now))).

(** Callback of step [recheck-task-status]. *)
Definition recheckTaskStatus (env : Env) (params : TaskWorkflowParams) : M bool :=
  let* result := queryTask env (p_taskId params) (p_userId params) in
  match result with
  | None => ret false
  | Some r => ret (negb (Boolean (row_completed r)))
  end.

Definition dquote : string := String (Ascii.ascii_of_nat 34) EmptyString.

Definition priorityName (p : Priority) : string :=
  match p with low => "low" | medium => "medium" | high => "high" end.

Definition reminderMessage (task : Task) : string :=
  "Reminder: Task " +:+ dquote +:+ task_title task +:+ dquote
  +:+ " is due in 24 hours (Priority: "
  +:+ from_option priorityName "undefined" (task_priority task) +:+ ")".

(** Callback of step [send-reminder]. *)
Definition sendReminder (env : Env) (params : TaskWorkflowParams)
    (task : Task) : M bool :=
  let* messageId := randomUUID env in
  let* now := nowSeconds env in
  let* _ := insertConversation env
         (mkConversationRow messageId (p_userId params) system
            (reminderMessage task) now
            (Some [("type", "task_reminder"); ("taskId", p_taskId params)])) in
  ret true.

Definition skippedCompleted (params : TaskWorkflowParams) : ReminderResult :=
  mkResult true "Task already completed, reminder skipped" None None
           (Some false) None (Some (p_taskId params)).

Definition skippedAfterRecheck (params : TaskWorkflowParams) : ReminderResult :=
  mkResult true "Task completed or deleted before reminder time" None None
           (Some false) None (Some (p_taskId params)).

Definition reminderDone (params : TaskWorkflowParams) (task : Task)
    (rt : ReminderTime) (sent : bool) : ReminderResult :=
  mkResult true ("Reminder sent for task: " +:+ task_title task)
           (Some (mkReminderData (task_title task) (rt_dueDate rt))) None
           (Some sent) (Some (reminderTimestamp rt)) (Some (p_taskId params)).

(** The optional sleep between the calculation and the recheck. *)
Definition waitForReminderTime (rt : ReminderTime) : M unit :=
  if negb (shouldSendNow rt) && (0 <? timeUntilReminder rt)
  then step_sleep WAIT (timeUntilReminder rt * 1000)
  else ret tt.

(** [handleReminderWorkflow(params, step)] *)
Definition handleReminderWorkflow (env : Env) (params : TaskWorkflowParams)
  : M ReminderResult :=
  let* task := step_do env VERIFY (verifyTask env params) in
  if task_completed task then ret (skippedCompleted params)
  else
    let* reminderTime := step_do env CALCULATE (calculateReminderTime env params task) in
    let* _ := waitForReminderTime reminderTime in
    let* taskStillIncomplete := step_do env RECHECK (recheckTaskStatus env params) in
    if negb taskStillIncomplete then ret (skippedAfterRecheck params)
    else
      let* sent := step_do env SEND (sendReminder env params task) in
      ret (reminderDone params task reminderTime sent).

(** How often a step's callback was started, and whether the run slept. *)
Definition isAttemptOf (name : string) (e : Event) : bool :=
  match e with
  | StepAttempt n => String.eqb n name
  | Slept _ _ => false
  end.

Definition attemptsOf (name : string) (tr : list Event) : nat :=
  length (List.filter (isAttemptOf name) tr).

Definition sleeps (tr : list Event) : list Z :=
  omap (fun e => match e with
                 | Slept _ ms => Some ms
                 | StepAttempt _ => None
                 end) tr.

(** What remains of the run once Verify has returned an open task. *)
Definition afterVerify (env : Env) (params : TaskWorkflowParams) (task : Task)
  : M ReminderResult :=
  let* reminderTime := step_do env CALCULATE (calculateReminderTime env params task) in
  let* _ := waitForReminderTime reminderTime in
  let* taskStillIncomplete := step_do env RECHECK (recheckTaskStatus env params) in
  if negb taskStillIncomplete then ret (skippedAfterRecheck params)
  else
    let* sent := step_do env SEND (sendReminder env params task) in
    ret (reminderDone params task reminderTime sent).

(** What Recheck concludes from the table it reads. *)
Definition stillIncomplete (found : option TaskRow) : bool :=
  match found with
  | None => false
  | Some r => negb (Boolean (row_completed r))
  end.

(** A computation is quiet when it leaves the trace and the conversation log
    as they were; it may still advance the time. *)
Definition quiet {A} (m : M A) : Prop :=
  forall w, trace (snd (m w)) = trace w
            /\ conversations (snd (m w)) = conversations w.

End Workflow.

(* ===================================================================== *)
(** ** Personal assistant actor (src/agent/PersonalAssistant.ts)          *)
(* ===================================================================== *)

Module Agent.
Import Types Store Effect.

(** *** Connection registry *)

(** What [serializeAttachment] stores on a handle. *)
Record Attachment := mkAttachment {
  att_userId : string;
  att_connectedAt : Z
}.

(** A transport handle as the platform keeps it: the tags readable on it and
    the attachment, if one was serialized. *)
Record Socket := mkSocket {
  tags : list string;
  attachment : option Attachment
}.

(** [WebSocketSession]; [webSocket] is the identity of the handle. *)
Record WebSocketSession := mkSession {
  webSocket : nat;
  s_userId : string;
  connectedAt : Z
}.

Inductive Outbound :=
| Connected (userId : string) (timestamp : Z)
| SessionLost
| InvalidFormat
| InternalError
| TaskCreated (task : Task) (timestamp : Z)
| Failure (error details : string) (timestamp : Z).

(** Capabilities of the platform's handles: whether [serializeAttachment]
    exists on them and whether the accepted tags can be read back. *)
Record Platform := mkPlatform {
  canSerialize : bool;
  exposesTags : bool
}.

(** The durable object: its fields ([sessions], [state], [userId]), the
    stored blob, and the platform's side (the handles attached to the object,
    the next handle it will hand out, and what was sent on each). *)
Record Actor := mkActor {
  sessions : gmap nat WebSocketSession;
  state : AgentState;
  this_userId : string;
  storage : option AgentState;
  sockets : gmap nat Socket;
  nextHandle : nat;
  outbox : list (nat * Outbound)
}.

Record Response := mkResponse {
  status : nat;
  responseError : option string;
  client : option nat
}.

Definition freshState (now : Z) : AgentState := mkAgentState "" [] 0 now.

(** The object right after its constructor's field initialisers, on a
    platform holding [socks] and [stored]. *)
Definition constructed (stored : option AgentState) (socks : gmap nat Socket)
    (next : nat) (out : list (nat * Outbound)) (now : Z) : Actor :=
  mkActor ∅ (freshState now) "" stored socks next out.

Definition setState (f : AgentState -> AgentState) (a : Actor) : Actor :=
  mkActor (sessions a) (f (state a)) (this_userId a) (storage a) (sockets a)
          (nextHandle a) (outbox a).

Definition setSessions (m : gmap nat WebSocketSession) (a : Actor) : Actor :=
  mkActor m (state a) (this_userId a) (storage a) (sockets a)
          (nextHandle a) (outbox a).

Definition withActive (n : nat) (s : AgentState) : AgentState :=
  mkAgentState (userId s) (conversationHistory s) n (lastActivity s).

Definition withUserId (u : string) (s : AgentState) : AgentState :=
  mkAgentState u (conversationHistory s) (activeWebSockets s) (lastActivity s).

Definition withHistory (h : list Message) (s : AgentState) : AgentState :=
  mkAgentState (userId s) h (activeWebSockets s) (lastActivity s).

Definition withLastActivity (t : Z) (s : AgentState) : AgentState :=
  mkAgentState (userId s) (conversationHistory s) (activeWebSockets s) t.

(** [this.state.activeWebSockets = this.sessions.size] *)
Definition syncActive (a : Actor) : Actor :=
  setState (withActive (size (sessions a))) a.

(** [saveState]: [ctx.storage.put('state', this.state)] *)
Definition saveState (a : Actor) : Actor :=
  mkActor (sessions a) (state a) (this_userId a) (Some (state a)) (sockets a)
          (nextHandle a) (outbox a).

Definition send (ws : nat) (msg : Outbound) (a : Actor) : Actor :=
  mkActor (sessions a) (state a) (this_userId a) (storage a) (sockets a)
          (nextHandle a) (outbox a ++ [(ws, msg)]).

(** [a || b] on strings. *)
Definition orStr (a b : string) : string := if truthyStr a then a else b.

Definition response400 : Response :=
  mkResponse 400 (Some "userId is required") None.

Definition response409 : Response :=
  mkResponse 409 (Some "userId mismatch") None.

(** [u] is the object's user, in memory and in the stored blob. *)
Definition established (u : string) (a : Actor) : Prop :=
  userId (state a) = u
  /\ exists stored, storage a = Some stored /\ userId stored = u.

(** The count kept in the state agrees with the session map. *)
Definition counted (a : Actor) : Prop :=
  activeWebSockets (state a) = size (sessions a).

Section Registry.
Variable platform : Platform.

(** [ctx.acceptWebSocket(server, [tag])] followed by
    [server.serializeAttachment?.(meta)]. *)
Definition acceptWebSocket (tag : string) (meta : Attachment) (a : Actor) : Actor :=
  let sock := mkSocket (if exposesTags platform then [tag] else [])
                       (if canSerialize platform then Some meta else None) in
  mkActor (sessions a) (state a) (this_userId a) (storage a)
          (<[nextHandle a := sock]> (sockets a)) (S (nextHandle a)) (outbox a).

(** [handleWebSocketUpgrade(request)]; [claimed] is the [userId] query
    parameter and [now] the clock reading. *)
Definition handleWebSocketUpgrade (a : Actor) (claimed : option string) (now : Z)
  : Actor * Response :=
  match claimed with
  | None => (a, response400)
  | Some u =>
      if negb (truthyStr u) then (a, response400)
      else
        let canonicalUserId := orStr (userId (state a)) u in
        if truthyStr (userId (state a)) && negb (String.eqb (userId (state a)) u)
        then (a, response409)
        else
          let server := nextHandle a in
          let a1 := acceptWebSocket canonicalUserId
                      (mkAttachment canonicalUserId now) a in
          let a2 := setSessions
                      (<[server := mkSession server canonicalUserId now]>
                         (sessions a1)) a1 in
          let a3 := mkActor (sessions a2) (withUserId canonicalUserId (state a2))
                            canonicalUserId (storage a2) (sockets a2)
                            (nextHandle a2) (outbox a2) in
          let a4 := saveState (syncActive a3) in
          (send server (Connected canonicalUserId now) a4,
           mkResponse 101 None (Some server))
  end.

(** Identity carried by a handle: the attachment's fields where truthy, else
    the first tag, else [fallback]. *)
Definition socketOf (a : Actor) (ws : nat) : Socket :=
  default (mkSocket [] None) (sockets a !! ws).

Definition identityOf (sock : Socket) (fallback : string) (now : Z) : string * Z :=
  let userId := orStr (default "" (head (tags sock))) fallback in
  match attachment sock with
  | Some att =>
      (orStr (att_userId att) userId,
       if (att_connectedAt att =? 0)%Z then now else att_connectedAt att)
  | None => (userId, now)
  end.

(** The recovery block at the head of [webSocketMessage]: [None] when the
    session is lost. *)
Definition recoverSession (a : Actor) (ws : nat) (now : Z) : option Actor :=
  match sessions a !! ws with
  | Some _ => Some a
  | None =>
      let '(userId, connectedAt) := identityOf (socketOf a ws) "" now in
      if truthyStr userId
      then Some (syncActive
                   (setSessions (<[ws := mkSession ws userId connectedAt]>
                                   (sessions a)) a))
      else None
  end.

(** An inbound frame, and what the dispatched handler did to the actor's
    state: the handlers only push onto [conversationHistory], and either
    return or throw. *)
Inductive Incoming :=
| Binary
| Malformed
| Falsy
| Parsed (pushed : list Message) (returned : bool).

(** [webSocketMessage(ws, message)] *)
Definition webSocketMessage (a : Actor) (ws : nat) (msg : Incoming) (now : Z)
  : Actor :=
  match recoverSession a ws now with
  | None => send ws SessionLost a
  | Some a1 =>
      match msg with
      | Binary | Falsy => send ws InvalidFormat a1
      | Malformed => send ws InternalError a1
      | Parsed pushed returned =>
          let a2 := setState
                      (fun s => withHistory (conversationHistory s ++ pushed) s)
                      a1 in
          if returned then saveState (setState (withLastActivity now) a2)
          else send ws InternalError a2
      end
  end.

(** The registry part shared by [webSocketClose] and [webSocketError]. *)
Definition dropSession (a : Actor) (ws : nat) : Actor :=
  match sessions a !! ws with
  | Some _ => syncActive (setSessions (delete ws (sessions a)) a)
  | None => a
  end.

(** [webSocketClose(ws, ...)] *)
Definition webSocketClose (a : Actor) (ws : nat) : Actor :=
  saveState (dropSession a ws).

(** [webSocketError(ws, error)] *)
Definition webSocketError (a : Actor) (ws : nat) : Actor :=
  dropSession a ws.

(** [rebuildSessions()] *)
Definition rebuildSessions (a : Actor) (now : Z) : Actor :=
  let rebuilt :=
    map_imap (fun ws sock =>
                let '(userId, connectedAt) :=
                  identityOf sock (this_userId a) now in
                Some (mkSession ws userId connectedAt))
             (sockets a) in
  syncActive (setSessions rebuilt a).

(** [loadState()]; [history] is what [loadConversationHistory] returns. *)
Definition loadState (a : Actor) (history : list Message) (now : Z) : Actor :=
  match storage a with
  | Some stored =>
      let a1 := mkActor (sessions a) stored (userId stored) (storage a)
                        (sockets a) (nextHandle a) (outbox a) in
      let a2 := if truthyStr (this_userId a1)
                then setState (withHistory history) a1
                else a1 in
      rebuildSessions a2 now
  | None => a
  end.

(** The platform drops a closed handle. *)
Definition detach (ws : nat) (a : Actor) : Actor :=
  mkActor (sessions a) (state a) (this_userId a) (storage a)
          (delete ws (sockets a)) (nextHandle a) (outbox a).

(** Eviction followed by reactivation: the constructor runs again on what the
    platform kept, then [loadState]. *)
Definition reactivate (a : Actor) (history : list Message) (now : Z) : Actor :=
  loadState (constructed (storage a) (sockets a) (nextHandle a) (outbox a) now)
            history now.

(** First activation or reactivation on what the platform holds. *)
Definition activate (stored : option AgentState) (socks : gmap nat Socket)
    (next : nat) (out : list (nat * Outbound)) (history : list Message)
    (now : Z) : Actor :=
  loadState (constructed stored socks next out now) history now.

(** Events delivered to the object, one at a time. *)
Inductive Delivery :=
| Upgrade (claimed : option string) (now : Z)
| Message (ws : nat) (msg : Incoming) (now : Z)
| Close (ws : nat)
| Error (ws : nat)
| Hibernate (history : list Message) (now : Z).

Definition step (a : Actor) (e : Delivery) : Actor :=
  match e with
  | Upgrade claimed now => fst (handleWebSocketUpgrade a claimed now)
  | Message ws msg now => webSocketMessage a ws msg now
  | Close ws => detach ws (webSocketClose a ws)
  | Error ws => detach ws (webSocketError a ws)
  | Hibernate history now => reactivate a history now
  end.

Definition run (a : Actor) (events : list Delivery) : Actor :=
  foldl step a events.

End Registry.

(** *** Task creation *)

(** What the handler cannot control, indexed by a logical time that advances
    with every effect: whether D1 answers, whether the workflow binding
    accepts a new run, the clock and the identifiers drawn.  [d1Up] gives
    the outcome of the statement issued at that time: a statement that the
    database does not run to its end, because it is unreachable or because
    it refuses the statement, throws and leaves the tables as they were.
    The tables themselves do not decide that outcome here: the primary key
    and the foreign key the schema puts on an INSERT are stated with the
    task statements, as [unusedId] and [hasUser]. *)
Record Services := mkServices {
  d1Up : nat -> bool;
  workflowUp : nat -> bool;
  clockMs : nat -> Z;
  uuidAt : nat -> string
}.

Record UserRow := mkUserRow {
  user_id : string;
  user_name : string;
  user_timezone : string;
  user_created_at : Z;
  user_updated_at : Z
}.

Inductive LogLine :=
| Log (text : string)
| LogError (text : string) (cause : string).

(** The world the handlers act on: the tables, the runs handed to the
    workflow binding, the frames sent and the console. *)
Record Backend := mkBackend {
  time : nat;
  users : list UserRow;
  tasks : list TaskRow;
  workflows : list TaskWorkflowParams;
  sent : list (nat * Outbound);
  console : list LogLine
}.

Abbreviation B := (Effect.M Backend).

Definition advance (w : Backend) : Backend :=
  mkBackend (S (time w)) (users w) (tasks w) (workflows w) (sent w) (console w).

Definition WORKFLOW_ERROR : string := "WORKFLOW_ERROR".

Section Handlers.
Variable svc : Services.

(** A D1 statement: it throws when the database does not run it, else it
    applies [f] to the tables and returns [r]. *)
Definition d1 {A} (r : Backend -> A) (f : Backend -> Backend) : B A :=
  fun w => if d1Up svc (time w) then (Ok (r w), advance (f w))
           else (Thrown D1_ERROR, advance w).

Definition dateNow : B Z := fun w => (Ok (clockMs svc (time w)), advance w).

(** [Math.floor(Date.now() / 1000)] *)
Definition epochSeconds : B Z :=
  let* ms := dateNow in ret (ms / 1000)%Z.

Definition drawUUID : B string := fun w => (Ok (uuidAt svc (time w)), advance w).

Definition consoleLog (l : LogLine) : B unit :=
  modify (fun w => mkBackend (time w) (users w) (tasks w) (workflows w)
                             (sent w) (console w ++ [l])).

(** [ws.send(JSON.stringify(msg))] *)
Definition wsSend (ws : nat) (msg : Outbound) : B unit :=
  modify (fun w => mkBackend (time w) (users w) (tasks w) (workflows w)
                             (sent w ++ [(ws, msg)]) (console w)).

(** [env.TASK_WORKFLOW.create({ params })]: returns the instance id. *)
Definition workflowCreate (params : TaskWorkflowParams) : B string :=
  fun w => if workflowUp svc (time w)
           then (Ok (uuidAt svc (time w)),
                 mkBackend (S (time w)) (users w) (tasks w)
                           (workflows w ++ [params]) (sent w) (console w))
           else (Thrown WORKFLOW_ERROR, advance w).

(** [userId.slice(0, 8)] *)
Definition slice8 (s : string) : string := String.substring 0 8 s.

(** [ensureUser(userId)]: every failure is caught and logged. *)
Definition ensureUser (userId : string) : B unit :=
  catch
    (let* existing :=
       d1 (fun w => List.find (fun u => String.eqb (user_id u) userId) (users w))
          (fun w => w) in
     match existing with
     | Some _ => ret tt
     | None =>
         let* now := epochSeconds in
         let* _ :=
           d1 (fun _ => tt)
              (fun w => mkBackend (time w)
                          (users w ++ [mkUserRow userId ("User_" +:+ slice8 userId)
                                                 "UTC" now now])
                          (tasks w) (workflows w) (sent w) (console w)) in
         consoleLog (Log ("Auto-created user profile for: " +:+ userId))
     end)
    (fun e => consoleLog (LogError "Error ensuring user exists:" e)).

(** The fields of a [create_task] frame. *)
Record CreateTaskData := mkCreateTaskData {
  title : string;
  description : option string;
  dueDate : option Z;
  priority : option Priority
}.

(** [x || null] for an optional string. *)
Definition orNull (x : option string) : option string :=
  match x with
  | Some s => if truthyStr s then Some s else None
  | None => None
  end.

(** [createTask(userId, title, description, dueDate, priority = 'medium')] *)
Definition createTask (userId title : string) (description : option string)
    (dueDate : option Z) (priority : option Priority) : B Task :=
  let priority := default medium priority in
  let* taskId := drawUUID in
  let* now := epochSeconds in
  let* _ :=
    d1 (fun _ => tt)
       (fun w => mkBackend (time w) (users w)
                   (tasks w ++ [mkTaskRow taskId userId title (orNull description)
                                          (orNum dueDate None) 0 (Some priority)
                                          now None])
                   (workflows w) (sent w) (console w)) in
  ret (mkTask taskId userId title description dueDate false (Some priority)
              now None).

(** The task [createTask] returns when its INSERT succeeds at time [t + 2]. *)
Definition createdTask (userId : string) (data : CreateTaskData) (t : nat) : Task :=
  mkTask (uuidAt svc t) userId (title data) (description data) (dueDate data)
         false (Some (default medium (priority data)))
         (clockMs svc (S t) / 1000) None.

Definition reminderParams (userId : string) (task : Task) : TaskWorkflowParams :=
  mkParams userId (task_id task) reminder (task_dueDate task)
           (Some (mkTaskDetails (task_title task) (task_description task)
                                (task_priority task))).

(** What the inner [catch] of [handleCreateTask] logs when the binding fails. *)
Definition scheduleFailure : LogLine :=
  LogError "[PersonalAssistant] Failed to schedule reminder workflow:"
           WORKFLOW_ERROR.

(** The inner [try] of [handleCreateTask]: schedule the reminder run. *)
Definition scheduleReminder (userId : string) (task : Task) : B unit :=
  catch
    (let reminderTime := (default 0 (task_dueDate task) - SECONDS_PER_DAY)%Z in
     let* now := epochSeconds in
     if (now <? reminderTime)%Z
     then
       let* instance := workflowCreate (reminderParams userId task) in
       consoleLog (Log ("[PersonalAssistant] Scheduled reminder workflow: "
                        +:+ instance +:+ " for task: " +:+ task_title task))
     else
       consoleLog (Log ("[PersonalAssistant] Task due date too soon for reminder (less than 24h): "
                        +:+ task_title task)))
    (fun e => consoleLog
                (LogError "[PersonalAssistant] Failed to schedule reminder workflow:" e)).

(** [handleCreateTask(ws, session, data)] *)
Definition handleCreateTask (ws : nat) (session : WebSocketSession)
    (data : CreateTaskData) : B unit :=
  let* _ := ensureUser (s_userId session) in
  catch
    (let* task := createTask (s_userId session) (title data) (description data)
                             (dueDate data) (priority data) in
     let* _ := (if truthyNum (task_dueDate task)
                then scheduleReminder (s_userId session) task
                else ret tt) in
     let* timestamp := dateNow in
     wsSend ws (TaskCreated task timestamp))
    (fun e =>
       let* _ := consoleLog (LogError "Error creating task:" e) in
       let* timestamp := dateNow in
       wsSend ws (Failure "Failed to create task" e timestamp)).

End Handlers.

End Agent.

(* ===================================================================== *)
(** ** Sample inputs                                                      *)
(* ===================================================================== *)

Module Samples.
Import Types Store Effect.

Definition msg (i text : string) : Message := mkMessage i user text 0 None.

(** ['A'.repeat(n)] *)
Fixpoint repeatA (n : nat) : string :=
  match n with
  | O => EmptyString
  | S n' => "A" +:+ repeatA n'
  end.

(** A task due two days after the sample clock reading of 1000000 s. *)
Definition openRow : TaskRow :=
  mkTaskRow "t1" "u1" "Pay rent" None (Some 1172800%Z) 0 (Some high) 900000 None.

Definition doneRow : TaskRow :=
  mkTaskRow "t1" "u1" "Pay rent" None (Some 1172800%Z) 1 (Some high) 900000
            (Some 950000%Z).

(** The same task due one hour after the clock reading. *)
Definition soonRow : TaskRow :=
  mkTaskRow "t1" "u1" "Pay rent" None (Some 1003600%Z) 0 (Some high) 900000 None.

Definition undatedRow : TaskRow :=
  mkTaskRow "t1" "u1" "Pay rent" None None 0 (Some high) 900000 None.

Definition params : TaskWorkflowParams :=
  mkParams "u1" "t1" reminder (Some 1172800%Z)
           (Some (mkTaskDetails "Pay rent" None (Some high))).

Definition paramsNoDate : TaskWorkflowParams :=
  mkParams "u1" "t1" reminder None
           (Some (mkTaskDetails "Pay rent" None (Some high))).

(** A healthy database holding [table], a clock standing at 1000000 s and an
    engine that retries a failed step [retries] times. *)
Definition envWith (retries : nat) (table : nat -> list TaskRow) : Workflow.Env :=
  Workflow.mkEnv retries table (fun _ => true) (fun _ => 1000000000%Z)
                 (fun _ => "6f1c").

(** The task is completed while the run sleeps. *)
Definition completedMeanwhile (n : nat) : list TaskRow :=
  if n <? 3 then [openRow] else [doneRow].

Definition start : Workflow.World := Workflow.mkWorld 0 [] [].

(** Every service answers; the clock stands at 1000000 s. *)
Definition healthy : Agent.Services :=
  Agent.mkServices (fun _ => true) (fun _ => true) (fun _ => 1000000000%Z)
                   (fun _ => "6f1c").

(** As [healthy], but the workflow binding refuses every run. *)
Definition noWorkflows : Agent.Services :=
  Agent.mkServices (fun _ => true) (fun _ => false) (fun _ => 1000000000%Z)
                   (fun _ => "6f1c").

Definition emptyBackend : Agent.Backend := Agent.mkBackend 0 [] [] [] [] [].

Definition aliceSession : Agent.WebSocketSession := Agent.mkSession 0 "alice" 10.

(** A [create_task] frame for a task due in two days. *)
Definition rentTask : Agent.CreateTaskData :=
  Agent.mkCreateTaskData "Pay rent" None (Some 1172800%Z) None.

(** A platform whose handles keep attachments but expose no tags. *)
Definition hibernating : Agent.Platform := Agent.mkPlatform true false.

(** A durable object that was never activated before. *)
Definition newborn : Agent.Actor := Agent.activate None ∅ 0 [] [] 0.

(** A second device connects, a chat turn is handled, the object is evicted
    and reactivated, a frame arrives on the first handle, and it closes. *)
Definition dayOfEvents : list Agent.Delivery :=
  [Agent.Upgrade (Some "alice") 20;
   Agent.Message 0 (Agent.Parsed [msg "m1" "hello"; msg "m2" "hi"] true) 30;
   Agent.Hibernate [msg "m1" "hello"; msg "m2" "hi"] 40;
   Agent.Message 0 Agent.Binary 50;
   Agent.Close 0].

End Samples.

(* ===================================================================== *)
(** ** Task statements (src/agent/PersonalAssistant.ts)                   *)
(* ===================================================================== *)

Module Tasks.
Import Types Store Effect Agent.

(** The [WHERE id = ? AND user_id = ?] clause. *)
Definition owns (taskId userId : string) (r : TaskRow) : bool :=
  String.eqb (row_id r) taskId && String.eqb (row_user_id r) userId.

(** [UPDATE tasks SET ... WHERE id = ? AND user_id = ?] *)
Definition updateWhere (taskId userId : string) (set : TaskRow -> TaskRow)
    (table : list TaskRow) : list TaskRow :=
  map (fun r => if owns taskId userId r then set r else r) table.

(** [DELETE FROM tasks WHERE id = ? AND user_id = ?] *)
Definition deleteWhere (taskId userId : string) (table : list TaskRow)
  : list TaskRow :=
  List.filter (fun r => negb (owns taskId userId r)) table.

Definition setTasks (f : list TaskRow -> list TaskRow) (w : Backend) : Backend :=
  mkBackend (time w) (users w) (f (tasks w)) (workflows w) (sent w) (console w).

(** [mapDbTaskToTask(row)] *)
Definition mapDbTaskToTask (row : TaskRow) : Task :=
  mkTask (row_id row) (row_user_id row) (row_title row) (row_description row)
         (row_due_date row) (Boolean (row_completed row))
         (Some (default medium (row_priority row))) (row_created_at row)
         (row_completed_at row).

(** The [updates] argument of [updateTask]: [None] is [undefined]. *)
Record TaskUpdates := mkTaskUpdates {
  new_title : option string;
  new_description : option string;
  new_dueDate : option Z;
  new_priority : option Priority
}.

(** Whether [fields.length > 0]. *)
Definition hasFields (u : TaskUpdates) : bool :=
  bool_decide (is_Some (new_title u)) || bool_decide (is_Some (new_description u))
  || bool_decide (is_Some (new_dueDate u)) || bool_decide (is_Some (new_priority u)).

(** The [SET] list built by [updateTask]: a description or due date that is
    given but falsy is stored as NULL. *)
Definition applyUpdates (u : TaskUpdates) (r : TaskRow) : TaskRow :=
  mkTaskRow (row_id r) (row_user_id r)
            (default (row_title r) (new_title u))
            (match new_description u with
             | Some d => orNull (Some d)
             | None => row_description r
             end)
            (match new_dueDate u with
             | Some d => orNum (Some d) None
             | None => row_due_date r
             end)
            (row_completed r)
            (match new_priority u with
             | Some p => Some p
             | None => row_priority r
             end)
            (row_created_at r) (row_completed_at r).

(** [SET completed = 1, completed_at = ?] *)
Definition markCompleted (completedAt : Z) (r : TaskRow) : TaskRow :=
  mkTaskRow (row_id r) (row_user_id r) (row_title r) (row_description r)
            (row_due_date r) 1 (row_priority r) (row_created_at r)
            (Some completedAt).

Section Statements.
Variable svc : Services.

(** [getTask(userId, taskId)] *)
Definition getTask (userId taskId : string) : B (option Task) :=
  let* result := d1 svc (fun w => selectTask (tasks w) taskId userId)
                        (fun w => w) in
  ret (mapDbTaskToTask <$> result).

(** [updateTask(userId, taskId, updates)] *)
Definition updateTask (userId taskId : string) (updates : TaskUpdates) : B Task :=
  let* existing := getTask userId taskId in
  match existing with
  | None => throw "Task not found"
  | Some _ =>
      let* _ := (if hasFields updates
                 then d1 svc (fun _ => tt)
                         (setTasks (updateWhere taskId userId (applyUpdates updates)))
                 else ret tt) in
      let* updated := getTask userId taskId in
      match updated with
      | None => throw "Failed to fetch updated task"
      | Some t => ret t
      end
  end.

(** [completeTask(userId, taskId)] *)
Definition completeTask (userId taskId : string) : B Task :=
  let* existing := getTask userId taskId in
  match existing with
  | None => throw "Task not found"
  | Some _ =>
      let* completedAt := epochSeconds svc in
      let* _ := d1 svc (fun _ => tt)
                   (setTasks (updateWhere taskId userId (markCompleted completedAt))) in
      let* updated := getTask userId taskId in
      match updated with
      | None => throw "Failed to fetch completed task"
      | Some t => ret t
      end
  end.

(** [deleteTask(userId, taskId)] *)
Definition deleteTask (userId taskId : string) : B unit :=
  let* existing := getTask userId taskId in
  match existing with
  | None => throw "Task not found"
  | Some _ => d1 svc (fun _ => tt) (setTasks (deleteWhere taskId userId))
  end.

(** [ORDER BY created_at DESC]: a row comes before the rows created no
    later.  The order of rows created at the same second is the database's
    choice; the merge sort below is one such choice. *)
Definition newestFirst (a b : TaskRow) : Prop :=
  (row_created_at b <= row_created_at a)%Z.

Local Instance newestFirst_dec a b : Decision (newestFirst a b).
Proof. unfold newestFirst. apply _. Defined.

(** [listUserTasks(userId, completed?)] *)
Definition listUserTasks (userId : string) (completed : option bool)
  : B (list Task) :=
  let* result :=
    d1 svc
       (fun w =>
          merge_sort newestFirst
            (List.filter
               (fun r => String.eqb (row_user_id r) userId
                         && match completed with
                            | Some c => (row_completed r =? (if c then 1 else 0))%Z
                            | None => true
                            end)
               (tasks w)))
       (fun w => w) in
  ret (map mapDbTaskToTask result).

End Statements.

(** What one call on the task table is: the statements the handlers run. *)
Inductive Call :=
| Create (userId title : string) (description : option string)
         (dueDate : option Z) (priority : option Priority)
| Update (userId taskId : string) (updates : TaskUpdates)
| Complete (userId taskId : string)
| Delete (userId taskId : string).

Definition perform (svc : Services) (c : Call) (w : Backend) : Backend :=
  match c with
  | Create u t d due p => snd (createTask svc u t d due p w)
  | Update u i upd => snd (updateTask svc u i upd w)
  | Complete u i => snd (completeTask svc u i w)
  | Delete u i => snd (deleteTask svc u i w)
  end.

(** A row is coherent when it is marked completed exactly when it carries a
    completion time. *)
Definition coherent (r : TaskRow) : Prop :=
  row_completed r <> 0%Z <-> is_Some (row_completed_at r).

(** The rows of a table that belong to other users than [u]. *)
Definition rowsOfOthers (u : string) (table : list TaskRow) : list TaskRow :=
  List.filter (fun r => negb (String.eqb (row_user_id r) u)) table.

(** A task as it reads back from the table: a description or due date that
    is falsy was stored as NULL. *)
Definition asStored (t : Task) : Task :=
  mkTask (task_id t) (task_userId t) (task_title t)
         (orNull (task_description t)) (orNum (task_dueDate t) None)
         (task_completed t) (task_priority t) (task_createdAt t)
         (task_completedAt t).

(** The database answers every statement. *)
Definition alwaysUp (svc : Services) : Prop := forall n, d1Up svc n = true.

(** The schema of [tasks] (migration 0003): [id TEXT PRIMARY KEY] and
    [FOREIGN KEY (user_id) REFERENCES users(id)].  An INSERT is accepted for
    a user that has a row in [users] and an id that no task row carries. *)
Definition hasUser (userId : string) (w : Backend) : Prop :=
  Exists (fun u => user_id u = userId) (users w).

Definition unusedId (taskId : string) (w : Backend) : Prop :=
  Forall (fun r => row_id r <> taskId) (tasks w).

(** The two constraints as properties of the tables. *)
Definition primaryKey (w : Backend) : Prop := NoDup (map row_id (tasks w)).

Definition foreignKey (w : Backend) : Prop :=
  Forall (fun r => hasUser (row_user_id r) w) (tasks w).

Definition callUser (c : Call) : string :=
  match c with
  | Create u _ _ _ _ | Update u _ _ | Complete u _ | Delete u _ => u
  end.

End Tasks.

(* ===================================================================== *)
(** ** Cleanup workflow (src/workflows/TaskWorkflow.ts)                   *)
(* ===================================================================== *)

Module Maintenance.
Import Types Store Effect Agent Tasks.

Definition RETENTION : Z := 30 * 24 * 60 * 60.

(** [WHERE user_id = ? AND completed = 1 AND completed_at < ?]; a NULL
    completion time satisfies no comparison. *)
Definition expired (userId : string) (threshold : Z) (r : TaskRow) : bool :=
  String.eqb (row_user_id r) userId
  && (row_completed r =? 1)%Z
  && match row_completed_at r with
     | Some c => (c <? threshold)%Z
     | None => false
     end.

(** The rows a cleanup for [userId] can never remove: those of other users,
    those not marked completed and those without a completion time. *)
Definition untouchable (userId : string) (r : TaskRow) : bool :=
  negb (String.eqb (row_user_id r) userId)
  || negb (row_completed r =? 1)%Z
  || negb (bool_decide (is_Some (row_completed_at r))).

Record CleanupResult := mkCleanupResult {
  cleanup_success : bool;
  cleanup_message : string;
  deletedCount : nat
}.

Section Cleanup.
Variable svc : Services.
Variable retryLimit : nat.

(** [step.do(name, callback)] on this world: run the callback again while it
    throws and the retry budget lasts. *)
Fixpoint retrying {A} (budget : nat) (callback : B A) : B A :=
  fun w => match callback w with
           | (Ok a, w') => (Ok a, w')
           | (Thrown e, w') =>
               match budget with
               | O => (Thrown e, w')
               | S budget' => retrying budget' callback w'
               end
           end.

(** Callback of step [cleanup-old-tasks]: the DELETE and its
    [meta.changes]. *)
Definition cleanupOldTasks (userId : string) : B nat :=
  let* now := epochSeconds svc in
  let thirtyDaysAgo := (now - RETENTION)%Z in
  d1 svc (fun w => length (List.filter (expired userId thirtyDaysAgo) (tasks w)))
         (setTasks (List.filter (fun r => negb (expired userId thirtyDaysAgo r)))).

(** [handleCleanupWorkflow(params, step)] *)
Definition handleCleanupWorkflow (params : TaskWorkflowParams) : B CleanupResult :=
  let* deletedCount := retrying retryLimit (cleanupOldTasks (p_userId params)) in
  ret (mkCleanupResult true
         ("Cleaned up " +:+ pretty deletedCount +:+ " old completed tasks")
         deletedCount).

End Cleanup.

End Maintenance.

(* ===================================================================== *)
(** ** The [sendEmail] tool                                               *)
(* ===================================================================== *)

Module Email.
Import Effect.

Definition LT : ascii := ascii_of_nat 60.
Definition GT : ascii := ascii_of_nat 62.

(** Whether a [>] occurs in the text. *)
Fixpoint hasClose (s : string) : bool :=
  match s with
  | EmptyString => false
  | String c rest => Ascii.eqb c GT || hasClose rest
  end.

(** [s.replace(/<[^>]*>/g, '')], read left to right.  Outside a match, a [<]
    opens one exactly when a [>] follows somewhere, and the match then runs to
    the first [>]; every other character is kept.  [inTag] tells that the
    scan is inside a match, dropping characters up to that [>]. *)
Fixpoint strip (inTag : bool) (s : string) : string :=
  match s with
  | EmptyString => EmptyString
  | String c rest =>
      if inTag then strip (negb (Ascii.eqb c GT)) rest
      else if Ascii.eqb c LT && hasClose rest then strip true rest
      else String c (strip false rest)
  end.

Definition stripTags (html : string) : string := strip false html.

(** Whether the pattern [<[^>]*>] matches somewhere in the text. *)
Fixpoint containsTag (s : string) : bool :=
  match s with
  | EmptyString => false
  | String c rest => (Ascii.eqb c LT && hasClose rest) || containsTag rest
  end.

Record SendEmailParams := mkSendEmailParams {
  to : string;
  subject : string;
  textBody : string;
  htmlBody : option string
}.

(** The JSON body posted to the mail service, with the token header. *)
Record MailRequest := mkMailRequest {
  token : string;
  From : string;
  To : string;
  Subject : string;
  TextBody : string;
  HtmlBody : option string
}.

Record EmailResult := mkEmailResult {
  messageId : option string;
  result_to : option string;
  submittedAt : option string
}.

Record ToolResult := mkToolResult {
  success : bool;
  data : option EmailResult;
  message : option string;
  error : option string
}.

(** What [response.json()] gives: it throws, or yields an object of which
    the tool reads these fields. *)
Inductive Json :=
| Unparseable (reason : string)
| Parsed (Message MessageID ToField SubmittedAt : option string).

(** What [fetch] gives: it throws, or answers with a status and a body. *)
Inductive FetchOutcome :=
| NetworkError (reason : string)
| Answer (ok : bool) (status : nat) (body : Json).

(** Calls made on [context.agent]. *)
Inductive AgentCall :=
| CheckRateLimit (userId action : string) (maxCalls : nat) (windowMs : Z)
| RecordRateLimitCall (userId action : string).

Record MailWorld := mkMailWorld {
  requests : list MailRequest;
  agentCalls : list AgentCall
}.

(** The tool's context: the two secrets, the user, the answer of the agent's
    rate limiter and the behaviour of the network. *)
Record ToolContext := mkToolContext {
  POSTMARK_API_KEY : option string;
  POSTMARK_FROM_EMAIL : option string;
  ctx_userId : string;
  rateLimitAllows : bool;
  network : MailRequest -> FetchOutcome
}.

Abbreviation T := (Effect.M MailWorld).

Definition MAX_SUBJECT_LENGTH : nat := 200.
Definition MAX_BODY_LENGTH : nat := 10 * 1024.

(** Truthiness of an optional string: [undefined] and [''] are falsy. *)
Definition truthy (x : option string) : bool :=
  match x with
  | Some s => negb (String.eqb s "")
  | None => false
  end.

Definition failure (reason : string) : ToolResult :=
  mkToolResult false None None (Some reason).

Definition checkRateLimit (ctx : ToolContext) (action : string)
    (maxCalls : nat) (windowMs : Z) : T bool :=
  fun w => (Ok (rateLimitAllows ctx),
            mkMailWorld (requests w)
              (agentCalls w ++ [CheckRateLimit (ctx_userId ctx) action
                                               maxCalls windowMs])).

Definition recordRateLimitCall (ctx : ToolContext) (action : string) : T unit :=
  modify (fun w => mkMailWorld (requests w)
                     (agentCalls w ++ [RecordRateLimitCall (ctx_userId ctx) action])).

(** [await fetch(url, { method: 'POST', ... })] *)
Definition fetch (ctx : ToolContext) (req : MailRequest) : T (bool * nat * Json) :=
  fun w => let w' := mkMailWorld (requests w ++ [req]) (agentCalls w) in
           match network ctx req with
           | NetworkError reason => (Thrown reason, w')
           | Answer ok status body => (Ok (ok, status, body), w')
           end.

(** [await response.json()] *)
Definition json (body : Json) : T Json :=
  match body with
  | Unparseable reason => throw reason
  | Parsed _ _ _ _ => ret body
  end.

Definition bodyTooLong : string :=
  "Email body too long (max " +:+ pretty MAX_BODY_LENGTH +:+ " characters)".

Definition htmlTooLong : string :=
  "Email HTML body too long (max " +:+ pretty MAX_BODY_LENGTH +:+ " characters)".

(** The body of the [try] block of [execute]. *)
Definition attempt (params : SendEmailParams) (ctx : ToolContext) : T ToolResult :=
  if negb (truthy (POSTMARK_API_KEY ctx)) || negb (truthy (POSTMARK_FROM_EMAIL ctx))
  then ret (failure "PostMark API credentials not configured")
  else
    let* allowed := checkRateLimit ctx "email" 10 3600000%Z in
    if negb allowed
    then ret (failure "Rate limit exceeded. You can send up to 10 emails per hour. Please try again later.")
    else if MAX_SUBJECT_LENGTH <? String.length (subject params)
    then ret (failure "Email subject too long (max 200 characters)")
    else if MAX_BODY_LENGTH <? String.length (textBody params)
    then ret (failure bodyTooLong)
    else
      let sanitizedHtmlBody :=
        if truthy (htmlBody params)
        then Some (stripTags (default "" (htmlBody params)))
        else None in
      if MAX_BODY_LENGTH <? String.length (default "" sanitizedHtmlBody)
      then ret (failure htmlTooLong)
      else
        let* response :=
          fetch ctx (mkMailRequest (default "" (POSTMARK_API_KEY ctx))
                       (default "" (POSTMARK_FROM_EMAIL ctx)) (to params)
                       (subject params) (textBody params) sanitizedHtmlBody) in
        let '(ok, status, body) := response in
        if negb ok
        then
          let* errorData := catch (json body) (fun _ => ret (Parsed None None None None)) in
          match errorData with
          | Parsed (Some m) _ _ _ =>
              if String.eqb m "" then ret (failure ("Email API error: " +:+ pretty status))
              else ret (failure m)
          | _ => ret (failure ("Email API error: " +:+ pretty status))
          end
        else
          let* data := json body in
          let emailResult :=
            match data with
            | Parsed _ i t s => mkEmailResult i t s
            | Unparseable _ => mkEmailResult None None None
            end in
          let* _ := recordRateLimitCall ctx "email" in
          ret (mkToolResult true (Some emailResult)
                            (Some ("Email sent to " +:+ to params)) None).

(** [sendEmailTool.execute(params, context)] *)
Definition execute (params : SendEmailParams) (ctx : ToolContext) : T ToolResult :=
  catch (attempt params ctx)
        (fun e => ret (failure (if String.eqb e "" then "Failed to send email" else e))).

End Email.

(* ===================================================================== *)
(** ** The worker's [/ws] route (src/index.ts)                            *)
(* ===================================================================== *)

Module Router.
Import Types Agent.

(** What the route and the object read of a request. *)
Record Request := mkRequest {
  upgradeHeader : option string;
  queryUserId : option string;
  pathname : string
}.

Definition wantsWebSocket (req : Request) : bool :=
  bool_decide (upgradeHeader req = Some "websocket").

Definition response426 : Response :=
  mkResponse 426 (Some "Expected WebSocket Upgrade") None.

Definition routeResponse400 : Response :=
  mkResponse 400 (Some "userId query parameter is required") None.

Definition response404 : Response := mkResponse 404 (Some "Not found") None.

Definition responseState : Response := mkResponse 200 None None.

Section WithPlatform.
Variable platform : Platform.

(** [PersonalAssistant.fetch(request)] *)
Definition actorFetch (a : Actor) (req : Request) (now : Z) : Actor * Response :=
  if wantsWebSocket req
  then handleWebSocketUpgrade platform a (queryUserId req) now
  else if String.eqb (pathname req) "/api/state" then (a, responseState)
  else (a, response404).

(** The durable objects that exist, by the name [idFromName] was given.  An
    object that was never addressed starts on an empty platform. *)
Definition objectNamed (objects : gmap string Actor) (name : string) (now : Z)
  : Actor :=
  default (activate None ∅ 0 [] [] now) (objects !! name).

(** [app.get('/ws', ...)]: the object is the one named after the [userId]
    query parameter. *)
Definition wsRoute (objects : gmap string Actor) (req : Request) (now : Z)
  : gmap string Actor * Response :=
  if negb (wantsWebSocket req) then (objects, response426)
  else
    match queryUserId req with
    | None => (objects, routeResponse400)
    | Some userId =>
        if negb (truthyStr userId) then (objects, routeResponse400)
        else
          let '(a, response) :=
            actorFetch (objectNamed objects userId now) req now in
          (<[userId := a]> objects, response)
    end.

(** What reaches the objects: requests through the route, and the platform's
    deliveries for the handles an object holds. *)
Inductive Traffic :=
| Visit (req : Request) (now : Z)
| Deliver (name : string) (e : Delivery).

Definition isUpgrade (e : Delivery) : bool :=
  match e with
  | Upgrade _ _ => true
  | _ => false
  end.

Definition serve (objects : gmap string Actor) (t : Traffic) : gmap string Actor :=
  match t with
  | Visit req now => fst (wsRoute objects req now)
  | Deliver name e =>
      match objects !! name with
      | Some a => if isUpgrade e then objects
                  else <[name := step platform a e]> objects
      | None => objects
      end
  end.

End WithPlatform.

(** An object named [name] has no user yet or serves [name], in memory and
    in its stored blob. *)
Definition keyedBy (name : string) (a : Actor) : Prop :=
  (userId (state a) = "" \/ userId (state a) = name)
  /\ forall stored, storage a = Some stored ->
                    userId stored = "" \/ userId stored = name.

(** Every object of the namespace is keyed by its name. *)
Definition allKeyed (objects : gmap string Actor) : Prop :=
  forall name a, objects !! name = Some a -> keyedBy name a.

End Router.

(* ===================================================================== *)
(** ** Invariants of the connection registry                             *)
(* ===================================================================== *)

Module RegistryInvariants.
Import Types Agent.

(** The registry mirrors the platform: one session per attached handle,
    handles attached only once the state was stored, and every handle older
    than the next one to be handed out. *)
Definition mirrors (a : Actor) : Prop :=
  (forall k, is_Some (sessions a !! k) <-> is_Some (sockets a !! k))
  /\ (storage a = None -> sockets a = ∅)
  /\ forall k, is_Some (sockets a !! k) -> k < nextHandle a.

(** A handle whose tag and attachment name [u]. *)
Definition named (u : string) (sock : Socket) : Prop :=
  (forall t, head (tags sock) = Some t -> t = u)
  /\ forall att, attachment sock = Some att -> att_userId att = u.

(** Every session, every tag and every attachment names the user [u]. *)
Definition servesOnly (u : string) (a : Actor) : Prop :=
  this_userId a = u
  /\ (forall k s, sessions a !! k = Some s -> s_userId s = u /\ webSocket s = k)
  /\ forall k sock, sockets a !! k = Some sock ->
       (forall t, head (tags sock) = Some t -> t = u)
       /\ forall att, attachment sock = Some att -> att_userId att = u.




End RegistryInvariants.

(* ===================================================================== *)
(** ** The row a reminder leaves in the conversation log                  *)
(* ===================================================================== *)

Module ReminderLog.
Import Types Store Workflow.

(** The values bound by the INSERT of step [send-reminder]. *)
Definition reminderRow (params : TaskWorkflowParams) (task : Task)
    (messageId : string) (now : Z) : ConversationRow :=
  mkConversationRow messageId (p_userId params) system (reminderMessage task) now
    (Some [("type", "task_reminder"); ("taskId", p_taskId params)]).

End ReminderLog.

(* ===================================================================== *)
(** ** Further sample inputs                                              *)
(* ===================================================================== *)

Module MoreSamples.
Import Types Store Agent Tasks Samples.

(** A configured mail tool whose service accepts every message. *)
Definition postmark : Email.ToolContext :=
  Email.mkToolContext (Some "pm-key") (Some "assistant@example.com") "u1" true
    (fun req => Email.Answer true 200
                  (Email.Parsed None (Some "b7bc") (Some (Email.To req))
                                (Some "2025-01-01T00:00:00Z"))).

Definition welcome : Email.SendEmailParams :=
  Email.mkSendEmailParams "bob@example.com" "Welcome" "Hello Bob"
                          (Some "<p>Hello <b>Bob</b></p>").

Definition noMail : Email.MailWorld := Email.mkMailWorld [] [].

(** The users that have a profile row. *)
Definition profiles : list UserRow :=
  [mkUserRow "u1" "User_u1" "UTC" 100 100; mkUserRow "u2" "User_u2" "UTC" 100 100].

(** A backend whose task table holds [rows]. *)
Definition tableOf (rows : list TaskRow) : Backend :=
  mkBackend 0 profiles rows [] [] [].

(** A later task of the same user, and a task of somebody else. *)
Definition milkRow : TaskRow :=
  mkTaskRow "t2" "u1" "Buy milk" (Some "two litres") None 0 None 950000 None.

Definition otherRow : TaskRow :=
  mkTaskRow "t3" "u2" "Call home" None None 1 (Some low) 100 (Some 200%Z).

Definition retitle : TaskUpdates :=
  mkTaskUpdates (Some "Pay the rent") (Some EmptyString) None None.

(** As [healthy], with the clock standing at 5000000 s, more than thirty
    days after the completion of [doneRow]. *)
Definition muchLater : Services :=
  mkServices (fun _ => true) (fun _ => true) (fun _ => 5000000000%Z)
             (fun _ => "6f1c").

Definition cleanupParams : TaskWorkflowParams :=
  mkParams "u1" "" cleanup None None.

End MoreSamples.

(* ===================================================================== *)
(** ** Properties of the memory manager                                   *)
(* ===================================================================== *)

Module MemoryFacts.
Import Types Memory Samples.

(** Values pinned by the unit tests. *)
Example estimate_ABC : estimateTokens "ABC" = 1.
Proof. reflexivity. Qed.

Example estimate_Hello : estimateTokens "Hello" = 2.
Proof. reflexivity. Qed.

Example build_three :
  let c := buildContext [msg "1" "Hello"; msg "2" "Hi there!";
                         msg "3" "How are you?"] noOptions in
  map id (messages c) = ["1"; "2"; "3"] /\ truncated c = false
  /\ totalTokens c = 8.
Proof. vm_compute. auto. Qed.

Example build_with_prompt :
  totalTokens (buildContext [msg "1" "Hello"]
                 (mkOptions None None (Some "You are a helpful assistant."))) = 9.
Proof. reflexivity. Qed.

Example rag_two_snippets :
  let c := prepareRAGContext 0 [msg "1" "Test"]
             ["First piece of context"; "Second piece of context"] noOptions in
  map id (messages c) = ["rag-context"; "1"]
  /\ (content <$> head (messages c))
     = Some ("Relevant context from knowledge base:" +:+ newline
             +:+ "First piece of context" +:+ newline +:+ newline
             +:+ "Second piece of context").
Proof. vm_compute. auto. Qed.

Example estimate_400 : estimateTokens (repeatA 400) = 100.
Proof. reflexivity. Qed.

Example build_accumulates :
  totalTokens (buildContext [msg "1" (repeatA 100); msg "2" (repeatA 200);
                             msg "3" (repeatA 300)] noOptions) = 150.
Proof. reflexivity. Qed.

Example build_single_too_long :
  let c := buildContext [msg "1" (repeatA (200 * 100))]
             (mkOptions (Some 4000) None None) in
  messages c = [] /\ truncated c = true /\ totalTokens c = 0.
Proof. vm_compute. auto. Qed.

Example build_drops_oldest :
  let c := buildContext [msg "old-1" (repeatA 1000); msg "old-2" (repeatA 1000);
                         msg "recent" (repeatA 1000); msg "newest" (repeatA 500)]
             (mkOptions (Some 500) None None) in
  map id (messages c) = ["recent"; "newest"] /\ truncated c = true.
Proof. vm_compute. auto. Qed.

(** The estimate is the ceiling of a quarter of the length: the least [k]
    with [length <= 4 * k]. *)
Lemma estimate_ceiling (text : string) (k : nat) :
  estimateTokens text <= k <-> String.length text <= 4 * k.
Proof.
  unfold estimateTokens, CHARS_PER_TOKEN.
  generalize (String.length text); intros n.
  pose proof (Nat.div_mod_eq n 4) as Hdm.
  pose proof (Nat.mod_upper_bound n 4 ltac:(lia)) as Hlt.
  destruct (Nat.eqb_spec (n mod 4) 0); lia.
Qed.

Lemma estimate_lower (text : string) :
  String.length text <= 4 * estimateTokens text.
Proof. apply estimate_ceiling. lia. Qed.

Lemma estimate_upper (text : string) :
  4 * estimateTokens text <= String.length text + 3.
Proof.
  unfold estimateTokens, CHARS_PER_TOKEN.
  generalize (String.length text); intros n.
  pose proof (Nat.div_mod_eq n 4) as Hdm.
  pose proof (Nat.mod_upper_bound n 4 ltac:(lia)) as Hlt.
  destruct (Nat.eqb_spec (n mod 4) 0); lia.
Qed.

Lemma sumTokens_app (a b : list Message) :
  sumTokens (a ++ b) = sumTokens a + sumTokens b.
Proof. induction a as [|m a IH]; simpl; [reflexivity | rewrite IH; lia]. Qed.

Lemma sumTokens_rev (l : list Message) : sumTokens (rev l) = sumTokens l.
Proof.
  induction l as [|m l IH]; simpl; [reflexivity|].
  rewrite sumTokens_app, IH. simpl. lia.
Qed.

(** The characters of a history never exceed four times its token sum, so
    the character bound is the weaker of the two. *)
Lemma totalChars_le_tokens (h : list Message) :
  totalChars h <= 4 * sumTokens h.
Proof.
  induction h as [|m h IH]; simpl; [lia|].
  pose proof (estimate_lower (content m)). lia.
Qed.

Lemma lastn_all {A} (n : nat) (l : list A) : length l <= n -> lastn n l = l.
Proof. intros H. unfold lastn. replace (length l - n) with 0 by lia. reflexivity. Qed.

Lemma lastn_suffix {A} (n : nat) (l : list A) :
  l = take (length l - n) l ++ lastn n l.
Proof. unfold lastn. symmetry. apply take_drop. Qed.

(** When everything fits, the walk accepts every message. *)
Lemma walk_fits (budget : nat) (newestFirst : list Message) :
  forall total acc,
    total + sumTokens newestFirst <= budget ->
    walk budget total newestFirst acc
    = mkWalk (rev newestFirst ++ acc) (total + sumTokens newestFirst) false.
Proof.
  induction newestFirst as [|m older IH]; intros total acc Hfit; simpl in *.
  - f_equal. lia.
  - destruct (Nat.ltb_spec budget (total + estimateTokens (content m))); [lia|].
    rewrite IH by lia. rewrite <- app_assoc. simpl. f_equal. lia.
Qed.

(** The running total is the opening total plus the cost of what was
    accepted. *)
Lemma walk_running (budget : nat) (newestFirst : list Message) :
  forall total acc,
    running (walk budget total newestFirst acc) + sumTokens acc
    = total + sumTokens (accepted (walk budget total newestFirst acc)).
Proof.
  induction newestFirst as [|m older IH]; intros total acc; simpl.
  - lia.
  - destruct (budget <? total + estimateTokens (content m)); simpl; [lia|].
    specialize (IH (total + estimateTokens (content m)) (m :: acc)).
    simpl in IH. lia.
Qed.

(** What the walk accepts is the tail end of the window, in window order. *)
Lemma walk_suffix (budget : nat) (newestFirst : list Message) :
  forall total acc,
    exists older,
      rev newestFirst ++ acc
      = older ++ accepted (walk budget total newestFirst acc).
Proof.
  induction newestFirst as [|m rest IH]; intros total acc; simpl.
  - exists []. reflexivity.
  - destruct (budget <? total + estimateTokens (content m)); simpl.
    + exists (rev rest ++ [m]). reflexivity.
    + destruct (IH (total + estimateTokens (content m)) (m :: acc)) as [older H].
      exists older. rewrite <- H, <- app_assoc. reflexivity.
Qed.

Lemma build_suffix (history : list Message) (o : MemoryOptions) :
  exists older, history = older ++ messages (buildContext history o).
Proof.
  unfold buildContext; simpl.
  destruct (walk_suffix (effMaxTokens o) (rev (lastn (effMaxMessages o) history))
              (systemTokens o) []) as [older H].
  rewrite rev_involutive, app_nil_r in H.
  exists (take (length history - effMaxMessages o) history ++ older).
  rewrite <- app_assoc, <- H. apply lastn_suffix.
Qed.

(** C1, as amended.  A history of at most [maxMessages] messages whose
    per-message estimates, together with the system prompt's estimate when
    one is given, sum to at most [maxTokens] is returned whole, in its
    original order, and [truncated] is false. *)
Theorem build_context_untruncated (history : list Message) (o : MemoryOptions) :
  systemTokens o + sumTokens history <= effMaxTokens o ->
  length history <= effMaxMessages o ->
  truncated (buildContext history o) = false
  /\ messages (buildContext history o) = history.
Proof.
  intros Htok Hcount. unfold buildContext.
  rewrite lastn_all by exact Hcount.
  rewrite walk_fits by (rewrite sumTokens_rev; exact Htok).
  simpl. rewrite rev_involutive, app_nil_r. split; [|reflexivity].
  destruct (Nat.ltb_spec (effMaxMessages o) (length history)); [lia | reflexivity].
Qed.

Lemma build_context_untruncated_witness :
  let h := [msg "1" "Hello"; msg "2" "Hi there!"; msg "3" "How are you?"] in
  let o := mkOptions (Some 10) (Some 3) (Some "Be brief") in
  truncated (buildContext h o) = false /\ messages (buildContext h o) = h.
Proof.
  apply (build_context_untruncated
           [msg "1" "Hello"; msg "2" "Hi there!"; msg "3" "How are you?"]
           (mkOptions (Some 10) (Some 3) (Some "Be brief"))).
  - vm_compute. lia.
  - vm_compute. lia.
Defined.

(** C1, as stated, fails: two one-character messages hold two characters,
    within four times a budget of one token, yet each costs a whole token and
    the older one is dropped. *)
Lemma build_context_char_bound_fails :
  ~ (forall history o,
        totalChars history <= 4 * effMaxTokens o ->
        length history <= effMaxMessages o ->
        truncated (buildContext history o) = false
        /\ messages (buildContext history o) = history).
Proof.
  intros H.
  destruct (H [msg "1" "A"; msg "2" "A"] (mkOptions (Some 1) None None))
    as [Htr _]; [vm_compute; lia | vm_compute; lia |].
  vm_compute in Htr. discriminate.
Qed.

(** The system prompt consumes budget too: one four-character message fits a
    budget of one token, but not next to a four-character prompt. *)
Lemma build_context_prompt_consumes_budget :
  let h := [msg "1" "AAAA"] in
  let o := mkOptions (Some 1) None (Some "AAAA") in
  totalChars h <= 4 * effMaxTokens o /\ length h <= effMaxMessages o
  /\ truncated (buildContext h o) = true /\ messages (buildContext h o) = [].
Proof. vm_compute. repeat split; lia. Qed.

(** C7, as amended.  The estimate is the ceiling of length over four (the
    least [k] with [length <= 4k]), it is zero on the empty text, and a built
    context's [totalTokens] is the system prompt's estimate (zero when there
    is none) plus the sum of the estimates of the messages it holds. *)
Theorem estimate_and_total (text : string) (history : list Message)
    (o : MemoryOptions) :
  (forall k, estimateTokens text <= k <-> String.length text <= 4 * k)
  /\ estimateTokens "" = 0
  /\ totalTokens (buildContext history o)
     = systemTokens o + sumTokens (messages (buildContext history o))
  /\ (systemPrompt o = None ->
      totalTokens (buildContext history o)
      = sumTokens (messages (buildContext history o))).
Proof.
  split; [intros k; apply estimate_ceiling|].
  split; [reflexivity|].
  assert (Htot : totalTokens (buildContext history o)
                 = systemTokens o + sumTokens (messages (buildContext history o))).
  { unfold buildContext; simpl.
    pose proof (walk_running (effMaxTokens o)
                  (rev (lastn (effMaxMessages o) history)) (systemTokens o) []) as H.
    simpl in H. lia. }
  split; [exact Htot|].
  intros Hnone. rewrite Htot. unfold systemTokens. rewrite Hnone. reflexivity.
Qed.

(** C7, as stated, fails on a context built with a system prompt: the prompt's
    seven tokens are counted in [totalTokens] next to the message's two. *)
Lemma total_counts_system_prompt :
  ~ (forall history o,
        totalTokens (buildContext history o)
        = sumTokens (messages (buildContext history o))).
Proof.
  intros H.
  specialize (H [msg "1" "Hello"]
                (mkOptions None None (Some "You are a helpful assistant."))).
  vm_compute in H. discriminate.
Qed.

(** C8.  With no retrieved snippet the RAG merger returns what the context
    builder returns for the same history and options, and every message of
    the result comes from the history: none is added. *)
Theorem rag_empty_delegates (now : Z) (history : list Message)
    (o : MemoryOptions) :
  prepareRAGContext now history [] o = buildContext history o
  /\ exists older,
       history = older ++ messages (prepareRAGContext now history [] o).
Proof.
  split; [reflexivity|]. simpl. apply build_suffix.
Qed.

End MemoryFacts.

(* ===================================================================== *)
(** ** Properties of the reminder workflow                                *)
(* ===================================================================== *)

Module WorkflowFacts.
Import Types Store Effect Workflow Samples.
Local Open Scope Z_scope.

Lemma quiet_queryTask env taskId userId : quiet (queryTask env taskId userId).
Proof. intros w. unfold queryTask. destruct (dbUp env (time w)); auto. Qed.

Lemma quiet_verifyTask env p : quiet (verifyTask env p).
Proof.
  intros w. unfold verifyTask, bind.
  pose proof (quiet_queryTask env (p_taskId p) (p_userId p) w) as Hq.
  destruct (queryTask env (p_taskId p) (p_userId p) w) as [[[r|]|e] w']; exact Hq.
Qed.

Lemma quiet_recheckTaskStatus env p : quiet (recheckTaskStatus env p).
Proof.
  intros w. unfold recheckTaskStatus, bind.
  pose proof (quiet_queryTask env (p_taskId p) (p_userId p) w) as Hq.
  destruct (queryTask env (p_taskId p) (p_userId p) w) as [[[r|]|e] w']; exact Hq.
Qed.

Lemma quiet_calculateReminderTime env p t : quiet (calculateReminderTime env p t).
Proof.
  intros w. unfold calculateReminderTime.
  destruct (negb (truthyNum (orNum (p_dueDate p) (task_dueDate t)))); auto.
Qed.

(** A step over a quiet callback records its attempts, at least one and at
    most one more than the retry budget, and nothing else. *)
Lemma attempts_quiet {A} (name : string) (callback : M A) :
  quiet callback ->
  forall budget w,
    conversations (snd (attempts budget name callback w)) = conversations w
    /\ exists n, (1 <= n <= S budget)%nat
         /\ trace (snd (attempts budget name callback w))
            = trace w ++ replicate n (StepAttempt name).
Proof.
  intros Hq budget. induction budget as [|b IH]; intros w; simpl;
    destruct (Hq (record (StepAttempt name) w)) as [Htr Hcv];
    destruct (callback (record (StepAttempt name) w)) as [[a|e] w'];
    simpl in *.
  1-3: (split; [exact Hcv|]; exists 1%nat; split; [lia|]; exact Htr).
  destruct (IH w') as [Hcv' [n [Hn Htr']]].
  split; [congruence|].
  exists (S n). split; [lia|].
  rewrite Htr', Htr, <- app_assoc. reflexivity.
Qed.

Lemma sleeps_app (a b : list Event) : sleeps (a ++ b) = sleeps a ++ sleeps b.
Proof. apply omap_app. Qed.

Lemma sleeps_attempts (n : nat) (name : string) :
  sleeps (replicate n (StepAttempt name)) = [].
Proof. induction n as [|n IH]; simpl; [reflexivity | exact IH]. Qed.

Lemma attemptsOf_app (name : string) (a b : list Event) :
  attemptsOf name (a ++ b) = (attemptsOf name a + attemptsOf name b)%nat.
Proof. unfold attemptsOf. rewrite List.filter_app, length_app. reflexivity. Qed.

Lemma attemptsOf_same (name : string) (n : nat) :
  attemptsOf name (replicate n (StepAttempt name)) = n.
Proof.
  induction n as [|n IH]; [reflexivity|].
  unfold attemptsOf in *. simpl. rewrite String.eqb_refl. simpl. congruence.
Qed.

Lemma attemptsOf_other (name other : string) (n : nat) :
  other <> name ->
  attemptsOf name (replicate n (StepAttempt other)) = 0%nat.
Proof.
  intros Hne. induction n as [|n IH]; [reflexivity|].
  unfold attemptsOf in *. simpl.
  destruct (String.eqb_spec other name); [contradiction | exact IH].
Qed.

(** A callback that throws the same error at each of the next [S budget]
    instants exhausts the budget: the step fails with that error after
    [S budget] attempts. *)
Lemma attempts_exhausted {A} (name msg : string) (callback : M A) :
  (forall w, trace (snd (callback w)) = trace w) ->
  forall budget w,
    (forall k w', (k <= budget)%nat -> time w' = (time w + k)%nat ->
                  fst (callback w') = Thrown msg
                  /\ time (snd (callback w')) = S (time w')
                  /\ conversations (snd (callback w')) = conversations w') ->
    exists w1,
      attempts budget name callback w = (Thrown msg, w1)
      /\ conversations w1 = conversations w
      /\ trace w1 = trace w ++ replicate (S budget) (StepAttempt name).
Proof.
  intros Htrace budget. induction budget as [|b IH]; intros w Hfail; simpl.
  - destruct (Hfail 0%nat (record (StepAttempt name) w)) as [Hres [_ Hcv]];
      [lia | simpl; lia |].
    pose proof (Htrace (record (StepAttempt name) w)) as Htr.
    destruct (callback (record (StepAttempt name) w)) as [r w1]; simpl in *.
    subst r. exists w1. auto.
  - destruct (Hfail 0%nat (record (StepAttempt name) w)) as [Hres [Htime Hcv]];
      [lia | simpl; lia |].
    pose proof (Htrace (record (StepAttempt name) w)) as Htr.
    destruct (callback (record (StepAttempt name) w)) as [r w1]; simpl in *.
    subst r.
    destruct (IH w1) as [w2 [Hrun [Hcv2 Htr2]]].
    { intros k w' Hk Hw'. apply (Hfail (S k) w'); lia. }
    exists w2. split; [exact Hrun|]. split; [congruence|].
    rewrite Htr2, Htr, <- app_assoc. reflexivity.
Qed.

Lemma attempts_ok {A} (budget : nat) (name : string) (callback : M A) w a w' :
  callback (record (StepAttempt name) w) = (Ok a, w') ->
  attempts budget name callback w = (Ok a, w').
Proof. intros H. destruct budget; simpl; rewrite H; reflexivity. Qed.

(** A step whose callback leaves the trace alone records only its own
    attempts. *)
Lemma attempts_trace {A} (name : string) (callback : M A) :
  (forall w, trace (snd (callback w)) = trace w) ->
  forall budget w,
    exists n, trace (snd (attempts budget name callback w))
              = trace w ++ replicate n (StepAttempt name).
Proof.
  intros Hq budget. induction budget as [|b IH]; intros w; simpl;
    pose proof (Hq (record (StepAttempt name) w)) as Htr;
    destruct (callback (record (StepAttempt name) w)) as [[a|e] w'];
    simpl in *.
  1-3: (exists 1%nat; exact Htr).
  destruct (IH w') as [n Htr'].
  exists (S n). rewrite Htr', Htr, <- app_assoc. reflexivity.
Qed.

Lemma trace_sendReminder env p t w :
  trace (snd (sendReminder env p t w)) = trace w.
Proof.
  unfold sendReminder, bind, randomUUID, nowSeconds, insertConversation, ret.
  simpl. destruct (dbUp env (S (S (time w)))); reflexivity.
Qed.

Lemma run_after_verify env p w t w1 :
  step_do env VERIFY (verifyTask env p) w = (Ok t, w1) ->
  task_completed t = false ->
  handleReminderWorkflow env p w = afterVerify env p t w1.
Proof.
  intros Hv Hc. unfold handleReminderWorkflow. unfold bind at 1.
  rewrite Hv, Hc. reflexivity.
Qed.

Lemma verify_step_quiet env p w r w1 :
  step_do env VERIFY (verifyTask env p) w = (r, w1) ->
  conversations w1 = conversations w
  /\ exists n, (1 <= n <= S (retryLimit env))%nat
       /\ trace w1 = trace w ++ replicate n (StepAttempt VERIFY).
Proof.
  intros H.
  pose proof (attempts_quiet VERIFY _ (quiet_verifyTask env p) (retryLimit env) w)
    as Hq.
  unfold step_do in H. rewrite H in Hq. exact Hq.
Qed.

(** Verify on a table that has no row for the pair. *)
Lemma verifyTask_absent env p w :
  dbUp env (time w) = true ->
  selectTask (tasksAt env (time w)) (p_taskId p) (p_userId p) = None ->
  verifyTask env p w = (Thrown "Task not found", tick w).
Proof.
  intros Hup Hnone. unfold verifyTask, bind, queryTask.
  rewrite Hup, Hnone. reflexivity.
Qed.

(** C2, as amended.  When the task is absent at every attempt of Verify, the
    step throws [Task not found] each time; the engine retries it like any
    failing step until the retry budget is spent, and the run then ends with
    that error: no later step starts, nothing is slept and nothing is written
    to the conversation log. *)
Theorem verify_missing_task_fails env p w :
  (forall k, (k <= retryLimit env)%nat ->
     dbUp env (time w + k) = true
     /\ selectTask (tasksAt env (time w + k)) (p_taskId p) (p_userId p) = None) ->
  exists w1,
    handleReminderWorkflow env p w = (Thrown "Task not found", w1)
    /\ conversations w1 = conversations w
    /\ trace w1 = trace w ++ replicate (S (retryLimit env)) (StepAttempt VERIFY).
Proof.
  intros Habsent.
  destruct (attempts_exhausted VERIFY "Task not found" (verifyTask env p)
              (fun w => proj1 (quiet_verifyTask env p w)) (retryLimit env) w)
    as [w1 [Hrun [Hcv Htr]]].
  { intros k w' Hk Hw'. destruct (Habsent k Hk) as [Hup Hnone].
    rewrite <- Hw' in Hup, Hnone.
    rewrite (verifyTask_absent env p w' Hup Hnone). simpl. auto. }
  exists w1. split; [|auto].
  unfold handleReminderWorkflow, bind, step_do. rewrite Hrun. reflexivity.
Qed.

(** C9.  When Verify returns a task already marked completed, the run returns
    at once with [success] and [reminderSent = false]: only Verify's attempts
    are on the trace (no reminder time computed, no sleep) and the
    conversation log is untouched. *)
Theorem completed_task_skips env p w t w1 :
  step_do env VERIFY (verifyTask env p) w = (Ok t, w1) ->
  task_completed t = true ->
  handleReminderWorkflow env p w = (Ok (skippedCompleted p), w1)
  /\ success (skippedCompleted p) = true
  /\ reminderSent (skippedCompleted p) = Some false
  /\ conversations w1 = conversations w
  /\ exists n, trace w1 = trace w ++ replicate n (StepAttempt VERIFY).
Proof.
  intros Hv Hc.
  destruct (verify_step_quiet env p w _ w1 Hv) as [Hcv [n [_ Htr]]].
  split.
  - unfold handleReminderWorkflow, bind. rewrite Hv, Hc. reflexivity.
  - repeat split; try reflexivity; [exact Hcv | exists n; exact Htr].
Qed.

Lemma attempts_always_throws {A} (name msg : string) (callback : M A) :
  (forall w, callback w = (Thrown msg, w)) ->
  forall budget w,
    attempts budget name callback w
    = (Thrown msg,
       mkWorld (time w) (conversations w)
               (trace w ++ replicate (S budget) (StepAttempt name))).
Proof.
  intros Hthrow budget. induction budget as [|b IH]; intros w; simpl.
  - rewrite Hthrow. reflexivity.
  - rewrite Hthrow, IH. simpl. rewrite <- app_assoc. reflexivity.
Qed.

Lemma step_trace {A} env (name : string) (callback : M A) w r w' :
  (forall w, trace (snd (callback w)) = trace w) ->
  step_do env name callback w = (r, w') ->
  exists n, trace w' = trace w ++ replicate n (StepAttempt name).
Proof.
  intros Hq H. destruct (attempts_trace name callback Hq (retryLimit env) w) as [n Hn].
  unfold step_do in H. rewrite H in Hn. exists n. exact Hn.
Qed.

Lemma sleeps_step (tr : list Event) (n : nat) (name : string) :
  sleeps (tr ++ replicate n (StepAttempt name)) = sleeps tr.
Proof. rewrite sleeps_app, sleeps_attempts. apply app_nil_r. Qed.

(** The calculation step on a resolvable due date succeeds at its first
    attempt. *)
Lemma calculate_step env p t w d :
  orNum (p_dueDate p) (task_dueDate t) = Some d -> d <> 0 ->
  step_do env CALCULATE (calculateReminderTime env p t) w
  = (Ok (mkReminderTime (d - 86400) d
           (d - 86400 <=? clockMs env (time w) / 1000)
           (Z.max 0 (d - 86400 - clockMs env (time w) / 1000))),
     tick (record (StepAttempt CALCULATE) w)).
Proof.
  intros Hd Hnz. apply attempts_ok.
  unfold calculateReminderTime. rewrite Hd. simpl.
  destruct (Z.eqb_spec d 0); [contradiction|]. reflexivity.
Qed.

(** The send step returns [true] whenever it returns. *)
Lemma send_returns_true env p t :
  forall budget w sent w',
    attempts budget SEND (sendReminder env p t) w = (Ok sent, w') -> sent = true.
Proof.
  induction budget as [|b IH]; intros w sent w'; simpl;
    unfold sendReminder at 1, bind, randomUUID, nowSeconds, insertConversation, ret;
    simpl; destruct (dbUp env _); simpl; try congruence.
  apply IH.
Qed.

(** What the run does once the wait is over: Recheck, then Send unless the
    task is no longer open.  Only attempts of these two steps are recorded,
    and a result is the skip or the reminder for the computed time. *)
Lemma after_wait env p t rt w3 res w' :
  (let* taskStillIncomplete := step_do env RECHECK (recheckTaskStatus env p) in
   if negb taskStillIncomplete then ret (skippedAfterRecheck p)
   else
     let* sent := step_do env SEND (sendReminder env p t) in
     ret (reminderDone p t rt sent)) w3 = (res, w') ->
  (exists n m, trace w' = trace w3 ++ replicate n (StepAttempt RECHECK)
                                   ++ replicate m (StepAttempt SEND))
  /\ forall r, res = Ok r ->
       r = skippedAfterRecheck p \/ r = reminderDone p t rt true.
Proof.
  unfold bind at 1. intros Hrun.
  destruct (step_do env RECHECK (recheckTaskStatus env p) w3) as [r3 w4] eqn:Hre.
  destruct (step_trace env RECHECK _ _ _ _
              (fun w => proj1 (quiet_recheckTaskStatus env p w)) Hre) as [n Htr].
  destruct r3 as [[|]|e]; cbv beta iota delta [negb] in Hrun.
  - unfold bind in Hrun.
    destruct (step_do env SEND (sendReminder env p t) w4) as [r4 w5] eqn:Hse.
    destruct (step_trace env SEND _ _ _ _ (trace_sendReminder env p t) Hse)
      as [m Htr'].
    split.
    + exists n, m. destruct r4; inversion Hrun; subst; rewrite Htr', Htr;
        symmetry; apply app_assoc.
    + intros r ->. destruct r4 as [sent|e]; inversion Hrun; subst.
      right. f_equal. exact (send_returns_true env p t _ _ _ _ Hse).
  - inversion Hrun; subst. split.
    + exists n, 0%nat. rewrite Htr. simpl. rewrite app_nil_r. reflexivity.
    + intros r [= <-]. left. reflexivity.
  - inversion Hrun; subst. split.
    + exists n, 0%nat. rewrite Htr. simpl. rewrite app_nil_r. reflexivity.
    + intros r Hr. discriminate.
Qed.

(** C4.  In a run where Verify returned an open task: when a due date
    resolves to [d], the run starts the calculation step exactly once, the
    step yields the instant [d - 86400], [shouldSendNow] holds exactly when
    that instant is not after the current time, and then the run does not
    sleep at all, while otherwise it sleeps once, until that instant; a
    result of the run is the skip after Recheck or the reminder scheduled for
    [d - 86400].  When no due date resolves, the step throws
    [No due date set for task] at every attempt the engine grants, one more
    than the retry budget, and the run ends with that error with no sleep,
    no Recheck, no Send and nothing written. *)
Theorem reminder_time_computed env p w t w1 :
  step_do env VERIFY (verifyTask env p) w = (Ok t, w1) ->
  task_completed t = false ->
  (forall d,
      orNum (p_dueDate p) (task_dueDate t) = Some d -> d <> 0 ->
      let now := clockMs env (time w1) / 1000 in
      exists rt w2,
        step_do env CALCULATE (calculateReminderTime env p t) w1 = (Ok rt, w2)
        /\ reminderTimestamp rt = d - 86400
        /\ (shouldSendNow rt = true <-> d - 86400 <= now)
        /\ (shouldSendNow rt = true -> waitForReminderTime rt w2 = (Ok tt, w2))
        /\ (shouldSendNow rt = false ->
            waitForReminderTime rt w2
            = (Ok tt, tick (record (Slept WAIT ((d - 86400 - now) * 1000)) w2)))
        /\ forall res w',
             handleReminderWorkflow env p w = (res, w') ->
             attemptsOf CALCULATE (trace w') = S (attemptsOf CALCULATE (trace w))
             /\ sleeps (trace w')
                = sleeps (trace w)
                  ++ (if shouldSendNow rt then []
                      else [(d - 86400 - now) * 1000])
             /\ forall r, res = Ok r ->
                  r = skippedAfterRecheck p \/ r = reminderDone p t rt true)
  /\ (truthyNum (orNum (p_dueDate p) (task_dueDate t)) = false ->
      exists w',
        handleReminderWorkflow env p w = (Thrown "No due date set for task", w')
        /\ conversations w' = conversations w
        /\ attemptsOf CALCULATE (trace w')
           = (S (retryLimit env) + attemptsOf CALCULATE (trace w))%nat
        /\ sleeps (trace w') = sleeps (trace w)
        /\ attemptsOf RECHECK (trace w') = attemptsOf RECHECK (trace w)
        /\ attemptsOf SEND (trace w') = attemptsOf SEND (trace w)).
Proof.
  intros Hv Hc.
  destruct (verify_step_quiet env p w _ w1 Hv) as [Hcv1 [n1 [_ Htr1]]].
  split.
  - intros d Hd Hnz now.
    pose proof (calculate_step env p t w1 d Hd Hnz) as Hcalc.
    fold now in Hcalc.
    set (rt := mkReminderTime (d - 86400) d (d - 86400 <=? now)
                 (Z.max 0 (d - 86400 - now))) in *.
    set (w2 := tick (record (StepAttempt CALCULATE) w1)) in *.
    assert (Hnow : shouldSendNow rt = true ->
                   waitForReminderTime rt w2 = (Ok tt, w2)).
    { intros Hs. unfold waitForReminderTime. rewrite Hs. reflexivity. }
    assert (Hlater : shouldSendNow rt = false ->
                     waitForReminderTime rt w2
                     = (Ok tt, tick (record (Slept WAIT ((d - 86400 - now) * 1000))
                                       w2))).
    { intros Hs. unfold waitForReminderTime. rewrite Hs. simpl in Hs. simpl.
      apply Z.leb_gt in Hs.
      destruct (Z.ltb_spec 0 (Z.max 0 (d - 86400 - now))); [|lia].
      unfold step_sleep. do 4 f_equal. lia. }
    exists rt, w2. split; [exact Hcalc|].
    split; [reflexivity|].
    split; [apply Z.leb_le|].
    split; [exact Hnow|]. split; [exact Hlater|].
    intros res w' Hrun.
    rewrite (run_after_verify env p w t w1 Hv Hc) in Hrun.
    unfold afterVerify in Hrun. unfold bind at 1 in Hrun.
    rewrite Hcalc in Hrun. unfold bind at 1 in Hrun.
    destruct (shouldSendNow rt) eqn:Hs.
    + rewrite (Hnow eq_refl) in Hrun.
      destruct (after_wait env p t rt w2 res w' Hrun) as [[n [m Htr]] Hres].
      subst w2. simpl in Htr. rewrite Htr, Htr1.
      rewrite !attemptsOf_app, !sleeps_app, !sleeps_attempts,
        (attemptsOf_other CALCULATE VERIFY), (attemptsOf_other CALCULATE RECHECK),
        (attemptsOf_other CALCULATE SEND) by discriminate.
      unfold attemptsOf. simpl.
      split; [lia|]. split; [rewrite !app_nil_r; reflexivity | exact Hres].
    + rewrite (Hlater eq_refl) in Hrun.
      destruct (after_wait env p t rt _ res w' Hrun) as [[n [m Htr]] Hres].
      subst w2. simpl in Htr. rewrite Htr, Htr1.
      rewrite !attemptsOf_app, !sleeps_app, !sleeps_attempts,
        (attemptsOf_other CALCULATE VERIFY), (attemptsOf_other CALCULATE RECHECK),
        (attemptsOf_other CALCULATE SEND) by discriminate.
      unfold attemptsOf. simpl.
      split; [lia|]. split; [rewrite !app_nil_r; reflexivity | exact Hres].
  - intros Hnone.
    rewrite (run_after_verify env p w t w1 Hv Hc).
    unfold afterVerify, bind, step_do.
    rewrite (attempts_always_throws CALCULATE "No due date set for task").
    2:{ intros w0. unfold calculateReminderTime. rewrite Hnone. reflexivity. }
    eexists. split; [reflexivity|]. simpl.
    split; [exact Hcv1|]. rewrite Htr1.
    change (StepAttempt CALCULATE :: replicate (retryLimit env) (StepAttempt CALCULATE))
      with (replicate (S (retryLimit env)) (StepAttempt CALCULATE)).
    rewrite !sleeps_app, !attemptsOf_app, !sleeps_attempts.
    rewrite (attemptsOf_other RECHECK VERIFY), (attemptsOf_other SEND VERIFY),
      (attemptsOf_other CALCULATE VERIFY) by discriminate.
    rewrite (attemptsOf_other RECHECK CALCULATE), (attemptsOf_other SEND CALCULATE)
      by discriminate.
    rewrite attemptsOf_same, !app_nil_r. repeat split; lia.
Qed.

(** Recheck, when the database fails [k] times and then answers: the step
    returns what the answering read shows, after [S k] attempts. *)
Lemma recheck_step env p :
  forall k budget w,
    (k <= budget)%nat ->
    (forall j, (j < k)%nat -> dbUp env (time w + j) = false) ->
    dbUp env (time w + k) = true ->
    exists w',
      attempts budget RECHECK (recheckTaskStatus env p) w
      = (Ok (stillIncomplete
               (selectTask (tasksAt env (time w + k)) (p_taskId p) (p_userId p))),
         w')
      /\ conversations w' = conversations w
      /\ trace w' = trace w ++ replicate (S k) (StepAttempt RECHECK).
Proof.
  induction k as [|k IH]; intros budget w Hk Hdown Hup.
  - rewrite Nat.add_0_r in *. eexists. split; [|split].
    + apply attempts_ok. unfold recheckTaskStatus, bind, queryTask. simpl.
      rewrite Hup.
      destruct (selectTask (tasksAt env (time w)) (p_taskId p) (p_userId p));
        reflexivity.
    + reflexivity.
    + reflexivity.
  - destruct budget as [|b]; [lia|]. simpl.
    unfold recheckTaskStatus at 1, bind, queryTask. simpl.
    pose proof (Hdown 0%nat ltac:(lia)) as H0. rewrite Nat.add_0_r in H0.
    rewrite H0.
    destruct (IH b (tick (record (StepAttempt RECHECK) w))) as [w' [Hrun [Hcv Htr]]].
    + lia.
    + intros j Hj. simpl. rewrite <- Nat.add_succ_r. apply Hdown. lia.
    + simpl. rewrite <- Nat.add_succ_r. exact Hup.
    + simpl in Hrun. rewrite <- Nat.add_succ_r in Hrun.
      exists w'. split; [exact Hrun|]. split; [exact Hcv|].
      rewrite Htr. simpl. rewrite <- app_assoc. reflexivity.
Qed.

Lemma wait_effect rt w :
  exists w', waitForReminderTime rt w = (Ok tt, w')
    /\ conversations w' = conversations w
    /\ attemptsOf SEND (trace w') = attemptsOf SEND (trace w).
Proof.
  unfold waitForReminderTime, step_sleep.
  destruct (negb (shouldSendNow rt) && (0 <? timeUntilReminder rt));
    eexists; (split; [reflexivity|]); simpl; split; try reflexivity.
  rewrite attemptsOf_app. unfold attemptsOf at 2. simpl. lia.
Qed.

(** C3.  Once Verify returned an open task and the reminder time was
    computed, if the read by which Recheck gets its answer, after the
    optional sleep, shows no row for the pair or a completed one, the run ends
    with [success = true] and [reminderSent = false], the send step is never
    started and no entry is added to the conversation log. *)
Theorem recheck_skips_stale_reminder env p w t w1 rt w2 k :
  step_do env VERIFY (verifyTask env p) w = (Ok t, w1) ->
  task_completed t = false ->
  step_do env CALCULATE (calculateReminderTime env p t) w1 = (Ok rt, w2) ->
  let start := time (snd (waitForReminderTime rt w2)) in
  (k <= retryLimit env)%nat ->
  (forall j, (j < k)%nat -> dbUp env (start + j) = false) ->
  dbUp env (start + k) = true ->
  (selectTask (tasksAt env (start + k)) (p_taskId p) (p_userId p) = None
   \/ exists r,
        selectTask (tasksAt env (start + k)) (p_taskId p) (p_userId p) = Some r
        /\ row_completed r <> 0) ->
  exists w4,
    handleReminderWorkflow env p w = (Ok (skippedAfterRecheck p), w4)
    /\ success (skippedAfterRecheck p) = true
    /\ reminderSent (skippedAfterRecheck p) = Some false
    /\ conversations w4 = conversations w
    /\ attemptsOf SEND (trace w4) = attemptsOf SEND (trace w).
Proof.
  intros Hv Hc Hcalc start Hk Hdown Hup Hfound.
  destruct (verify_step_quiet env p w _ w1 Hv) as [Hcv1 [n1 [_ Htr1]]].
  pose proof (attempts_quiet CALCULATE _ (quiet_calculateReminderTime env p t)
                (retryLimit env) w1) as Hq2.
  unfold step_do in Hcalc. rewrite Hcalc in Hq2. simpl in Hq2.
  destruct Hq2 as [Hcv2 [n2 [_ Htr2]]].
  destruct (wait_effect rt w2) as [w3 [Hwait [Hcv3 Hat3]]].
  subst start. rewrite Hwait in *. simpl in *.
  destruct (recheck_step env p k (retryLimit env) w3 Hk Hdown Hup)
    as [w4 [Hre [Hcv4 Htr4]]].
  assert (Hstale : stillIncomplete
            (selectTask (tasksAt env (time w3 + k)) (p_taskId p) (p_userId p))
            = false).
  { destruct Hfound as [Hnone | [r [Hsome Hdone]]].
    - rewrite Hnone. reflexivity.
    - rewrite Hsome. simpl. unfold Boolean.
      destruct (Z.eqb_spec (row_completed r) 0); [contradiction | reflexivity]. }
  rewrite Hstale in Hre.
  exists w4. split.
  - rewrite (run_after_verify env p w t w1 Hv Hc).
    unfold afterVerify, bind, step_do. rewrite Hcalc, Hwait, Hre. reflexivity.
  - split; [reflexivity|]. split; [reflexivity|]. split; [congruence|].
    rewrite Htr4, attemptsOf_app, (attemptsOf_other SEND RECHECK) by discriminate.
    rewrite Hat3, Htr2, attemptsOf_app, (attemptsOf_other SEND CALCULATE)
      by discriminate.
    rewrite Htr1, attemptsOf_app, (attemptsOf_other SEND VERIFY) by discriminate.
    lia.
Qed.

Lemma verify_missing_task_fails_witness :
  exists w1,
    handleReminderWorkflow (envWith 5 (fun _ => [])) params start
    = (Thrown "Task not found", w1)
    /\ conversations w1 = conversations start
    /\ trace w1 = trace start ++ replicate 6 (StepAttempt VERIFY).
Proof.
  apply (verify_missing_task_fails (envWith 5 (fun _ => [])) params start).
  intros k _. split; reflexivity.
Defined.

(** C2, as stated, fails: with the task absent throughout and the database
    answering, an engine that grants five retries starts Verify six times
    before the run fails. *)
Lemma verify_missing_task_is_retried :
  ~ (forall env p w,
        (forall n, dbUp env n = true
                   /\ selectTask (tasksAt env n) (p_taskId p) (p_userId p) = None) ->
        exists e w1,
          handleReminderWorkflow env p w = (Thrown e, w1)
          /\ attemptsOf VERIFY (trace w1) = S (attemptsOf VERIFY (trace w))).
Proof.
  intros H.
  destruct (H (envWith 5 (fun _ => [])) params start) as [e [w1 [Hrun Hn]]].
  { intros n. split; reflexivity. }
  vm_compute in Hrun. inversion Hrun; subst. vm_compute in Hn. discriminate.
Qed.

Lemma completed_task_skips_witness :
  handleReminderWorkflow (envWith 5 (fun _ => [doneRow])) params start
  = (Ok (skippedCompleted params), mkWorld 1 [] [StepAttempt VERIFY])
  /\ success (skippedCompleted params) = true
  /\ reminderSent (skippedCompleted params) = Some false
  /\ conversations (mkWorld 1 [] [StepAttempt VERIFY]) = conversations start
  /\ exists n, trace (mkWorld 1 [] [StepAttempt VERIFY])
               = trace start ++ replicate n (StepAttempt VERIFY).
Proof.
  apply (completed_task_skips (envWith 5 (fun _ => [doneRow])) params start
           (taskOfRow doneRow)); reflexivity.
Defined.

Lemma reminder_time_computed_witness :
  let env := envWith 5 (fun _ => [openRow]) in
  let w1 := mkWorld 1 [] [StepAttempt VERIFY] in
  exists rt w2,
    step_do env CALCULATE (calculateReminderTime env params (taskOfRow openRow)) w1
    = (Ok rt, w2)
    /\ reminderTimestamp rt = 1172800 - 86400
    /\ (shouldSendNow rt = true <-> 1172800 - 86400 <= 1000000)
    /\ (shouldSendNow rt = true -> waitForReminderTime rt w2 = (Ok tt, w2))
    /\ (shouldSendNow rt = false ->
        waitForReminderTime rt w2
        = (Ok tt, tick (record (Slept WAIT ((1172800 - 86400 - 1000000) * 1000)) w2)))
    /\ forall res w',
         handleReminderWorkflow env params start = (res, w') ->
         attemptsOf CALCULATE (trace w') = S (attemptsOf CALCULATE (trace start))
         /\ sleeps (trace w')
            = sleeps (trace start)
              ++ (if shouldSendNow rt then []
                  else [(1172800 - 86400 - 1000000) * 1000])
         /\ forall r, res = Ok r ->
              r = skippedAfterRecheck params
              \/ r = reminderDone params (taskOfRow openRow) rt true.
Proof.
  intros env w1.
  destruct (reminder_time_computed env params start (taskOfRow openRow) w1
              eq_refl eq_refl) as [Hdated _].
  apply (Hdated 1172800); [reflexivity | lia].
Defined.

(** C4, as stated, fails: with an open task that has no due date and the
    database answering, an engine that grants five retries starts the
    calculation six times before the run fails. *)
Lemma undated_task_is_retried :
  ~ (forall env p w t w1,
        step_do env VERIFY (verifyTask env p) w = (Ok t, w1) ->
        task_completed t = false ->
        truthyNum (orNum (p_dueDate p) (task_dueDate t)) = false ->
        exists e w',
          handleReminderWorkflow env p w = (Thrown e, w')
          /\ attemptsOf CALCULATE (trace w')
             = S (attemptsOf CALCULATE (trace w))).
Proof.
  intros H.
  destruct (H (envWith 5 (fun _ => [undatedRow])) paramsNoDate start
              (taskOfRow undatedRow) (mkWorld 1 [] [StepAttempt VERIFY])
              eq_refl eq_refl eq_refl) as [e [w' [Hrun Hn]]].
  vm_compute in Hrun. inversion Hrun; subst. vm_compute in Hn. discriminate.
Qed.

Lemma recheck_skips_stale_reminder_witness :
  exists w4,
    handleReminderWorkflow (envWith 5 completedMeanwhile) params start
    = (Ok (skippedAfterRecheck params), w4)
    /\ success (skippedAfterRecheck params) = true
    /\ reminderSent (skippedAfterRecheck params) = Some false
    /\ conversations w4 = conversations start
    /\ attemptsOf SEND (trace w4) = attemptsOf SEND (trace start).
Proof.
  apply (recheck_skips_stale_reminder (envWith 5 completedMeanwhile) params start
           (taskOfRow openRow) (mkWorld 1 [] [StepAttempt VERIFY])
           (mkReminderTime 1086400 1172800 false 86400)
           (mkWorld 2 [] [StepAttempt VERIFY; StepAttempt CALCULATE]) 0).
  - reflexivity.
  - reflexivity.
  - reflexivity.
  - simpl. lia.
  - intros j Hj. lia.
  - reflexivity.
  - right. exists doneRow. split; [reflexivity | discriminate].
Defined.

(** The scenarios of the specification: a task due in two days is not sent
    now and the run sleeps a day; a task due in an hour is sent at once. *)
Example due_in_two_days :
  fst (step_do (envWith 5 (fun _ => [openRow])) CALCULATE
         (calculateReminderTime (envWith 5 (fun _ => [openRow])) params
            (taskOfRow openRow)) start)
  = Ok (mkReminderTime (1172800 - 86400) 1172800 false 86400).
Proof. reflexivity. Qed.

Example due_in_one_hour :
  let env := envWith 5 (fun _ => [soonRow]) in
  fst (step_do env CALCULATE
         (calculateReminderTime env paramsNoDate (taskOfRow soonRow)) start)
  = Ok (mkReminderTime (1003600 - 86400) 1003600 true 0)
  /\ sleeps (trace (snd (handleReminderWorkflow env paramsNoDate start))) = []
  /\ length (conversations (snd (handleReminderWorkflow env paramsNoDate start)))
     = 1%nat.
Proof. vm_compute. auto. Qed.

End WorkflowFacts.

(* ===================================================================== *)
(** ** Properties of the connection registry                             *)
(* ===================================================================== *)

Module RegistryFacts.
Import Types Store Agent Samples.

Section WithPlatform.
Variable platform : Platform.

Lemma counted_syncActive a : counted (syncActive a).
Proof. reflexivity. Qed.

Lemma counted_saveState a : counted a -> counted (saveState a).
Proof. auto. Qed.

Lemma counted_send ws m a : counted a -> counted (send ws m a).
Proof. auto. Qed.

Lemma counted_detach ws a : counted a -> counted (detach ws a).
Proof. auto. Qed.

Lemma counted_upgrade a claimed now :
  counted a -> counted (fst (handleWebSocketUpgrade platform a claimed now)).
Proof.
  intros Ha. unfold handleWebSocketUpgrade.
  destruct claimed as [u|]; [|exact Ha].
  destruct (negb (truthyStr u)); [exact Ha|].
  destruct (truthyStr (userId (state a)) && negb (String.eqb (userId (state a)) u));
    [exact Ha | reflexivity].
Qed.

(** An accepted upgrade leaves the count in step whatever it was before. *)
Lemma counted_accept a claimed now :
  status (snd (handleWebSocketUpgrade platform a claimed now)) = 101 ->
  counted (fst (handleWebSocketUpgrade platform a claimed now)).
Proof.
  unfold handleWebSocketUpgrade.
  destruct claimed as [u|]; [|discriminate].
  destruct (negb (truthyStr u)); [discriminate|].
  destruct (truthyStr (userId (state a)) && negb (String.eqb (userId (state a)) u));
    [discriminate | reflexivity].
Qed.

Lemma counted_recover a ws now a' :
  counted a -> recoverSession a ws now = Some a' -> counted a'.
Proof.
  intros Ha. unfold recoverSession.
  destruct (sessions a !! ws); [intros [= <-]; exact Ha|].
  destruct (identityOf (socketOf a ws) "" now) as [u c].
  destruct (truthyStr u); [intros [= <-]; reflexivity | discriminate].
Qed.

(** A recovery that had to rebuild the session sets the count itself. *)
Lemma counted_recovered a ws now a' :
  sessions a !! ws = None -> recoverSession a ws now = Some a' -> counted a'.
Proof.
  intros Hnone. unfold recoverSession. rewrite Hnone.
  destruct (identityOf (socketOf a ws) "" now) as [u c].
  destruct (truthyStr u); [intros [= <-]; reflexivity | discriminate].
Qed.

Lemma counted_message a ws m now :
  counted a -> counted (webSocketMessage a ws m now).
Proof.
  intros Ha. unfold webSocketMessage.
  destruct (recoverSession a ws now) as [a1|] eqn:Hr; [|exact Ha].
  pose proof (counted_recover a ws now a1 Ha Hr) as H1.
  destruct m as [| | |pushed returned]; try exact H1.
  destruct returned; exact H1.
Qed.

Lemma counted_drop a ws : counted a -> counted (dropSession a ws).
Proof.
  intros Ha. unfold dropSession. destruct (sessions a !! ws); [reflexivity | exact Ha].
Qed.

Lemma counted_rebuild a now : counted (rebuildSessions a now).
Proof. reflexivity. Qed.

Lemma counted_loadState a history now : counted a -> counted (loadState a history now).
Proof.
  intros Ha. unfold loadState. destruct (storage a); [apply counted_rebuild | exact Ha].
Qed.

Lemma counted_constructed stored socks next out now :
  counted (constructed stored socks next out now).
Proof. reflexivity. Qed.

Lemma counted_step a e : counted a -> counted (step platform a e).
Proof.
  intros Ha. destruct e; simpl.
  - apply counted_upgrade, Ha.
  - apply counted_message, Ha.
  - apply counted_detach, counted_saveState, counted_drop, Ha.
  - apply counted_detach, counted_drop, Ha.
  - apply counted_loadState, counted_constructed.
Qed.

Lemma counted_run events : forall a, counted a -> counted (run platform a events).
Proof.
  induction events as [|e events IH]; intros a Ha; simpl; [exact Ha|].
  apply IH, counted_step, Ha.
Qed.

(** C10.  From its activation on, whatever events the object is delivered,
    [activeWebSockets] equals the size of the session map, and it still does
    after each registry operation run from there: an upgrade (accepted or
    not), the session recovery inside the message handler, [webSocketClose],
    [webSocketError] and [rebuildSessions]. *)
Theorem active_sockets_counted stored socks next out history now events :
  let a := run platform (activate stored socks next out history now) events in
  activeWebSockets (state a) = size (sessions a)
  /\ (forall claimed t,
         let a' := fst (handleWebSocketUpgrade platform a claimed t) in
         activeWebSockets (state a') = size (sessions a'))
  /\ (forall ws t a',
         recoverSession a ws t = Some a' ->
         activeWebSockets (state a') = size (sessions a'))
  /\ (forall ws,
         activeWebSockets (state (webSocketClose a ws))
         = size (sessions (webSocketClose a ws)))
  /\ (forall ws,
         activeWebSockets (state (webSocketError a ws))
         = size (sessions (webSocketError a ws)))
  /\ (forall t,
         activeWebSockets (state (rebuildSessions a t))
         = size (sessions (rebuildSessions a t))).
Proof.
  intros a.
  assert (Ha : counted a).
  { apply counted_run, counted_loadState, counted_constructed. }
  split; [exact Ha|].
  split; [intros claimed t; apply counted_upgrade, Ha|].
  split; [intros ws t a' Hr; exact (counted_recover a ws t a' Ha Hr)|].
  split; [intros ws; apply counted_saveState, counted_drop, Ha|].
  split; [intros ws; apply counted_drop, Ha|].
  intros t. apply counted_rebuild.
Qed.

Lemma truthyStr_true (u : string) : u <> "" -> truthyStr u = true.
Proof.
  intros H. unfold truthyStr. destruct (String.eqb_spec u ""); [contradiction | reflexivity].
Qed.

Lemma established_upgrade u a claimed now :
  u <> "" -> established u a ->
  established u (fst (handleWebSocketUpgrade platform a claimed now)).
Proof.
  intros Hu [Hst Hsto]. unfold handleWebSocketUpgrade.
  destruct claimed as [v|]; [|split; assumption].
  destruct (negb (truthyStr v)); [split; assumption|].
  destruct (truthyStr (userId (state a)) && negb (String.eqb (userId (state a)) v));
    [split; assumption|].
  unfold orStr. rewrite Hst, (truthyStr_true u Hu).
  split; [reflexivity|]. exists (withActive
    (size (<[nextHandle a := mkSession (nextHandle a) u now]> (sessions a)))
    (withUserId u (state a))). split; reflexivity.
Qed.

Lemma established_recover u a ws now a' :
  established u a -> recoverSession a ws now = Some a' -> established u a'.
Proof.
  intros Ha. unfold recoverSession.
  destruct (sessions a !! ws); [intros [= <-]; exact Ha|].
  destruct (identityOf (socketOf a ws) "" now) as [v c].
  destruct (truthyStr v); [intros [= <-]; exact Ha | discriminate].
Qed.

Lemma established_message u a ws m now :
  established u a -> established u (webSocketMessage a ws m now).
Proof.
  intros Ha. unfold webSocketMessage.
  destruct (recoverSession a ws now) as [a1|] eqn:Hr; [|exact Ha].
  pose proof (established_recover u a ws now a1 Ha Hr) as [H1 H1'].
  destruct m as [| | |pushed returned]; try (split; assumption).
  destruct returned; [|split; assumption].
  split; [exact H1|]. eexists. split; [reflexivity | exact H1].
Qed.

Lemma established_drop u a ws : established u a -> established u (dropSession a ws).
Proof.
  intros Ha. unfold dropSession. destruct (sessions a !! ws); exact Ha.
Qed.

Lemma established_close u a ws :
  established u a -> established u (webSocketClose a ws).
Proof.
  intros Ha. destruct (established_drop u a ws Ha) as [H1 _].
  split; [exact H1|]. eexists. split; [reflexivity | exact H1].
Qed.

Lemma established_reactivate u a history now :
  u <> "" -> established u a -> established u (reactivate a history now).
Proof.
  intros Hu [_ [s [Hsto Hs]]]. unfold reactivate, loadState, constructed. simpl.
  rewrite Hsto. simpl. rewrite Hs, (truthyStr_true u Hu). simpl.
  split; [exact Hs|]. exists s. split; [reflexivity | exact Hs].
Qed.

Lemma established_step u a e :
  u <> "" -> established u a -> established u (step platform a e).
Proof.
  intros Hu Ha. destruct e; simpl.
  - apply established_upgrade; assumption.
  - apply established_message, Ha.
  - exact (established_close u a ws Ha).
  - exact (established_drop u a ws Ha).
  - apply established_reactivate; assumption.
Qed.

Lemma established_run u events :
  u <> "" -> forall a, established u a -> established u (run platform a events).
Proof.
  intros Hu. induction events as [|e events IH]; intros a Ha; simpl; [exact Ha|].
  apply IH, established_step; assumption.
Qed.

(** C5.  On an object with no user yet, an upgrade presenting [u] is accepted
    and makes [u] the canonical user.  Whatever events follow, including
    evictions, [u] stays the user, and an upgrade presenting another id [v]
    is answered 409 with the object left exactly as it was: no handle is
    accepted, no session added, nothing sent. *)
Theorem canonical_user_fixed a0 u now0 events v now :
  userId (state a0) = "" ->
  u <> "" -> v <> "" -> v <> u ->
  let first := handleWebSocketUpgrade platform a0 (Some u) now0 in
  let a := run platform (fst first) events in
  status (snd first) = 101
  /\ userId (state (fst first)) = u
  /\ userId (state a) = u
  /\ handleWebSocketUpgrade platform a (Some v) now = (a, response409)
  /\ status response409 = 409.
Proof.
  intros Hnone Hu Hv Hvu first a.
  assert (Hfirst : status (snd first) = 101 /\ established u (fst first)).
  { subst first. unfold handleWebSocketUpgrade.
    rewrite (truthyStr_true u Hu), Hnone. simpl.
    split; [reflexivity|]. split; [reflexivity|].
    eexists. split; reflexivity. }
  destruct Hfirst as [Hstatus Hest].
  pose proof (established_run u events Hu (fst first) Hest) as [Hau _].
  fold a in Hau.
  split; [exact Hstatus|]. split; [exact (proj1 Hest)|]. split; [exact Hau|].
  split; [|reflexivity].
  unfold handleWebSocketUpgrade.
  rewrite (truthyStr_true v Hv), Hau, (truthyStr_true u Hu). simpl.
  destruct (String.eqb_spec u v); [congruence | reflexivity].
Qed.

End WithPlatform.

(** Two devices connect, the object is evicted and comes back, the first
    handle closes: one session is left, recovered from its attachment. *)
Example registry_after_a_day :
  let a := run hibernating
             (fst (handleWebSocketUpgrade hibernating newborn (Some "alice") 10))
             dayOfEvents in
  activeWebSockets (state a) = 1
  /\ size (sessions a) = 1
  /\ (s_userId <$> sessions a !! 1) = Some "alice"
  /\ sessions a !! 0 = None
  /\ (userId <$> storage a) = Some "alice".
Proof. vm_compute. auto. Qed.

Lemma canonical_user_fixed_witness :
  let first := handleWebSocketUpgrade hibernating newborn (Some "alice") 10 in
  let a := run hibernating (fst first) dayOfEvents in
  status (snd first) = 101
  /\ userId (state (fst first)) = "alice"
  /\ userId (state a) = "alice"
  /\ handleWebSocketUpgrade hibernating a (Some "bob") 99 = (a, response409)
  /\ status response409 = 409.
Proof.
  apply (canonical_user_fixed hibernating newborn "alice" 10 dayOfEvents "bob" 99);
    [reflexivity | discriminate | discriminate | discriminate].
Defined.

End RegistryFacts.

(* ===================================================================== *)
(** ** Properties of task creation                                        *)
(* ===================================================================== *)

Module TaskCreationFacts.
Import Types Store Effect Agent Samples.
Local Open Scope Z_scope.

Section WithServices.
Variable svc : Services.

(** [ensureUser] never throws and touches neither the task table, nor the
    workflow runs, nor the frames sent. *)
Lemma ensureUser_ok userId w :
  exists w1,
    ensureUser svc userId w = (Ok tt, w1)
    /\ tasks w1 = tasks w /\ workflows w1 = workflows w /\ sent w1 = sent w.
Proof.
  unfold ensureUser, catch, bind, d1, epochSeconds, dateNow, consoleLog, modify, ret.
  destruct (d1Up svc (time w)); simpl; [|eauto 6].
  destruct (List.find _ (users w)); simpl; [eauto 6|].
  destruct (d1Up svc (S (S (time w)))); simpl; eauto 6.
Qed.

Lemma createTask_ok userId data w :
  d1Up svc (2 + time w)%nat = true ->
  exists w2,
    createTask svc userId (title data) (description data) (dueDate data)
               (priority data) w
    = (Ok (createdTask svc userId data (time w)), w2)
    /\ time w2 = (3 + time w)%nat
    /\ workflows w2 = workflows w /\ sent w2 = sent w /\ console w2 = console w.
Proof.
  intros Hup. unfold createTask, bind, drawUUID, epochSeconds, dateNow, d1, ret.
  simpl in *. rewrite Hup. eexists. split; [reflexivity|]. simpl. auto.
Qed.

(** The three ways the scheduling block ends; it never throws and never
    sends. *)
Lemma scheduleReminder_cases userId task d w :
  task_dueDate task = Some d ->
  let now := clockMs svc (time w) / 1000 in
  exists w3,
    scheduleReminder svc userId task w = (Ok tt, w3)
    /\ sent w3 = sent w
    /\ (now + 86400 < d -> workflowUp svc (S (time w)) = true ->
        workflows w3 = workflows w ++ [reminderParams userId task])
    /\ (now + 86400 < d -> workflowUp svc (S (time w)) = false ->
        workflows w3 = workflows w
        /\ console w3 = console w ++ [scheduleFailure])
    /\ (d <= now + 86400 -> workflows w3 = workflows w).
Proof.
  intros Hd now.
  unfold scheduleReminder, catch, bind, epochSeconds, dateNow, ret, workflowCreate,
    consoleLog, modify.
  rewrite Hd. simpl. fold now. unfold SECONDS_PER_DAY.
  destruct (Z.ltb_spec now (d - 24 * 60 * 60)).
  - simpl. destruct (workflowUp svc (S (time w))); simpl;
      (eexists; split; [reflexivity|]; simpl; repeat split; auto;
       try discriminate; try lia).
  - eexists. split; [reflexivity|]. simpl. repeat split; auto; try lia.
Qed.

(** The scheduling block as the handler runs it: skipped when the due date is
    falsy. *)
Lemma maybeSchedule_cases userId task w :
  let now := clockMs svc (time w) / 1000 in
  exists w3,
    (if truthyNum (task_dueDate task)
     then scheduleReminder svc userId task else ret tt) w = (Ok tt, w3)
    /\ sent w3 = sent w
    /\ (forall d, task_dueDate task = Some d -> 0 <= now -> now + 86400 < d ->
          workflowUp svc (S (time w)) = true ->
          workflows w3 = workflows w ++ [reminderParams userId task])
    /\ (forall d, task_dueDate task = Some d -> 0 <= now -> now + 86400 < d ->
          workflowUp svc (S (time w)) = false ->
          workflows w3 = workflows w
          /\ console w3 = console w ++ [scheduleFailure])
    /\ (forall d, task_dueDate task = Some d -> d <= now + 86400 ->
          workflows w3 = workflows w).
Proof.
  intros now. destruct (task_dueDate task) as [d|] eqn:Hd.
  - destruct (scheduleReminder_cases userId task d w Hd)
      as [w3 [Hsched [Hsent [Hyes [Hno Hsoon]]]]].
    fold now in Hyes, Hno, Hsoon.
    simpl. destruct (Z.eqb_spec d 0) as [-> | Hnz]; simpl.
    + exists w. split; [reflexivity|]. split; [reflexivity|].
      split; [intros d' [= <-]; intros; lia|].
      split; [intros d' [= <-]; intros; lia|].
      intros d' [= <-]; reflexivity.
    + exists w3. split; [exact Hsched|]. split; [exact Hsent|].
      split; [intros d' [= <-] _; exact Hyes|].
      split; [intros d' [= <-] _; exact Hno|].
      intros d' [= <-]; exact Hsoon.
  - exists w. split; [reflexivity|]. split; [reflexivity|].
    split; [intros; discriminate|]. split; intros; discriminate.
Qed.

(** The handler once the task is created and the scheduling block is over. *)
Lemma handleCreateTask_created ws session data w w1 task w2 w3 :
  ensureUser svc (s_userId session) w = (Ok tt, w1) ->
  createTask svc (s_userId session) (title data) (description data)
             (dueDate data) (priority data) w1 = (Ok task, w2) ->
  (if truthyNum (task_dueDate task)
   then scheduleReminder svc (s_userId session) task else ret tt) w2
  = (Ok tt, w3) ->
  handleCreateTask svc ws session data w
  = (Ok tt,
     mkBackend (S (time w3)) (users w3) (tasks w3) (workflows w3)
               (sent w3 ++ [(ws, TaskCreated task (clockMs svc (time w3)))])
               (console w3)).
Proof.
  intros Hens Hcreate Hsched.
  unfold handleCreateTask, catch, bind. rewrite Hens, Hcreate, Hsched.
  reflexivity.
Qed.

(** C6.  Provided the INSERT of [createTask] succeeds, the handler returns
    normally and sends [task_created] for the new task, and: with a due date
    more than 24 hours ahead one reminder run is handed to the workflow
    binding, carrying the user, the task id, the due date and the title,
    description and priority; with a due date 24 hours ahead or less no run
    is created; and when the binding refuses the run, the failure is logged,
    no run is created and [task_created] is sent all the same. *)
Theorem create_task_schedules_reminder ws session data w :
  let uid := s_userId session in
  let t := time (snd (ensureUser svc uid w)) in
  let task := createdTask svc uid data t in
  let now := clockMs svc (3 + t) / 1000 in
  let w' := snd (handleCreateTask svc ws session data w) in
  d1Up svc (2 + t) = true ->
  0 <= now ->
  fst (handleCreateTask svc ws session data w) = Ok tt
  /\ (exists timestamp, sent w' = sent w ++ [(ws, TaskCreated task timestamp)])
  /\ (forall d,
         dueDate data = Some d -> now + 86400 < d ->
         workflowUp svc (4 + t) = true ->
         workflows w'
         = workflows w
           ++ [mkParams uid (task_id task) reminder (Some d)
                 (Some (mkTaskDetails (title data) (description data)
                                      (Some (default medium (priority data)))))])
  /\ (forall d,
         dueDate data = Some d -> d <= now + 86400 ->
         workflows w' = workflows w)
  /\ (forall d,
         dueDate data = Some d -> now + 86400 < d ->
         workflowUp svc (4 + t) = false ->
         workflows w' = workflows w
         /\ exists earlier, console w' = earlier ++ [scheduleFailure]).
Proof.
  intros uid t task now w'. subst t task now w'.
  destruct (ensureUser_ok uid w) as [w1 [Hens [_ [Hwf1 Hsent1]]]].
  fold uid. rewrite Hens. simpl snd.
  set (task := createdTask svc uid data (time w1)).
  set (now := clockMs svc (3 + time w1) / 1000).
  intros Hup Hclock.
  destruct (createTask_ok uid data w1 Hup)
    as [w2 [Hcreate [Ht2 [Hwf2 [Hsent2 Hcon2]]]]].
  fold task in Hcreate.
  destruct (maybeSchedule_cases uid task w2)
    as [w3 [Hsched [Hsent3 [Hyes [Hno Hsoon]]]]].
  rewrite Ht2 in Hyes, Hno, Hsoon. fold now in Hyes, Hno, Hsoon.
  rewrite (handleCreateTask_created ws session data w w1 task w2 w3
             Hens Hcreate Hsched).
  simpl.
  split; [reflexivity|].
  split; [exists (clockMs svc (time w3)); f_equal; congruence|].
  split.
  { intros d Hd Hlate Hwu. rewrite (Hyes d Hd Hclock Hlate Hwu), Hwf2, Hwf1.
    unfold reminderParams. simpl. rewrite Hd. reflexivity. }
  split.
  { intros d Hd Hs. rewrite (Hsoon d Hd Hs). congruence. }
  intros d Hd Hlate Hwd. destruct (Hno d Hd Hclock Hlate Hwd) as [Hw Hc].
  split; [congruence|]. exists (console w2). exact Hc.
Qed.

End WithServices.

Lemma create_task_schedules_reminder_witness :
  let svc := healthy in
  let task := createdTask svc "alice" rentTask 3 in
  let w' := snd (handleCreateTask svc 0 aliceSession rentTask emptyBackend) in
  fst (handleCreateTask svc 0 aliceSession rentTask emptyBackend) = Ok tt
  /\ (exists timestamp, sent w' = [(0%nat, TaskCreated task timestamp)])
  /\ workflows w'
     = [mkParams "alice" "6f1c" reminder (Some 1172800)
          (Some (mkTaskDetails "Pay rent" None (Some medium)))].
Proof.
  intros svc task w'.
  destruct (create_task_schedules_reminder healthy 0 aliceSession rentTask
              emptyBackend eq_refl ltac:(vm_compute; discriminate))
    as [Hok [Hsent [Hrun _]]].
  split; [exact Hok|]. split; [exact Hsent|].
  exact (Hrun 1172800 eq_refl eq_refl eq_refl).
Defined.

(** The binding refuses the run: the task is still announced. *)
Example create_task_survives_enqueue_failure :
  let w' := snd (handleCreateTask noWorkflows 0 aliceSession rentTask emptyBackend) in
  workflows w' = []
  /\ map fst (sent w') = [0%nat]
  /\ last (console w') = Some scheduleFailure
  /\ length (tasks w') = 1%nat.
Proof. vm_compute. auto. Qed.

End TaskCreationFacts.

(* ===================================================================== *)
(** ** Properties of the [sendEmail] tool                                 *)
(* ===================================================================== *)

Module EmailFacts.
Import Effect Email.

Example strip_paragraph :
  stripTags "<p>Hello <b>world</b></p>" = "Hello world".
Proof. reflexivity. Qed.

Example strip_unclosed : stripTags "a < b and <i>c" = "a c".
Proof. reflexivity. Qed.

Example strip_dangling : stripTags "1 > 0 <script" = "1 > 0 <script".
Proof. reflexivity. Qed.

Lemma hasClose_app (a b : string) :
  hasClose (a +:+ b) = hasClose a || hasClose b.
Proof.
  induction a as [|c a IH]; simpl; [reflexivity|].
  rewrite IH. apply orb_assoc.
Qed.

Lemma containsTag_app_r (a b : string) :
  containsTag b = true -> containsTag (a +:+ b) = true.
Proof.
  intros Hb. induction a as [|c a IH]; simpl; [exact Hb|].
  rewrite IH. apply orb_true_r.
Qed.

(** A text that contains an opening and, later, a closing bracket matches
    the pattern. *)
Lemma containsTag_shape (a b c : string) :
  containsTag (a +:+ String LT (b +:+ String GT c)) = true.
Proof.
  apply containsTag_app_r. cbn [containsTag].
  rewrite Ascii.eqb_refl, hasClose_app. cbn [hasClose].
  rewrite Ascii.eqb_refl, orb_true_r. reflexivity.
Qed.

(** Without a closing bracket there is nothing to strip. *)
Lemma strip_no_close (s : string) : hasClose s = false -> strip false s = s.
Proof.
  induction s as [|c s IH]; simpl; [reflexivity|].
  intros H. apply orb_false_iff in H as [_ Hs].
  rewrite Hs, andb_false_r, (IH Hs). reflexivity.
Qed.

Lemma strip_tag_free (s : string) :
  forall inTag, containsTag (strip inTag s) = false.
Proof.
  induction s as [|c s IH]; intros inTag; simpl; [destruct inTag; reflexivity|].
  destruct inTag; [apply IH|].
  destruct (Ascii.eqb c LT && hasClose s) eqn:Hopen; [apply IH|].
  simpl. rewrite IH, orb_false_r.
  apply andb_false_iff in Hopen as [Hc | Hs].
  - rewrite Hc. reflexivity.
  - rewrite (strip_no_close s Hs), Hs. apply andb_false_r.
Qed.

Lemma strip_fixed (s : string) : containsTag s = false -> strip false s = s.
Proof.
  induction s as [|c s IH]; simpl; [reflexivity|].
  intros H. apply orb_false_iff in H as [Hopen Hs].
  rewrite Hopen, (IH Hs). reflexivity.
Qed.

Lemma strip_length (s : string) :
  forall inTag, String.length (strip inTag s) <= String.length s.
Proof.
  induction s as [|c s IH]; intros inTag; simpl; [lia|].
  destruct inTag; [specialize (IH (negb (Ascii.eqb c GT))); lia|].
  destruct (Ascii.eqb c LT && hasClose s); simpl.
  - specialize (IH true). lia.
  - specialize (IH false). lia.
Qed.

(** X1.  Whatever the HTML, the sanitised text contains no complete tag: it
    cannot be cut into a prefix, a [<], some text, a [>] and a suffix. *)
Theorem stripTags_leaves_no_tag (html a b c : string) :
  stripTags html <> a +:+ String LT (b +:+ String GT c).
Proof.
  intros H. pose proof (strip_tag_free html false) as Hfree.
  unfold stripTags in H. rewrite H, containsTag_shape in Hfree. discriminate.
Qed.

(** X2.  Sanitising is idempotent, it leaves a text without a complete tag
    as it is, and it never makes a text longer. *)
Theorem stripTags_idempotent (html : string) :
  stripTags (stripTags html) = stripTags html
  /\ (containsTag html = false -> stripTags html = html)
  /\ String.length (stripTags html) <= String.length html.
Proof.
  split; [apply strip_fixed, strip_tag_free|].
  split; [apply strip_fixed | apply strip_length].
Qed.

(** Case analysis along the guards of [execute]. *)
Ltac walk_guards H :=
  repeat match type of H with
         | context [if ?b then _ else _] => destruct b eqn:?; simpl in H
         | context [match network ?c ?r with _ => _ end] =>
             destruct (network c r) as [?|? ? [?|[?|] ? ? ?]] eqn:?; simpl in H
         end.

(** X3.  [execute] never throws and posts at most one message, and only a
    validated one: both secrets are set, the rate limiter agreed, the subject
    has at most 200 characters, the text body at most 10240, and the HTML
    body, if any, is the sanitised one, free of tags and at most 10240
    characters long. *)
Theorem execute_posts_only_validated params ctx w r w' :
  execute params ctx w = (r, w') ->
  (exists res, r = Ok res)
  /\ (requests w' = requests w
      \/ exists req,
           requests w' = requests w ++ [req]
           /\ truthy (POSTMARK_API_KEY ctx) = true
           /\ truthy (POSTMARK_FROM_EMAIL ctx) = true
           /\ rateLimitAllows ctx = true
           /\ To req = to params
           /\ Subject req = subject params
           /\ TextBody req = textBody params
           /\ String.length (Subject req) <= 200
           /\ String.length (TextBody req) <= 10 * 1024
           /\ match HtmlBody req with
              | Some h => containsTag h = false /\ String.length h <= 10 * 1024
                          /\ exists raw, htmlBody params = Some raw
                                         /\ h = stripTags raw
              | None => True
              end).
Proof.
  intros H.
  unfold execute, catch, attempt, bind, checkRateLimit, fetch, json,
    recordRateLimitCall, modify, ret, throw in H.
  simpl in H.
  walk_guards H; inversion H; subst; clear H; simpl;
    (split; [eexists; reflexivity|]); try (left; reflexivity);
    right; eexists; (split; [reflexivity|]); simpl;
    repeat match goal with
           | Hk : negb _ || negb _ = false |- _ =>
               apply orb_false_iff in Hk as [?%negb_false_iff ?%negb_false_iff]
           | Hk : negb _ = false |- _ => apply negb_false_iff in Hk
           | Hk : (_ <? _) = false |- _ => apply Nat.ltb_ge in Hk
           end;
    unfold MAX_SUBJECT_LENGTH, MAX_BODY_LENGTH in *;
    repeat split; try assumption; try reflexivity; try lia;
    try apply strip_tag_free;
    try (destruct (htmlBody params) as [raw|]; [|discriminate];
         exists raw; split; reflexivity).
Qed.

(** X4.  A call is recorded with the rate limiter exactly when the tool
    reports success, after the check and after the service answered; a run
    that fails records nothing, so a refused or failed mail does not use up
    the user's allowance. *)
Theorem execute_records_only_success params ctx w res w' :
  execute params ctx w = (Ok res, w') ->
  let check := CheckRateLimit (ctx_userId ctx) "email" 10 3600000%Z in
  let recorded := RecordRateLimitCall (ctx_userId ctx) "email" in
  (success res = true ->
   agentCalls w' = agentCalls w ++ [check; recorded]
   /\ exists req status m i t s,
        requests w' = requests w ++ [req]
        /\ network ctx req = Answer true status (Parsed m i t s)
        /\ data res = Some (mkEmailResult i t s))
  /\ (success res = false ->
      agentCalls w' = agentCalls w \/ agentCalls w' = agentCalls w ++ [check]).
Proof.
  intros H check recorded. subst check recorded.
  unfold execute, catch, attempt, bind, checkRateLimit, fetch, json,
    recordRateLimitCall, modify, ret, throw in H.
  simpl in H.
  walk_guards H; inversion H; subst; clear H; simpl;
    (split; intros Hs; try discriminate Hs);
    try (left; reflexivity); try (right; reflexivity).
  all: rewrite <- app_assoc; (split; [reflexivity|]).
  all: match goal with
       | Hk : negb ?o = false |- _ =>
           is_var o; apply negb_false_iff in Hk; subst o
       end.
  all: eexists _, _, _, _, _, _; (split; [reflexivity|]);
    (split; [eassumption | reflexivity]).
Qed.

End EmailFacts.

(* ===================================================================== *)
(** ** Properties of the task statements                                  *)
(* ===================================================================== *)

Module TaskFacts.
Import Types Store Effect Agent Tasks.
Local Open Scope Z_scope.

Lemma owns_spec taskId userId r :
  owns taskId userId r = true <-> row_id r = taskId /\ row_user_id r = userId.
Proof.
  unfold owns. rewrite andb_true_iff, !String.eqb_eq. reflexivity.
Qed.

Lemma selectTask_find table taskId userId :
  selectTask table taskId userId = List.find (owns taskId userId) table.
Proof. reflexivity. Qed.

Lemma selectTask_Some table taskId userId r :
  selectTask table taskId userId = Some r ->
  In r table /\ row_id r = taskId /\ row_user_id r = userId.
Proof.
  rewrite selectTask_find. intros H. apply List.find_some in H as [Hin Ho].
  apply owns_spec in Ho. auto.
Qed.

(** An UPDATE that keeps the key columns is seen by the SELECT of its own
    key and by no other. *)
Lemma selectTask_updateWhere table taskId userId set j v :
  (forall r, row_id (set r) = row_id r /\ row_user_id (set r) = row_user_id r) ->
  selectTask (updateWhere taskId userId set table) j v
  = (fun r => if owns taskId userId r then set r else r)
      <$> selectTask table j v.
Proof.
  intros Hkeys. rewrite !selectTask_find.
  induction table as [|r table IH]; simpl; [reflexivity|].
  assert (Hsame : owns j v (if owns taskId userId r then set r else r) = owns j v r).
  { destruct (owns taskId userId r); [|reflexivity].
    unfold owns. destruct (Hkeys r) as [-> ->]. reflexivity. }
  rewrite Hsame. destruct (owns j v r); [reflexivity | exact IH].
Qed.

Lemma selectTask_deleteWhere table taskId userId j v :
  selectTask (deleteWhere taskId userId table) j v
  = if String.eqb j taskId && String.eqb v userId then None
    else selectTask table j v.
Proof.
  rewrite !selectTask_find. unfold deleteWhere.
  induction table as [|r table IH]; simpl.
  - destruct (String.eqb j taskId && String.eqb v userId); reflexivity.
  - destruct (owns taskId userId r) eqn:Hr; simpl.
    + rewrite IH. destruct (String.eqb j taskId && String.eqb v userId) eqn:Hk;
        [reflexivity|].
      destruct (owns j v r) eqn:Hjv; [|reflexivity].
      apply owns_spec in Hr as [<- <-]. apply owns_spec in Hjv as [<- <-].
      rewrite !String.eqb_refl in Hk. discriminate.
    + destruct (owns j v r) eqn:Hjv; [|exact IH].
      destruct (String.eqb j taskId && String.eqb v userId) eqn:Hk; [|reflexivity].
      apply andb_true_iff in Hk as [->%String.eqb_eq ->%String.eqb_eq].
      congruence.
Qed.

Lemma selectTask_snoc table r j v :
  selectTask table j v = None ->
  selectTask (table ++ [r]) j v = if owns j v r then Some r else None.
Proof.
  rewrite !selectTask_find. induction table as [|x table IH]; simpl; [reflexivity|].
  destruct (owns j v x); [discriminate | exact IH].
Qed.

Section WithServices.
Variable svc : Services.

Lemma getTask_eq userId taskId w :
  getTask svc userId taskId w
  = (if d1Up svc (time w)
     then Ok (mapDbTaskToTask <$> selectTask (tasks w) taskId userId)
     else Thrown D1_ERROR,
     advance w).
Proof.
  unfold getTask, bind, d1, ret. destruct (d1Up svc (time w)); reflexivity.
Qed.

Lemma applyUpdates_keys u r :
  row_id (applyUpdates u r) = row_id r
  /\ row_user_id (applyUpdates u r) = row_user_id r.
Proof. split; reflexivity. Qed.

Lemma markCompleted_keys t r :
  row_id (markCompleted t r) = row_id r
  /\ row_user_id (markCompleted t r) = row_user_id r.
Proof. split; reflexivity. Qed.

(** Case analysis along the statements of a task call. *)
Ltac crunch :=
  repeat (simpl;
          match goal with
          | |- context [if d1Up ?s ?t then _ else _] => destruct (d1Up s t) eqn:?
          | |- context [selectTask ?a ?b ?c] =>
              destruct (selectTask a b c) eqn:?
          | |- context [if hasFields ?u then _ else _] => destruct (hasFields u) eqn:?
          end);
  simpl.

(** The table after each statement, whatever the database does. *)
Lemma tasks_updateTask userId taskId updates w :
  tasks (snd (updateTask svc userId taskId updates w)) = tasks w
  \/ tasks (snd (updateTask svc userId taskId updates w))
     = updateWhere taskId userId (applyUpdates updates) (tasks w).
Proof.
  unfold updateTask, getTask, bind, d1, ret, throw. crunch; auto.
Qed.

Lemma tasks_completeTask userId taskId w :
  tasks (snd (completeTask svc userId taskId w)) = tasks w
  \/ exists t, tasks (snd (completeTask svc userId taskId w))
               = updateWhere taskId userId (markCompleted t) (tasks w).
Proof.
  unfold completeTask, getTask, epochSeconds, dateNow, bind, d1, ret, throw.
  crunch; eauto.
Qed.

Lemma tasks_deleteTask userId taskId w :
  tasks (snd (deleteTask svc userId taskId w)) = tasks w
  \/ tasks (snd (deleteTask svc userId taskId w))
     = deleteWhere taskId userId (tasks w).
Proof.
  unfold deleteTask, getTask, bind, d1, ret, throw. crunch; auto.
Qed.

Lemma tasks_createTask userId title description dueDate priority w :
  tasks (snd (createTask svc userId title description dueDate priority w)) = tasks w
  \/ exists r, row_user_id r = userId /\ row_completed r = 0
               /\ row_completed_at r = None
               /\ tasks (snd (createTask svc userId title description dueDate
                                         priority w))
                  = tasks w ++ [r].
Proof.
  unfold createTask, bind, drawUUID, epochSeconds, bind, dateNow, ret, d1. simpl.
  destruct (d1Up svc (S (S (time w)))); simpl; [|left; reflexivity].
  right. eexists (mkTaskRow _ _ _ _ _ _ _ _ _). repeat split; reflexivity.
Qed.

Lemma rowsOfOthers_app u a b :
  rowsOfOthers u (a ++ b) = rowsOfOthers u a ++ rowsOfOthers u b.
Proof. apply List.filter_app. Qed.

Lemma rowsOfOthers_updateWhere u taskId set table :
  (forall r, row_user_id (set r) = row_user_id r) ->
  rowsOfOthers u (updateWhere taskId u set table) = rowsOfOthers u table.
Proof.
  intros Hkeep. unfold rowsOfOthers, updateWhere.
  induction table as [|r table IH]; simpl; [reflexivity|].
  destruct (owns taskId u r) eqn:Ho.
  - rewrite Hkeep. apply owns_spec in Ho as [_ ->].
    rewrite String.eqb_refl. simpl. exact IH.
  - rewrite IH. reflexivity.
Qed.

Lemma rowsOfOthers_deleteWhere u taskId table :
  rowsOfOthers u (deleteWhere taskId u table) = rowsOfOthers u table.
Proof.
  unfold rowsOfOthers, deleteWhere.
  induction table as [|r table IH]; simpl; [reflexivity|].
  destruct (owns taskId u r) eqn:Ho; simpl.
  - apply owns_spec in Ho as [_ ->]. rewrite String.eqb_refl. simpl. exact IH.
  - rewrite IH. reflexivity.
Qed.

(** X5.  A task call made for one user never adds, changes, removes or
    reorders a row of another user, whether the database answers or fails
    along the way. *)
Theorem calls_leave_other_users (c : Call) (w : Backend) :
  rowsOfOthers (callUser c) (tasks (perform svc c w))
  = rowsOfOthers (callUser c) (tasks w).
Proof.
  destruct c as [u t d due p | u i upd | u i | u i]; simpl.
  - destruct (tasks_createTask u t d due p w) as [-> | [r [Hu [_ [_ ->]]]]];
      [reflexivity|].
    rewrite rowsOfOthers_app. unfold rowsOfOthers at 2. simpl.
    rewrite Hu, String.eqb_refl. simpl. apply app_nil_r.
  - destruct (tasks_updateTask u i upd w) as [-> | ->]; [reflexivity|].
    apply rowsOfOthers_updateWhere. reflexivity.
  - destruct (tasks_completeTask u i w) as [-> | [t ->]]; [reflexivity|].
    apply rowsOfOthers_updateWhere. reflexivity.
  - destruct (tasks_deleteTask u i w) as [-> | ->]; [reflexivity|].
    apply rowsOfOthers_deleteWhere.
Qed.

Lemma coherent_perform c w :
  Forall coherent (tasks w) -> Forall coherent (tasks (perform svc c w)).
Proof.
  intros Hw. destruct c as [u t d due p | u i upd | u i | u i]; simpl.
  - destruct (tasks_createTask u t d due p w) as [-> | [r [_ [Hc [Hat ->]]]]];
      [exact Hw|].
    apply Forall_app. split; [exact Hw|]. constructor; [|constructor].
    unfold coherent. rewrite Hc, Hat. split; [congruence | intros [x Hx]; discriminate].
  - destruct (tasks_updateTask u i upd w) as [-> | ->]; [exact Hw|].
    unfold updateWhere. apply Forall_fmap. eapply Forall_impl; [exact Hw|].
    intros r Hr. simpl. destruct (owns i u r); exact Hr.
  - destruct (tasks_completeTask u i w) as [-> | [t ->]]; [exact Hw|].
    unfold updateWhere. apply Forall_fmap. eapply Forall_impl; [exact Hw|].
    intros r Hr. simpl. destruct (owns i u r); [|exact Hr].
    unfold coherent. simpl. split; [eauto | discriminate].
  - destruct (tasks_deleteTask u i w) as [-> | ->]; [exact Hw|].
    unfold deleteWhere. apply Forall_forall. intros r Hr.
    apply list_elem_of_In, List.filter_In in Hr as [Hin _].
    rewrite Forall_forall in Hw. apply Hw. apply list_elem_of_In. exact Hin.
Qed.

(** X6.  Completion and completion time go together: on a table where every
    row is completed exactly when it has a completion time, any sequence of
    create, update, complete and delete calls keeps it so, and every task
    read back by [getTask] has [completedAt] set exactly when [completed] is
    true. *)
Theorem calls_keep_completion_coherent (calls : list Call) (w : Backend) :
  Forall coherent (tasks w) ->
  let w' := foldl (fun w c => perform svc c w) w calls in
  Forall coherent (tasks w')
  /\ forall u i t rest,
       getTask svc u i w' = (Ok (Some t), rest) ->
       (task_completed t = true <-> is_Some (task_completedAt t)).
Proof.
  intros Hw w'.
  assert (Hw' : Forall coherent (tasks w')).
  { subst w'. revert w Hw. induction calls as [|c calls IH]; intros w Hw; simpl;
      [exact Hw|]. apply IH, coherent_perform, Hw. }
  split; [exact Hw'|].
  intros u i t rest Hget. rewrite getTask_eq in Hget.
  destruct (d1Up svc (time w')); [|discriminate].
  destruct (selectTask (tasks w') i u) as [r|] eqn:Hsel; [|discriminate].
  simpl in Hget. injection Hget as <- _.
  apply selectTask_Some in Hsel as [Hin _].
  rewrite Forall_forall in Hw'. specialize (Hw' r).
  rewrite list_elem_of_In in Hw'. specialize (Hw' Hin). unfold coherent in Hw'.
  simpl. unfold Boolean. rewrite <- Hw'.
  destruct (Z.eqb_spec (row_completed r) 0); simpl; split; congruence.
Qed.

Ltac all_up Hup :=
  repeat (simpl; rewrite ?Hup; simpl).

Lemma selectTask_unused table j v :
  Forall (fun r => row_id r <> j) table -> selectTask table j v = None.
Proof.
  rewrite selectTask_find. induction 1 as [|x table Hx _ IH]; simpl; [reflexivity|].
  unfold owns at 1. destruct (String.eqb_spec (row_id x) j); [contradiction|].
  exact IH.
Qed.

(** X7.  Reading back a created task: when the database answers, the user
    has a row in [users] and the drawn id is carried by no task row, so that
    the schema accepts the INSERT, [createTask] returns the task and a
    following [getTask] finds it, with an empty description or a zero due
    date read back as absent and everything else as returned; the task table
    keeps its primary key and its foreign key. *)
Theorem create_then_get userId title description dueDate priority w :
  alwaysUp svc ->
  hasUser userId w ->
  unusedId (uuidAt svc (time w)) w ->
  exists task w1,
    createTask svc userId title description dueDate priority w = (Ok task, w1)
    /\ getTask svc userId (task_id task) w1 = (Ok (Some (asStored task)), advance w1)
    /\ (description <> Some "" -> dueDate <> Some 0 -> asStored task = task)
    /\ task_id task = uuidAt svc (time w)
    /\ (primaryKey w -> primaryKey w1)
    /\ (foreignKey w -> foreignKey w1).
Proof.
  intros Hup Huser Hfresh.
  pose proof (selectTask_unused _ _ userId Hfresh) as Hnone.
  unfold createTask, bind, drawUUID, epochSeconds, bind, dateNow, ret, d1.
  all_up Hup. eexists _, _. split; [reflexivity|]. split; [|split; [|split; [|split]]].
  - rewrite getTask_eq. all_up Hup.
    rewrite (selectTask_snoc _ _ _ _ Hnone). unfold owns. simpl.
    rewrite !String.eqb_refl. reflexivity.
  - intros Hd Hdue. unfold asStored. simpl. f_equal.
    + destruct description as [d|]; [|reflexivity]. simpl. unfold truthyStr.
      destruct (String.eqb_spec d ""); [subst; contradiction | reflexivity].
    + destruct dueDate as [d|]; [|reflexivity]. unfold orNum. simpl.
      destruct (Z.eqb_spec d 0); [subst; contradiction | reflexivity].
  - reflexivity.
  - unfold primaryKey. simpl. intros Hkey. rewrite map_app. simpl.
    apply NoDup_app. split; [exact Hkey|]. split; [|apply NoDup_singleton].
    intros x Hx Hin. apply list_elem_of_singleton in Hin. subst x.
    apply list_elem_of_fmap in Hx as [r [Hr Hin]].
    unfold unusedId in Hfresh. rewrite Forall_forall in Hfresh.
    exact (Hfresh r Hin (eq_sym Hr)).
  - unfold foreignKey, hasUser. simpl. intros Href.
    apply Forall_app. split; [exact Href|].
    constructor; [exact Huser | constructor].
Qed.

(** X8.  Completing a task: when the database answers, [completeTask] on a
    task of the user returns it marked completed with the current second as
    completion time and otherwise as stored, and a following [getTask] reads
    the same task; on a task the user does not have it throws
    [Task not found] and leaves the table as it was. *)
Theorem complete_marks_and_stamps userId taskId w :
  alwaysUp svc ->
  (forall r,
      selectTask (tasks w) taskId userId = Some r ->
      let now := clockMs svc (S (time w)) / 1000 in
      let done := mapDbTaskToTask (markCompleted now r) in
      exists w',
        completeTask svc userId taskId w = (Ok done, w')
        /\ task_completed done = true
        /\ task_completedAt done = Some now
        /\ task_title done = row_title r
        /\ task_dueDate done = row_due_date r
        /\ getTask svc userId taskId w' = (Ok (Some done), advance w'))
  /\ (selectTask (tasks w) taskId userId = None ->
      completeTask svc userId taskId w = (Thrown "Task not found", advance w)).
Proof.
  intros Hup. split.
  - intros r Hr now done.
    unfold completeTask, getTask, epochSeconds, dateNow, bind, d1, ret, throw.
    all_up Hup. rewrite Hr. all_up Hup.
    pose proof Hr as Hk. apply selectTask_Some in Hk as [_ [Hi Hu]].
    assert (Ho : owns taskId userId r = true) by (apply owns_spec; auto).
    assert (Hsel : selectTask
                     (updateWhere taskId userId (markCompleted now) (tasks w))
                     taskId userId = Some (markCompleted now r)).
    { rewrite (selectTask_updateWhere _ _ _ _ _ _ (markCompleted_keys now)), Hr.
      simpl. rewrite Ho. reflexivity. }
    fold now. rewrite Hsel. simpl.
    eexists. split; [reflexivity|]. repeat split.
    all_up Hup. rewrite Hsel. reflexivity.
  - intros Hnone.
    unfold completeTask, getTask, bind, d1, ret, throw.
    all_up Hup. rewrite Hnone. reflexivity.
Qed.

(** X9.  Deleting a task: when the database answers, [deleteTask] on a task
    of the user removes it, so that [getTask] then finds nothing and a second
    [deleteTask] throws [Task not found], while every other (task, user) key
    reads as before. *)
Theorem delete_removes_only_that_task userId taskId r w :
  alwaysUp svc ->
  selectTask (tasks w) taskId userId = Some r ->
  exists w',
    deleteTask svc userId taskId w = (Ok tt, w')
    /\ getTask svc userId taskId w' = (Ok None, advance w')
    /\ deleteTask svc userId taskId w' = (Thrown "Task not found", advance w')
    /\ forall j v, (j, v) <> (taskId, userId) ->
                   selectTask (tasks w') j v = selectTask (tasks w) j v.
Proof.
  intros Hup Hr.
  unfold deleteTask, getTask, bind, d1, ret, throw.
  all_up Hup. rewrite Hr. all_up Hup.
  eexists. split; [reflexivity|]. simpl.
  assert (Hgone : selectTask (deleteWhere taskId userId (tasks w)) taskId userId
                  = None).
  { rewrite selectTask_deleteWhere, !String.eqb_refl. reflexivity. }
  all_up Hup. rewrite Hgone. simpl.
  split; [reflexivity|]. split; [reflexivity|].
  intros j v Hne. rewrite selectTask_deleteWhere.
  destruct (String.eqb_spec j taskId); destruct (String.eqb_spec v userId);
    simpl; try reflexivity.
  subst. contradiction.
Qed.

Lemma applyUpdates_none u r : hasFields u = false -> applyUpdates u r = r.
Proof.
  destruct u as [[t|] [d|] [due|] [p|]]; try discriminate.
  intros _. destruct r. reflexivity.
Qed.

(** X10.  Updating a task: when the database answers, [updateTask] on a task
    of the user returns it with the named fields replaced, where a
    description given as the empty string and a due date given as zero are
    cleared; it never changes the task's id, owner, completion, completion
    time or creation time; and with no field named it issues no UPDATE: the
    table stays as it was and only the two reads have advanced the time.  On
    a task the user does not have it throws [Task not found]. *)
Theorem update_changes_named_fields userId taskId updates w :
  alwaysUp svc ->
  (forall r,
      selectTask (tasks w) taskId userId = Some r ->
      exists t w',
        updateTask svc userId taskId updates w = (Ok t, w')
        /\ t = mapDbTaskToTask (applyUpdates updates r)
        /\ task_id t = row_id r /\ task_userId t = row_user_id r
        /\ task_completed t = Boolean (row_completed r)
        /\ task_completedAt t = row_completed_at r
        /\ task_createdAt t = row_created_at r
        /\ (new_description updates = Some "" -> task_description t = None)
        /\ (new_dueDate updates = Some 0 -> task_dueDate t = None)
        /\ (hasFields updates = false ->
            tasks w' = tasks w /\ time w' = (2 + time w)%nat))
  /\ (selectTask (tasks w) taskId userId = None ->
      updateTask svc userId taskId updates w
      = (Thrown "Task not found", advance w)).
Proof.
  intros Hup. split.
  - intros r Hr.
    pose proof Hr as Hk. apply selectTask_Some in Hk as [_ [Hi Hu]].
    assert (Ho : owns taskId userId r = true) by (apply owns_spec; auto).
    unfold updateTask, getTask, bind, d1, ret, throw.
    all_up Hup. rewrite Hr. simpl.
    destruct (hasFields updates) eqn:Hf; all_up Hup.
    + assert (Hsel : selectTask
                       (updateWhere taskId userId (applyUpdates updates) (tasks w))
                       taskId userId = Some (applyUpdates updates r)).
      { rewrite (selectTask_updateWhere _ _ _ _ _ _ (applyUpdates_keys updates)), Hr.
        simpl. rewrite Ho. reflexivity. }
      rewrite Hsel. simpl. eexists _, _. split; [reflexivity|].
      split; [reflexivity|]. simpl.
      split; [reflexivity|]. split; [reflexivity|]. split; [reflexivity|].
      split; [reflexivity|]. split; [reflexivity|].
      split; [intros ->; reflexivity|].
      split; [intros ->; reflexivity | discriminate].
    + rewrite Hr. simpl. eexists _, _. split; [reflexivity|].
      rewrite (applyUpdates_none updates r Hf).
      split; [reflexivity|]. simpl.
      split; [reflexivity|]. split; [reflexivity|]. split; [reflexivity|].
      split; [reflexivity|]. split; [reflexivity|].
      destruct updates as [[t|] [d|] [due|] [p|]]; try discriminate.
      split; [discriminate|]. split; [discriminate|].
      intros _. split; reflexivity.
  - intros Hnone.
    unfold updateTask, getTask, bind, d1, ret, throw.
    all_up Hup. rewrite Hnone. reflexivity.
Qed.

#[local] Instance newestFirst_total : Total newestFirst.
Proof. intros a b. unfold newestFirst. lia. Qed.

#[local] Instance newestFirst_trans : Transitive newestFirst.
Proof. intros a b c. unfold newestFirst. lia. Qed.

(** X11.  Listing: when the database answers, [listUserTasks] returns the
    tasks of exactly the user's rows (those with the asked completion flag,
    when one is given), each once, ordered by creation time with the newest
    first. *)
Theorem list_is_users_newest_first userId completed w :
  d1Up svc (time w) = true ->
  exists rows,
    listUserTasks svc userId completed w
    = (Ok (map mapDbTaskToTask rows), advance w)
    /\ rows ≡ₚ List.filter
                 (fun r => String.eqb (row_user_id r) userId
                           && match completed with
                              | Some c => (row_completed r =? (if c then 1 else 0))
                              | None => true
                              end) (tasks w)
    /\ StronglySorted newestFirst rows
    /\ Forall (fun t => task_userId t = userId) (map mapDbTaskToTask rows).
Proof.
  intros Hup. unfold listUserTasks, bind, d1, ret. rewrite Hup.
  eexists. split; [reflexivity|].
  split; [apply merge_sort_Permutation|].
  split; [apply StronglySorted_merge_sort; apply _|].
  apply Forall_fmap, Forall_forall. intros r Hr.
  rewrite merge_sort_Permutation in Hr.
  apply list_elem_of_In, List.filter_In in Hr as [_ Hr].
  apply andb_true_iff in Hr as [Hu _]. apply String.eqb_eq in Hu. exact Hu.
Qed.

(** X12.  [handleCreateTask] never throws and sends exactly one frame on the
    handle: [task_created] when the INSERT succeeded, and otherwise an
    [error] frame carrying the cause, in which case no task row is added and
    no reminder run is created. *)
Theorem create_handler_sends_one_frame ws session data w :
  let t := time (snd (ensureUser svc (s_userId session) w)) in
  let w' := snd (handleCreateTask svc ws session data w) in
  fst (handleCreateTask svc ws session data w) = Ok tt
  /\ exists frame,
       sent w' = sent w ++ [(ws, frame)]
       /\ (d1Up svc (2 + t) = true ->
           exists ts, frame = TaskCreated (createdTask svc (s_userId session) data t) ts)
       /\ (d1Up svc (2 + t) = false ->
           (exists ts, frame = Failure "Failed to create task" D1_ERROR ts)
           /\ tasks w' = tasks w /\ workflows w' = workflows w).
Proof.
  intros t w'. subst t w'.
  destruct (TaskCreationFacts.ensureUser_ok svc (s_userId session) w)
    as [w1 [Hens [Htasks1 [Hwf1 Hsent1]]]].
  rewrite Hens. simpl snd.
  destruct (d1Up svc (2 + time w1)) eqn:Hup.
  - destruct (TaskCreationFacts.createTask_ok svc (s_userId session) data w1 Hup)
      as [w2 [Hcreate [_ [_ [Hsent2 _]]]]].
    destruct (TaskCreationFacts.maybeSchedule_cases svc (s_userId session)
                (createdTask svc (s_userId session) data (time w1)) w2)
      as [w3 [Hsched [Hsent3 _]]].
    rewrite (TaskCreationFacts.handleCreateTask_created svc ws session data w w1
               _ w2 w3 Hens Hcreate Hsched).
    simpl. split; [reflexivity|]. eexists. split.
    + rewrite Hsent3, Hsent2, Hsent1. reflexivity.
    + split; [intros _; eexists; reflexivity | discriminate].
  - unfold handleCreateTask, catch, bind. rewrite Hens.
    unfold createTask, bind, drawUUID, epochSeconds, bind, dateNow, ret, d1,
      consoleLog, wsSend, modify.
    simpl in *. rewrite Hup. simpl.
    split; [reflexivity|]. eexists. split; [rewrite Hsent1; reflexivity|].
    split; [discriminate|]. intros _.
    split; [eexists; reflexivity|]. split; assumption.
Qed.

End WithServices.

End TaskFacts.

(* ===================================================================== *)
(** ** Properties of the cleanup workflow                                 *)
(* ===================================================================== *)

Module MaintenanceFacts.
Import Types Store Effect Agent Tasks Maintenance.
Local Open Scope Z_scope.

Section WithServices.
Variable svc : Services.

Lemma cleanupOldTasks_eq userId w :
  cleanupOldTasks svc userId w
  = let threshold := clockMs svc (time w) / 1000 - RETENTION in
    if d1Up svc (S (time w))
    then (Ok (length (List.filter (expired userId threshold) (tasks w))),
          advance (setTasks (List.filter (fun r => negb (expired userId threshold r)))
                            (advance w)))
    else (Thrown D1_ERROR, advance (advance w)).
Proof.
  unfold cleanupOldTasks, bind, epochSeconds, bind, dateNow, ret, d1. simpl.
  destruct (d1Up svc (S (time w))); reflexivity.
Qed.

(** The step either fails leaving the table alone, or succeeds once, with the
    DELETE of some threshold. *)
Lemma retrying_cleanup userId budget :
  forall w,
    (exists e, fst (retrying budget (cleanupOldTasks svc userId) w) = Thrown e
               /\ tasks (snd (retrying budget (cleanupOldTasks svc userId) w))
                  = tasks w)
    \/ exists threshold,
         fst (retrying budget (cleanupOldTasks svc userId) w)
         = Ok (length (List.filter (expired userId threshold) (tasks w)))
         /\ tasks (snd (retrying budget (cleanupOldTasks svc userId) w))
            = List.filter (fun r => negb (expired userId threshold r)) (tasks w).
Proof.
  induction budget as [|b IH]; intros w; simpl; rewrite cleanupOldTasks_eq; simpl;
    destruct (d1Up svc (S (time w))); simpl; eauto.
  destruct (IH (advance (advance w))) as [[e [He Ht]] | [th [Hr Ht]]]; eauto.
Qed.

Lemma untouchable_not_expired userId threshold r :
  untouchable userId r = true -> expired userId threshold r = false.
Proof.
  unfold untouchable, expired. intros H.
  destruct (String.eqb (row_user_id r) userId); simpl in *; [|reflexivity].
  destruct (row_completed r =? 1); simpl in *; [|reflexivity].
  destruct (row_completed_at r); simpl in *; [discriminate | reflexivity].
Qed.

Lemma filter_filter_keep {A} (p q : A -> bool) (l : list A) :
  (forall x, p x = true -> q x = true) ->
  List.filter p (List.filter q l) = List.filter p l.
Proof.
  intros Hpq. induction l as [|x l IH]; simpl; [reflexivity|].
  destruct (q x) eqn:Hq; simpl.
  - rewrite IH. reflexivity.
  - destruct (p x) eqn:Hp; [|exact IH]. rewrite (Hpq x Hp) in Hq. discriminate.
Qed.

(** X13.  Whatever the database and the retries do, a cleanup run for a user
    removes nothing but completed tasks of that user that carry a completion
    time: the rows of other users, the open tasks and the tasks without a
    completion time all stay, in their order; and when the run returns, it
    reports success with the number of rows that left the table. *)
Theorem cleanup_removes_only_own_completed retryLimit params w :
  let out := handleCleanupWorkflow svc retryLimit params w in
  List.filter (untouchable (p_userId params)) (tasks (snd out))
  = List.filter (untouchable (p_userId params)) (tasks w)
  /\ forall res, fst out = Ok res ->
       cleanup_success res = true
       /\ (deletedCount res + length (tasks (snd out)) = length (tasks w))%nat.
Proof.
  intros out. subst out. unfold handleCleanupWorkflow, bind.
  destruct (retrying_cleanup (p_userId params) retryLimit w)
    as [[e [He Ht]] | [th [Hr Ht]]];
    destruct (retrying retryLimit (cleanupOldTasks svc (p_userId params)) w)
      as [r w'] eqn:Hrun; simpl in *; subst r; simpl.
  - split; [rewrite Ht; reflexivity | discriminate].
  - rewrite Ht. split.
    + apply filter_filter_keep. intros x Hx.
      rewrite (untouchable_not_expired _ th x Hx). reflexivity.
    + intros res [= <-]. simpl. split; [reflexivity|].
      generalize (tasks w). intros l. induction l as [|x l IH]; simpl; [reflexivity|].
      destruct (expired (p_userId params) th x); simpl; lia.
Qed.

(** X14.  When the DELETE of the first attempt is answered, the run removes
    exactly the user's tasks completed more than thirty days before the
    clock reading and reports their number; a second run at a clock reading
    no later finds nothing to delete and leaves the table as it is. *)
Theorem cleanup_is_exact_and_idempotent retryLimit params w :
  d1Up svc (S (time w)) = true ->
  let userId := p_userId params in
  let threshold := clockMs svc (time w) / 1000 - RETENTION in
  exists res w1,
    handleCleanupWorkflow svc retryLimit params w = (Ok res, w1)
    /\ tasks w1 = List.filter (fun r => negb (expired userId threshold r)) (tasks w)
    /\ deletedCount res = length (List.filter (expired userId threshold) (tasks w))
    /\ (d1Up svc (S (time w1)) = true ->
        clockMs svc (time w1) / 1000 <= clockMs svc (time w) / 1000 ->
        exists res2 w2,
          handleCleanupWorkflow svc retryLimit params w1 = (Ok res2, w2)
          /\ deletedCount res2 = 0%nat /\ tasks w2 = tasks w1).
Proof.
  intros Hup userId threshold.
  assert (Hfirst : forall w0, d1Up svc (S (time w0)) = true ->
            retrying retryLimit (cleanupOldTasks svc userId) w0
            = cleanupOldTasks svc userId w0).
  { intros w0 H0. destruct retryLimit; simpl; rewrite cleanupOldTasks_eq, H0;
      reflexivity. }
  unfold handleCleanupWorkflow, bind. fold userId.
  rewrite (Hfirst w Hup), cleanupOldTasks_eq, Hup. cbv zeta. fold threshold.
  set (w1 := advance (setTasks (List.filter
                                  (fun r => negb (expired userId threshold r)))
                               (advance w))).
  eexists _, w1. split; [reflexivity|].
  split; [reflexivity|]. split; [reflexivity|].
  intros Hup2 Hclock.
  rewrite (Hfirst w1 Hup2), cleanupOldTasks_eq, Hup2.
  subst w1. simpl in Hclock |- *.
  set (th2 := clockMs svc (S (S (time w))) / 1000 - RETENTION).
  assert (Hnone : forall l,
            List.filter (expired userId th2)
              (List.filter (fun r => negb (expired userId threshold r)) l) = []).
  { induction l as [|x l IH]; simpl; [reflexivity|].
    destruct (expired userId threshold x) eqn:Hx; simpl; [exact IH|].
    destruct (expired userId th2 x) eqn:Hx2; [|exact IH].
    exfalso. unfold expired in Hx, Hx2.
    destruct (String.eqb (row_user_id x) userId); [|discriminate].
    destruct (row_completed x =? 1); [|discriminate].
    destruct (row_completed_at x) as [c|]; [|discriminate]. simpl in *.
    apply Z.ltb_lt in Hx2. apply Z.ltb_ge in Hx. subst th2 threshold. lia. }
  eexists _, _. split; [reflexivity|]. simpl. rewrite Hnone.
  split; [reflexivity|].
  generalize (tasks w). intros l. induction l as [|x l IH]; simpl; [reflexivity|].
  destruct (expired userId threshold x) eqn:Hx; simpl; [exact IH|].
  destruct (expired userId th2 x) eqn:Hx2; simpl.
  - exfalso. pose proof (Hnone [x]) as H1. simpl in H1. rewrite Hx in H1.
    simpl in H1. rewrite Hx2 in H1. discriminate.
  - rewrite IH. reflexivity.
Qed.

End WithServices.

End MaintenanceFacts.

(* ===================================================================== *)
(** ** Further properties of the connection registry                      *)
(* ===================================================================== *)

Module RegistryMoreFacts.
Import Types Store Agent RegistryInvariants.

Section WithPlatform.
Variable platform : Platform.

Lemma identityOf_blank fallback now :
  identityOf (mkSocket [] None) fallback now = (orStr "" fallback, now).
Proof. reflexivity. Qed.

(** With the registry mirroring the platform, the recovery block has
    nothing to recover: a handle without a session is no longer attached. *)
Lemma recover_mirrors a ws now :
  mirrors a ->
  recoverSession a ws now
  = match sessions a !! ws with Some _ => Some a | None => None end.
Proof.
  intros [Hdom _]. unfold recoverSession.
  destruct (sessions a !! ws) as [s|] eqn:Hs; [reflexivity|].
  assert (Hsock : sockets a !! ws = None).
  { apply eq_None_not_Some. rewrite <- Hdom, Hs. intros [x Hx]; discriminate. }
  unfold socketOf. rewrite Hsock. reflexivity.
Qed.

Lemma mirrors_upgrade a claimed now :
  mirrors a -> mirrors (fst (handleWebSocketUpgrade platform a claimed now)).
Proof.
  intros Ha. unfold handleWebSocketUpgrade.
  destruct claimed as [u|]; [|exact Ha].
  destruct (negb (truthyStr u)); [exact Ha|].
  destruct (truthyStr (userId (state a)) && negb (String.eqb (userId (state a)) u));
    [exact Ha|].
  destruct Ha as [Hdom [_ Hold]].
  unfold mirrors, send, saveState, syncActive, setState, setSessions,
    acceptWebSocket.
  simpl. split; [|split].
  - intros k. rewrite !lookup_insert. destruct (decide (nextHandle a = k));
      [split; eauto | apply Hdom].
  - discriminate.
  - intros k. rewrite lookup_insert. destruct (decide (nextHandle a = k));
      [lia|]. intros Hk. specialize (Hold k Hk). lia.
Qed.

Lemma mirrors_message a ws m now :
  mirrors a -> mirrors (webSocketMessage a ws m now).
Proof.
  intros Ha. unfold webSocketMessage. rewrite (recover_mirrors a ws now Ha).
  destruct (sessions a !! ws); [|exact Ha].
  destruct m as [| | |pushed returned]; try exact Ha.
  destruct Ha as [Hdom [Hsto Hold]].
  destruct returned; simpl; (split; [exact Hdom|]); (split; [|exact Hold]);
    [discriminate | exact Hsto].
Qed.

Lemma mirrors_drop a ws :
  mirrors a ->
  let a1 := dropSession a ws in
  (forall k, is_Some (sessions a1 !! k)
             <-> is_Some (delete ws (sockets a) !! k))
  /\ sockets a1 = sockets a /\ storage a1 = storage a
  /\ nextHandle a1 = nextHandle a.
Proof.
  intros [Hdom _] a1. subst a1. unfold dropSession.
  destruct (sessions a !! ws) as [s|] eqn:Hs; simpl.
  - split; [|auto]. intros k. rewrite !lookup_delete.
    destruct (decide (ws = k)); [split; intros [x Hx]; discriminate | apply Hdom].
  - split; [|auto]. intros k. rewrite lookup_delete.
    destruct (decide (ws = k)) as [<-|]; [|apply Hdom].
    rewrite Hs. split; intros [x Hx]; discriminate.
Qed.

Lemma mirrors_close a ws : mirrors a -> mirrors (detach ws (webSocketClose a ws)).
Proof.
  intros Ha.
  destruct (mirrors_drop a ws Ha) as [Hdom [Hsock [_ Hnext]]].
  destruct Ha as [_ [_ Hold]].
  unfold mirrors, webSocketClose, detach, saveState in *. simpl.
  rewrite Hsock, Hnext.
  split; [exact Hdom|]. split; [discriminate|].
  intros k. rewrite lookup_delete. destruct (decide (ws = k));
    [intros [x Hx]; discriminate | apply Hold].
Qed.

Lemma mirrors_error a ws : mirrors a -> mirrors (detach ws (webSocketError a ws)).
Proof.
  intros Ha.
  destruct (mirrors_drop a ws Ha) as [Hdom [Hsock [Hsto Hnext]]].
  destruct Ha as [_ [Hnone Hold]].
  unfold mirrors, webSocketError, detach in *. simpl.
  rewrite Hsock, Hnext, Hsto.
  split; [exact Hdom|]. split.
  - intros Hs. rewrite (Hnone Hs). apply delete_empty.
  - intros k. rewrite lookup_delete. destruct (decide (ws = k));
      [intros [x Hx]; discriminate | apply Hold].
Qed.

Lemma rebuild_lookup a now k :
  sessions (rebuildSessions a now) !! k
  = (fun sock => mkSession k (identityOf sock (this_userId a) now).1
                           (identityOf sock (this_userId a) now).2)
      <$> sockets a !! k.
Proof.
  unfold rebuildSessions. simpl. rewrite map_lookup_imap.
  destruct (sockets a !! k) as [sock|]; simpl; [|reflexivity].
  destruct (identityOf sock (this_userId a) now). reflexivity.
Qed.

Lemma mirrors_reactivate a history now :
  mirrors a -> mirrors (reactivate a history now).
Proof.
  intros [Hdom [Hnone Hold]].
  unfold mirrors, reactivate, loadState, constructed. simpl.
  destruct (storage a) as [stored|] eqn:Hsto.
  - destruct (truthyStr (userId stored)); (split; [|split]);
      try (intros k; rewrite rebuild_lookup, fmap_is_Some; reflexivity);
      try discriminate; exact Hold.
  - simpl. rewrite (Hnone eq_refl). split; [|split].
    + intros k. rewrite !lookup_empty. split; intros [x Hx]; discriminate.
    + reflexivity.
    + intros k. rewrite lookup_empty. intros [x Hx]; discriminate.
Qed.

Lemma mirrors_step a e : mirrors a -> mirrors (step platform a e).
Proof.
  intros Ha. destruct e; simpl.
  - apply mirrors_upgrade, Ha.
  - apply mirrors_message, Ha.
  - apply mirrors_close, Ha.
  - apply mirrors_error, Ha.
  - apply mirrors_reactivate, Ha.
Qed.

Lemma mirrors_run events : forall a, mirrors a -> mirrors (run platform a events).
Proof.
  induction events as [|e events IH]; intros a Ha; simpl; [exact Ha|].
  apply IH, mirrors_step, Ha.
Qed.

Lemma mirrors_newborn next out history now :
  mirrors (activate None ∅ next out history now).
Proof.
  unfold mirrors, activate, loadState, constructed. simpl. split; [|split].
  - intros k. rewrite !lookup_empty. split; intros [x Hx]; discriminate.
  - reflexivity.
  - intros k. rewrite lookup_empty. intros [x Hx]; discriminate.
Qed.

Lemma mirrors_dom a :
  mirrors a -> dom (sessions a) =@{gset nat} dom (sockets a).
Proof.
  intros [Hdom _]. apply set_eq. intros k. rewrite !elem_of_dom. apply Hdom.
Qed.

Lemma mirrors_fresh a : mirrors a -> sessions a !! nextHandle a = None.
Proof.
  intros [Hdom [_ Hold]]. apply eq_None_not_Some. intros Hs.
  apply Hdom, Hold in Hs. lia.
Qed.

(** X15.  An object that starts on an empty platform keeps, through any
    deliveries and evictions, exactly one session per handle the platform
    holds: the two key sets agree and [activeWebSockets] is the number of
    attached handles.  A frame on an attached handle therefore finds its
    session without recovery, and a frame on a handle that is no longer
    attached is answered [Session lost] and changes nothing else. *)
Theorem registry_mirrors_platform next out history now events :
  let a := run platform (activate None ∅ next out history now) events in
  dom (sessions a) =@{gset nat} dom (sockets a)
  /\ activeWebSockets (state a) = size (sockets a)
  /\ (forall ws t, is_Some (sockets a !! ws) -> recoverSession a ws t = Some a)
  /\ (forall ws m t, sockets a !! ws = None ->
                     webSocketMessage a ws m t = send ws SessionLost a).
Proof.
  intros a.
  assert (Hm : mirrors a) by apply mirrors_run, mirrors_newborn.
  assert (Hc : counted a).
  { apply RegistryFacts.counted_run, RegistryFacts.counted_loadState,
      RegistryFacts.counted_constructed. }
  pose proof (mirrors_dom a Hm) as Hdom.
  split; [exact Hdom|]. split.
  - unfold counted in Hc. rewrite Hc.
    rewrite <- (size_dom (D:=gset nat) (sessions a)), Hdom. apply size_dom.
  - split.
    + intros ws t Hs. rewrite (recover_mirrors a ws t Hm).
      apply (proj1 Hm) in Hs. destruct Hs as [s ->]. reflexivity.
    + intros ws m t Hnone. unfold webSocketMessage.
      rewrite (recover_mirrors a ws t Hm).
      assert (Hs : sessions a !! ws = None).
      { apply eq_None_not_Some. rewrite (proj1 Hm), Hnone.
        intros [x Hx]; discriminate. }
      rewrite Hs. reflexivity.
Qed.

(** X16.  On such an object every accepted upgrade raises
    [activeWebSockets] by exactly one, on a handle that had no session, and
    closing an attached handle lowers it by exactly one; closing a handle
    that is not attached only stores the state. *)
Theorem connections_counted_once next out history now events :
  let a := run platform (activate None ∅ next out history now) events in
  (forall claimed t,
      let answer := handleWebSocketUpgrade platform a claimed t in
      status (snd answer) = 101 ->
      activeWebSockets (state (fst answer)) = S (activeWebSockets (state a))
      /\ client (snd answer) = Some (nextHandle a)
      /\ sessions a !! nextHandle a = None)
  /\ (forall ws, is_Some (sockets a !! ws) ->
                 S (activeWebSockets (state (webSocketClose a ws)))
                 = activeWebSockets (state a))
  /\ (forall ws, sockets a !! ws = None -> webSocketClose a ws = saveState a).
Proof.
  intros a.
  assert (Hm : mirrors a) by apply mirrors_run, mirrors_newborn.
  assert (Hc : counted a).
  { apply RegistryFacts.counted_run, RegistryFacts.counted_loadState,
      RegistryFacts.counted_constructed. }
  unfold counted in Hc.
  pose proof (mirrors_fresh a Hm) as Hfresh.
  split; [|split].
  - intros claimed t answer. subst answer. unfold handleWebSocketUpgrade.
    destruct claimed as [u|]; [|discriminate].
    destruct (negb (truthyStr u)); [discriminate|].
    destruct (truthyStr (userId (state a)) && negb (String.eqb (userId (state a)) u));
      [discriminate|].
    intros _. simpl. rewrite (map_size_insert_None _ _ _ Hfresh), Hc. auto.
  - intros ws Hs. apply (proj1 Hm) in Hs. pose proof Hs as [s Hs'].
    unfold webSocketClose, dropSession. rewrite Hs'. simpl.
    rewrite (map_size_delete_Some _ _ Hs), Hc.
    assert (size (sessions a) <> 0).
    { apply map_size_ne_0_lookup_2 with ws. exact Hs. }
    lia.
  - intros ws Hnone. unfold webSocketClose, dropSession.
    assert (Hs : sessions a !! ws = None).
    { apply eq_None_not_Some. rewrite (proj1 Hm), Hnone.
      intros [x Hx]; discriminate. }
    rewrite Hs. reflexivity.
Qed.

Lemma orStr_cases a b : orStr a b = a \/ (a = "" /\ orStr a b = b).
Proof.
  unfold orStr, truthyStr. destruct (String.eqb_spec a ""); simpl; auto.
Qed.

(** The identity read off a handle named [u] is [u], the fallback, or
    nothing. *)
Lemma identityOf_named u sock fallback now :
  named u sock ->
  (identityOf sock fallback now).1 = u
  \/ (identityOf sock fallback now).1 = fallback
  \/ (identityOf sock fallback now).1 = "".
Proof.
  intros [Htag Hatt]. unfold identityOf.
  assert (Hbase : orStr (default "" (head (tags sock))) fallback = u
                  \/ orStr (default "" (head (tags sock))) fallback = fallback).
  { destruct (orStr_cases (default "" (head (tags sock))) fallback) as [H | [_ H]];
      [|auto].
    destruct (head (tags sock)) as [t|] eqn:Ht; simpl in *.
    - left. rewrite H. apply Htag. reflexivity.
    - destruct (orStr_cases "" fallback) as [H' | [_ H']]; rewrite H in *; auto. }
  destruct (attachment sock) as [att|] eqn:Ha; simpl.
  - destruct (orStr_cases (att_userId att)
                (orStr (default "" (head (tags sock))) fallback)) as [H | [_ H]];
      rewrite H.
    + left. apply Hatt. reflexivity.
    + destruct Hbase; auto.
  - destruct Hbase; auto.
Qed.

Lemma serves_upgrade u a claimed now :
  u <> "" -> established u a -> servesOnly u a ->
  servesOnly u (fst (handleWebSocketUpgrade platform a claimed now)).
Proof.
  intros Hu [Hst _] Ha. unfold handleWebSocketUpgrade.
  destruct claimed as [v|]; [|exact Ha].
  destruct (negb (truthyStr v)); [exact Ha|].
  destruct (truthyStr (userId (state a)) && negb (String.eqb (userId (state a)) v));
    [exact Ha|].
  destruct Ha as [_ [Hses Hsock]].
  unfold servesOnly, send, saveState, syncActive, setState, setSessions,
    acceptWebSocket, orStr.
  rewrite Hst, (RegistryFacts.truthyStr_true u Hu). simpl.
  split; [reflexivity|]. split.
  - intros k s. rewrite lookup_insert. destruct (decide (nextHandle a = k)).
    + intros [= <-]. simpl. auto.
    + apply Hses.
  - intros k sock. rewrite lookup_insert. destruct (decide (nextHandle a = k)).
    + intros [= <-]. simpl. split.
      * destruct (exposesTags platform); simpl; [intros t [= <-]; reflexivity |
                                                  discriminate].
      * destruct (canSerialize platform); [intros att [= <-]; reflexivity |
                                            discriminate].
    + apply Hsock.
Qed.

Lemma serves_recover u a ws now a' :
  servesOnly u a -> recoverSession a ws now = Some a' -> servesOnly u a'.
Proof.
  intros Ha. unfold recoverSession.
  destruct (sessions a !! ws) eqn:Hs; [intros [= <-]; exact Ha|].
  destruct (identityOf (socketOf a ws) "" now) as [v c] eqn:Hid.
  destruct (truthyStr v) eqn:Hv; [|discriminate]. intros [= <-].
  destruct Ha as [Hthis [Hses Hsock]].
  assert (Hnamed : named u (socketOf a ws)).
  { unfold socketOf. destruct (sockets a !! ws) as [sock|] eqn:Hw; simpl.
    - apply (Hsock ws sock Hw).
    - split; intros x Hx; discriminate. }
  assert (Hvu : v = u).
  { pose proof (identityOf_named u _ "" now Hnamed) as H. rewrite Hid in H.
    simpl in H. unfold truthyStr in Hv.
    destruct (String.eqb_spec v ""); [discriminate|].
    destruct H as [H | [H | H]]; congruence. }
  subst v. unfold servesOnly, syncActive, setState, setSessions. simpl.
  split; [exact Hthis|]. split; [|exact Hsock].
  intros k s. rewrite lookup_insert. destruct (decide (ws = k)).
  - intros [= <-]. simpl. auto.
  - apply Hses.
Qed.

Lemma serves_message u a ws m now :
  servesOnly u a -> servesOnly u (webSocketMessage a ws m now).
Proof.
  intros Ha. unfold webSocketMessage.
  destruct (recoverSession a ws now) as [a1|] eqn:Hr; [|exact Ha].
  pose proof (serves_recover u a ws now a1 Ha Hr) as H1.
  destruct m as [| | |pushed returned]; try exact H1.
  destruct returned; exact H1.
Qed.

Lemma serves_drop u a ws : servesOnly u a -> servesOnly u (dropSession a ws).
Proof.
  intros Ha. unfold dropSession. destruct (sessions a !! ws); [|exact Ha].
  destruct Ha as [Hthis [Hses Hsock]].
  unfold servesOnly, syncActive, setState, setSessions. simpl.
  split; [exact Hthis|]. split; [|exact Hsock].
  intros k s. rewrite lookup_delete. destruct (decide (ws = k)); [discriminate|].
  apply Hses.
Qed.

Lemma serves_detach u a ws : servesOnly u a -> servesOnly u (detach ws a).
Proof.
  intros [Hthis [Hses Hsock]]. unfold servesOnly, detach. simpl.
  split; [exact Hthis|]. split; [exact Hses|].
  intros k sock. rewrite lookup_delete. destruct (decide (ws = k)); [discriminate|].
  apply Hsock.
Qed.

Lemma serves_reactivate u a history now :
  u <> "" -> established u a -> servesOnly u a ->
  servesOnly u (reactivate a history now).
Proof.
  intros Hu [_ [stored [Hsto Hs]]] [_ [_ Hsock]].
  unfold reactivate, loadState, constructed. simpl. rewrite Hsto. simpl.
  rewrite Hs, (RegistryFacts.truthyStr_true u Hu).
  unfold servesOnly. split; [reflexivity|]. split; [|exact Hsock].
  intros k s. rewrite rebuild_lookup. simpl.
  destruct (sockets a !! k) as [sock|] eqn:Hk; [|discriminate].
  intros [= <-]. simpl. split; [|reflexivity].
  destruct (identityOf_named u sock u now (Hsock k sock Hk)) as [H | [H | H]];
    try exact H.
  exfalso. destruct (Hsock k sock Hk) as [Htag Hatt]. clear Hsock.
  unfold identityOf in H.
  assert (Hbase : orStr (default "" (head (tags sock))) u <> "").
  { destruct (orStr_cases (default "" (head (tags sock))) u) as [E | [_ E]];
      rewrite E; [|exact Hu].
    destruct (head (tags sock)) as [t|] eqn:Ht; simpl in *.
    - rewrite (Htag t eq_refl). exact Hu.
    - unfold orStr in E. simpl in E. congruence. }
  destruct (attachment sock) as [att|]; simpl in H; [|contradiction].
  destruct (orStr_cases (att_userId att)
              (orStr (default "" (head (tags sock))) u)) as [E | [_ E]];
    rewrite E in H; [|contradiction].
  rewrite (Hatt att eq_refl) in H. contradiction.
Qed.

Lemma serves_step u a e :
  u <> "" -> established u a -> servesOnly u a -> servesOnly u (step platform a e).
Proof.
  intros Hu He Ha. destruct e; simpl.
  - apply serves_upgrade; auto.
  - apply serves_message, Ha.
  - apply serves_detach. unfold webSocketClose.
    destruct (serves_drop u a ws Ha) as [H1 [H2 H3]]. split; [|split]; assumption.
  - apply serves_detach, serves_drop, Ha.
  - apply serves_reactivate; assumption.
Qed.

Lemma serves_run u events :
  u <> "" ->
  forall a, established u a -> servesOnly u a ->
            servesOnly u (run platform a events).
Proof.
  intros Hu. induction events as [|e events IH]; intros a He Ha; simpl; [exact Ha|].
  apply IH; [apply RegistryFacts.established_step | apply serves_step]; assumption.
Qed.

(** X17.  One object, one user: once an object that started on an empty
    platform has accepted its first connection, for [u], every session it
    ever holds is a session of [u] on its own handle, whether it was made by
    an upgrade, recovered inside the message handler or rebuilt after an
    eviction. *)
Theorem sessions_belong_to_first_user next out history now0 u t0 events :
  u <> "" ->
  let first := handleWebSocketUpgrade platform
                 (activate None ∅ next out history now0) (Some u) t0 in
  let a := run platform (fst first) events in
  status (snd first) = 101
  /\ forall k s, sessions a !! k = Some s -> s_userId s = u /\ webSocket s = k.
Proof.
  intros Hu first a.
  assert (Hfirst : status (snd first) = 101 /\ established u (fst first)
                   /\ servesOnly u (fst first)).
  { subst first. unfold handleWebSocketUpgrade, activate, loadState, constructed.
    simpl. rewrite (RegistryFacts.truthyStr_true u Hu). simpl.
    split; [reflexivity|]. split.
    - split; [reflexivity|]. eexists. split; reflexivity.
    - unfold servesOnly, send, saveState, syncActive, setState, setSessions,
        acceptWebSocket, orStr. simpl.
      split; [reflexivity|]. split.
      + intros k s. rewrite lookup_insert. destruct (decide (next = k)).
        * intros [= <-]. simpl. auto.
        * rewrite lookup_empty. discriminate.
      + intros k sock. rewrite lookup_insert. destruct (decide (next = k)).
        * intros [= <-]. simpl. split.
          -- destruct (exposesTags platform); simpl;
               [intros t [= <-]; reflexivity | discriminate].
          -- destruct (canSerialize platform);
               [intros att [= <-]; reflexivity | discriminate].
        * rewrite lookup_empty. discriminate. }
  destruct Hfirst as [Hstatus [Hest Hserves]].
  split; [exact Hstatus|].
  exact (proj1 (proj2 (serves_run u events Hu (fst first) Hest Hserves))).
Qed.

Hypothesis serializes : canSerialize platform = true.












End WithPlatform.

End RegistryMoreFacts.

(* ===================================================================== *)
(** ** Properties of the [/ws] route                                      *)
(* ===================================================================== *)

Module RouterFacts.
Import Types Agent Router.

Section WithPlatform.
Variable platform : Platform.

Lemma keyed_newborn name now : keyedBy name (activate None ∅ 0 [] [] now).
Proof. split; [left; reflexivity | discriminate]. Qed.

Lemma keyed_saved name a :
  (userId (state a) = "" \/ userId (state a) = name) -> keyedBy name (saveState a).
Proof. intros H. split; [exact H | intros stored [= <-]; exact H]. Qed.

(** An upgrade claiming the object's own name is accepted and keeps the
    object keyed by it. *)
Lemma keyed_upgrade name a now :
  name <> "" -> keyedBy name a ->
  status (snd (handleWebSocketUpgrade platform a (Some name) now)) = 101
  /\ keyedBy name (fst (handleWebSocketUpgrade platform a (Some name) now)).
Proof.
  intros Hname [Hst Hsto]. unfold handleWebSocketUpgrade.
  rewrite (RegistryFacts.truthyStr_true name Hname). simpl.
  assert (Hok : truthyStr (userId (state a))
                && negb (String.eqb (userId (state a)) name) = false).
  { destruct Hst as [-> | ->]; [reflexivity|].
    rewrite String.eqb_refl. apply andb_false_r. }
  rewrite Hok. split; [reflexivity|].
  assert (Hcanon : orStr (userId (state a)) name = name).
  { destruct Hst as [-> | ->]; [reflexivity|].
    unfold orStr. destruct (truthyStr name); reflexivity. }
  unfold keyedBy, send, saveState, syncActive, setState, setSessions,
    acceptWebSocket. simpl. rewrite Hcanon.
  split; [right; reflexivity|]. intros stored [= <-]. right. reflexivity.
Qed.

Lemma keyed_recover name a ws now a' :
  keyedBy name a -> recoverSession a ws now = Some a' -> keyedBy name a'.
Proof.
  intros Ha. unfold recoverSession.
  destruct (sessions a !! ws); [intros [= <-]; exact Ha|].
  destruct (identityOf (socketOf a ws) "" now) as [v c].
  destruct (truthyStr v); [intros [= <-]; exact Ha | discriminate].
Qed.

Lemma keyed_step name a e :
  isUpgrade e = false -> keyedBy name a -> keyedBy name (step platform a e).
Proof.
  intros He Ha. destruct e as [c t | ws m t | ws | ws | h t]; simpl in *;
    [discriminate | | | |].
  - unfold webSocketMessage.
    destruct (recoverSession a ws t) as [a1|] eqn:Hr; [|exact Ha].
    pose proof (keyed_recover name a ws t a1 Ha Hr) as H1.
    destruct m as [| | |pushed returned]; try exact H1.
    destruct returned; [|exact H1].
    destruct H1 as [H1 _]. split; [exact H1 | intros stored [= <-]; exact H1].
  - unfold webSocketClose, dropSession.
    destruct Ha as [H1 H2].
    destruct (sessions a !! ws); (split; [exact H1 | intros stored [= <-]; exact H1]).
  - unfold webSocketError, dropSession.
    destruct (sessions a !! ws); exact Ha.
  - destruct Ha as [H1 H2]. unfold reactivate, loadState, constructed. simpl.
    destruct (storage a) as [stored|] eqn:Hs.
    + specialize (H2 stored eq_refl).
      destruct (truthyStr (userId stored));
        (split; [exact H2 | intros s [= <-]; exact H2]).
    + split; [left; reflexivity | simpl; discriminate].
Qed.

Lemma allKeyed_serve objects t : allKeyed objects -> allKeyed (serve platform objects t).
Proof.
  intros Hall. destruct t as [req now | name e]; simpl.
  - unfold wsRoute. destruct (negb (wantsWebSocket req)) eqn:Hws; [exact Hall|].
    destruct (queryUserId req) as [u|] eqn:Hq; [|exact Hall].
    destruct (negb (truthyStr u)) eqn:Hu; [exact Hall|].
    unfold actorFetch. apply negb_false_iff in Hws. rewrite Hws, Hq.
    assert (Hne : u <> "") by (intros ->; discriminate).
    assert (Hk : keyedBy u (objectNamed objects u now)).
    { unfold objectNamed. destruct (objects !! u) as [a|] eqn:Ha; simpl;
        [apply (Hall u a Ha) | apply keyed_newborn]. }
    destruct (keyed_upgrade u _ now Hne Hk) as [_ Hk'].
    destruct (handleWebSocketUpgrade platform (objectNamed objects u now) (Some u) now)
      as [a' r]. simpl in *.
    intros name a. rewrite lookup_insert. destruct (decide (u = name)) as [<-|].
    + intros [= <-]. exact Hk'.
    + apply Hall.
  - destruct (objects !! name) as [a|] eqn:Ha; [|exact Hall].
    destruct (isUpgrade e) eqn:He; [exact Hall|].
    intros n b. rewrite lookup_insert. destruct (decide (name = n)) as [<-|].
    + intros [= <-]. apply keyed_step; [exact He | apply (Hall name a Ha)].
    + apply Hall.
Qed.

(** X19.  Through the route an object only ever meets its own user: after
    any traffic on an initially empty namespace, a WebSocket request that
    names a user is always accepted (101), so the conflict answer (409) of
    the object never occurs; a request without the WebSocket upgrade header
    is answered 426 and one without a user 400, both without touching any
    object. *)
Theorem route_never_conflicts traffic req now :
  let objects := foldl (serve platform) ∅ traffic in
  (wantsWebSocket req = false -> wsRoute platform objects req now = (objects, response426))
  /\ (wantsWebSocket req = true ->
      (queryUserId req = None \/ queryUserId req = Some "") ->
      wsRoute platform objects req now = (objects, routeResponse400))
  /\ (wantsWebSocket req = true ->
      forall u, queryUserId req = Some u -> u <> "" ->
      status (snd (wsRoute platform objects req now)) = 101
      /\ exists a, fst (wsRoute platform objects req now) !! u = Some a
                   /\ userId (state a) = u).
Proof.
  intros objects.
  assert (Hall : allKeyed objects).
  { subst objects. assert (H0 : allKeyed ∅).
    { intros name a. rewrite lookup_empty. discriminate. }
    revert H0. generalize (∅ : gmap string Actor).
    induction traffic as [|t traffic IH]; intros o Ho; simpl; [exact Ho|].
    apply IH, allKeyed_serve, Ho. }
  split; [|split].
  - intros Hws. unfold wsRoute. rewrite Hws. reflexivity.
  - intros Hws [Hq | Hq]; unfold wsRoute; rewrite Hws, Hq; reflexivity.
  - intros Hws u Hq Hu. unfold wsRoute, actorFetch. rewrite Hws, Hq.
    cbn [negb]. rewrite (RegistryFacts.truthyStr_true u Hu). cbn [negb].
    assert (Hk : keyedBy u (objectNamed objects u now)).
    { unfold objectNamed. destruct (objects !! u) as [a|] eqn:Ha; simpl;
        [apply (Hall u a Ha) | apply keyed_newborn]. }
    destruct (keyed_upgrade u _ now Hu Hk) as [Hst [Hk' _]].
    assert (Huser : userId (state (fst (handleWebSocketUpgrade platform
                      (objectNamed objects u now) (Some u) now))) = u).
    { unfold handleWebSocketUpgrade in Hst |- *.
      rewrite (RegistryFacts.truthyStr_true u Hu) in Hst |- *. simpl in Hst |- *.
      destruct (truthyStr (userId (state (objectNamed objects u now)))
                && negb (String.eqb (userId (state (objectNamed objects u now))) u));
        [discriminate|].
      simpl. destruct Hk as [[-> | ->] _]; [reflexivity|].
      unfold orStr. destruct (truthyStr u); reflexivity. }
    destruct (handleWebSocketUpgrade platform (objectNamed objects u now) (Some u) now)
      as [a' r]. simpl in *.
    split; [exact Hst|]. exists a'. rewrite lookup_insert_eq. auto.
Qed.

End WithPlatform.

End RouterFacts.

(* ===================================================================== *)
(** ** Further properties of the reminder workflow                        *)
(* ===================================================================== *)

Module ReminderFacts.
Import Types Store Effect Workflow ReminderLog.
Local Open Scope Z_scope.

Section WithEnv.
Variable env : Env.
Variable params : TaskWorkflowParams.






(** X21.  With the database reachable throughout, a task that every read
    finds open and a due date that resolves to [d], the run ends at the first
    attempt of every step with [success = true], [reminderSent = true],
    [scheduledFor = d - 86400] and the message naming the task's title, and
    it has appended exactly one reminder row to the conversation log. *)
Theorem open_task_is_reminded w r d :
  (forall t, dbUp env t = true) ->
  selectTask (tasksAt env (time w)) (p_taskId params) (p_userId params) = Some r ->
  (forall t, stillIncomplete
               (selectTask (tasksAt env t) (p_taskId params) (p_userId params))
             = true) ->
  orNum (p_dueDate params) (row_due_date r) = Some d -> d <> 0 ->
  exists res messageId now,
    fst (handleReminderWorkflow env params w) = Ok res
    /\ success res = true
    /\ reminderSent res = Some true
    /\ scheduledFor res = Some (d - 86400)
    /\ message res = "Reminder sent for task: " +:+ row_title r
    /\ conversations (snd (handleReminderWorkflow env params w))
       = conversations w ++ [reminderRow params (taskOfRow r) messageId now]
    /\ Forall (fun name =>
                 attemptsOf name (trace (snd (handleReminderWorkflow env params w)))
                 = S (attemptsOf name (trace w)))
              [VERIFY; CALCULATE; RECHECK; SEND].
Proof.
  intros Hup Hrow Hopen Hdue Hnz.
  assert (Hc : task_completed (taskOfRow r) = false).
  { specialize (Hopen (time w)). rewrite Hrow in Hopen. simpl in Hopen.
    simpl. destruct (Boolean (row_completed r)); [discriminate | reflexivity]. }
  assert (Hverify : step_do env VERIFY (verifyTask env params) w
                    = (Ok (taskOfRow r), tick (record (StepAttempt VERIFY) w))).
  { apply WorkflowFacts.attempts_ok. unfold verifyTask, bind, queryTask. simpl.
    rewrite Hup, Hrow. reflexivity. }
  pose proof (WorkflowFacts.run_after_verify env params w _ _ Hverify Hc) as Hrun.
  unfold afterVerify in Hrun. unfold bind at 1 in Hrun.
  rewrite (WorkflowFacts.calculate_step env params (taskOfRow r) _ d Hdue Hnz)
    in Hrun.
  set (w2 := tick (record (StepAttempt CALCULATE)
                     (tick (record (StepAttempt VERIFY) w)))) in Hrun.
  set (rt := mkReminderTime _ _ _ _) in Hrun.
  assert (Hwait : exists w3 slept,
             waitForReminderTime rt w2 = (Ok tt, w3)
             /\ conversations w3 = conversations w
             /\ trace w3 = trace w ++ [StepAttempt VERIFY; StepAttempt CALCULATE]
                                    ++ slept
             /\ forall name, attemptsOf name slept = 0%nat).
  { unfold waitForReminderTime, step_sleep.
    destruct (negb (shouldSendNow rt) && (0 <? timeUntilReminder rt)).
    - eexists _, [Slept WAIT _]. split; [reflexivity|]. split; [reflexivity|].
      split; [simpl; rewrite <- !app_assoc; reflexivity | reflexivity].
    - eexists _, []. split; [reflexivity|]. split; [reflexivity|].
      split; [simpl; rewrite <- !app_assoc; reflexivity | reflexivity]. }
  destruct Hwait as [w3 [slept [Hwait [Hlog3 [Htr3 Hslept]]]]].
  unfold bind at 1 in Hrun. rewrite Hwait in Hrun.
  assert (Hrecheck : step_do env RECHECK (recheckTaskStatus env params) w3
                     = (Ok true, tick (record (StepAttempt RECHECK) w3))).
  { apply WorkflowFacts.attempts_ok.
    unfold recheckTaskStatus, bind, queryTask. simpl. rewrite Hup.
    specialize (Hopen (time w3)). unfold stillIncomplete in Hopen.
    destruct (selectTask (tasksAt env (time w3)) (p_taskId params)
                (p_userId params)); [|discriminate].
    simpl. rewrite Hopen. reflexivity. }
  unfold bind at 1 in Hrun. rewrite Hrecheck in Hrun.
  cbv beta iota delta [negb] in Hrun.
  set (w4 := tick (record (StepAttempt RECHECK) w3)) in Hrun.
  assert (Hsend : step_do env SEND (sendReminder env params (taskOfRow r)) w4
                  = (Ok true,
                     mkWorld (S (S (S (time w4))))
                       (conversations w4
                        ++ [reminderRow params (taskOfRow r) (uuidAt env (time w4))
                              (clockMs env (S (time w4)) / 1000)])
                       (trace w4 ++ [StepAttempt SEND]))).
  { apply WorkflowFacts.attempts_ok.
    unfold sendReminder, bind, randomUUID, nowSeconds, insertConversation, ret.
    simpl. rewrite Hup. reflexivity. }
  unfold bind in Hrun. rewrite Hsend in Hrun. unfold ret in Hrun.
  rewrite Hrun.
  eexists _, _, _. split; [reflexivity|].
  split; [reflexivity|]. split; [reflexivity|]. split; [reflexivity|].
  split; [reflexivity|].
  split; [subst w4; simpl; rewrite Hlog3; reflexivity|].
  subst w4. simpl. rewrite Htr3.
  repeat constructor;
    rewrite !WorkflowFacts.attemptsOf_app, Hslept; unfold attemptsOf; simpl; lia.
Qed.

End WithEnv.

End ReminderFacts.

(* ===================================================================== *)
(** ** The further properties on sample inputs                            *)
(* ===================================================================== *)

Module Scenarios.
Import Types Store Effect Agent Tasks Maintenance RegistryInvariants Samples
       MoreSamples.
Local Open Scope Z_scope.

Lemma execute_posts_only_validated_witness :
  (exists res, fst (Email.execute welcome postmark noMail) = Ok res)
  /\ map Email.HtmlBody (Email.requests (snd (Email.execute welcome postmark noMail)))
     = [Some "Hello Bob"].
Proof.
  destruct (EmailFacts.execute_posts_only_validated welcome postmark noMail
              _ _ eq_refl) as [Hres _].
  split; [exact Hres | reflexivity].
Defined.

Lemma execute_records_only_success_witness :
  Email.agentCalls (snd (Email.execute welcome postmark noMail))
  = [Email.CheckRateLimit "u1" "email" 10 3600000;
     Email.RecordRateLimitCall "u1" "email"].
Proof.
  destruct (EmailFacts.execute_records_only_success welcome postmark noMail
              _ _ eq_refl) as [Hsent _].
  exact (proj1 (Hsent eq_refl)).
Defined.

Lemma calls_keep_completion_coherent_witness :
  Forall coherent
    (tasks (foldl (fun w c => perform healthy c w) (tableOf [openRow; otherRow])
              [Create "u1" "Buy milk" None None None; Complete "u1" "t1";
               Delete "u2" "t3"])).
Proof.
  refine (proj1 (TaskFacts.calls_keep_completion_coherent healthy
                   [Create "u1" "Buy milk" None None None; Complete "u1" "t1";
                    Delete "u2" "t3"]
                   (tableOf [openRow; otherRow]) _)).
  repeat constructor; unfold coherent; simpl;
    first [ intros H; eexists; reflexivity | intros H; lia
          | intros H; exfalso; apply H; reflexivity
          | intros [x Hx]; discriminate Hx ].
Defined.

Lemma create_then_get_witness :
  exists task w1,
    createTask healthy "u1" "Buy milk" (Some "two litres") None None
      (tableOf [openRow; otherRow]) = (Ok task, w1)
    /\ getTask healthy "u1" (task_id task) w1 = (Ok (Some (asStored task)), advance w1)
    /\ (Some "two litres" <> Some EmptyString -> @None Z <> Some 0 ->
        asStored task = task)
    /\ task_id task = "6f1c"
    /\ (primaryKey (tableOf [openRow; otherRow]) -> primaryKey w1)
    /\ (foreignKey (tableOf [openRow; otherRow]) -> foreignKey w1).
Proof.
  apply (TaskFacts.create_then_get healthy "u1" "Buy milk" (Some "two litres")
           None None (tableOf [openRow; otherRow])).
  - intros n. reflexivity.
  - left. reflexivity.
  - repeat constructor; discriminate.
Defined.

Lemma complete_marks_and_stamps_witness :
  exists w',
    completeTask healthy "u1" "t1" (tableOf [milkRow; openRow])
    = (Ok (mapDbTaskToTask (markCompleted 1000000 openRow)), w')
    /\ tasks w' = [milkRow; markCompleted 1000000 openRow].
Proof.
  destruct (TaskFacts.complete_marks_and_stamps healthy "u1" "t1"
              (tableOf [milkRow; openRow]) (fun n => eq_refl)) as [Hfound _].
  destruct (Hfound openRow eq_refl) as [w' [Hrun _]].
  exists w'. split; [exact Hrun|].
  vm_compute in Hrun. injection Hrun as <-. reflexivity.
Defined.

Lemma delete_removes_only_that_task_witness :
  exists w',
    deleteTask healthy "u1" "t1" (tableOf [milkRow; openRow; otherRow]) = (Ok tt, w')
    /\ getTask healthy "u1" "t1" w' = (Ok None, advance w')
    /\ deleteTask healthy "u1" "t1" w' = (Thrown "Task not found", advance w')
    /\ forall j v, (j, v) <> ("t1", "u1") ->
         selectTask (tasks w') j v
         = selectTask (tasks (tableOf [milkRow; openRow; otherRow])) j v.
Proof.
  apply (TaskFacts.delete_removes_only_that_task healthy "u1" "t1" openRow
           (tableOf [milkRow; openRow; otherRow])).
  - intros n. reflexivity.
  - reflexivity.
Defined.

Lemma update_changes_named_fields_witness :
  exists t w',
    updateTask healthy "u1" "t2" retitle (tableOf [milkRow; openRow]) = (Ok t, w')
    /\ task_title t = "Pay the rent"
    /\ task_description t = None.
Proof.
  destruct (TaskFacts.update_changes_named_fields healthy "u1" "t2" retitle
              (tableOf [milkRow; openRow]) (fun n => eq_refl)) as [Hfound _].
  destruct (Hfound milkRow eq_refl) as [t [w' [Hrun [Ht [_ [_ [_ [_ [_ [Hdesc _]]]]]]]]]].
  exists t, w'. split; [exact Hrun|]. split; [rewrite Ht; reflexivity|].
  apply Hdesc. reflexivity.
Defined.

Lemma list_is_users_newest_first_witness :
  exists rows,
    listUserTasks healthy "u1" (Some false) (tableOf [openRow; otherRow; milkRow])
    = (Ok (map mapDbTaskToTask rows), advance (tableOf [openRow; otherRow; milkRow]))
    /\ rows ≡ₚ [openRow; milkRow]
    /\ StronglySorted newestFirst rows
    /\ Forall (fun t => task_userId t = "u1") (map mapDbTaskToTask rows).
Proof.
  apply (TaskFacts.list_is_users_newest_first healthy "u1" (Some false)
           (tableOf [openRow; otherRow; milkRow])).
  reflexivity.
Defined.

Lemma cleanup_is_exact_and_idempotent_witness :
  exists res w1,
    handleCleanupWorkflow muchLater 3 cleanupParams
      (tableOf [milkRow; doneRow; otherRow]) = (Ok res, w1)
    /\ tasks w1 = [milkRow; otherRow]
    /\ deletedCount res = 1%nat.
Proof.
  destruct (MaintenanceFacts.cleanup_is_exact_and_idempotent muchLater 3
              cleanupParams (tableOf [milkRow; doneRow; otherRow]) eq_refl)
    as [res [w1 [Hrun [Htable [Hcount _]]]]].
  exists res, w1. split; [exact Hrun|]. split; [exact Htable | exact Hcount].
Defined.

Lemma sessions_belong_to_first_user_witness :
  let first := handleWebSocketUpgrade hibernating
                 (activate None ∅ 0 [] [] 0) (Some "alice") 10 in
  let a := run hibernating (fst first) dayOfEvents in
  status (snd first) = 101%nat
  /\ forall k s, sessions a !! k = Some s -> s_userId s = "alice" /\ webSocket s = k.
Proof.
  apply (RegistryMoreFacts.sessions_belong_to_first_user hibernating 0 [] [] 0
           "alice" 10 dayOfEvents).
  discriminate.
Defined.


Lemma open_task_is_reminded_witness :
  exists res messageId now,
    fst (Workflow.handleReminderWorkflow (envWith 5 (fun _ => [openRow])) params start)
    = Ok res
    /\ reminderSent res = Some true
    /\ scheduledFor res = Some 1086400
    /\ Workflow.conversations
         (snd (Workflow.handleReminderWorkflow (envWith 5 (fun _ => [openRow]))
                 params start))
       = [ReminderLog.reminderRow params (Workflow.taskOfRow openRow) messageId now].
Proof.
  destruct (ReminderFacts.open_task_is_reminded (envWith 5 (fun _ => [openRow]))
              params start openRow 1172800
              (fun t => eq_refl) eq_refl (fun t => eq_refl) eq_refl
              ltac:(lia))
    as [res [messageId [now [Hrun [_ [Hsent [Hat [_ [Hlog _]]]]]]]]].
  exists res, messageId, now. auto.
Defined.

End Scenarios.
